(** * Reddit crawler: configuration store, storage, summarizer, content
    client and command front end

    A shallow embedding of the Python sources ([config.py], [storage.py],
    [summarizer.py], [reddit_client.py], [main.py]) and the properties the
    specification states about them.

    Python values are an inductive type, dictionaries are insertion-ordered
    association lists, exceptions are an explicit error result, and the
    file system, the clock and the two remote services are explicit state. *)

From Stdlib Require Import ZArith String Ascii List Bool Lia.
From stdpp Require Import base gmap strings list pretty.

#[local] Set Warnings "-register-all".
#[local] Open Scope string_scope.

(** ** Python values *)

(** A Python [float] is an IEEE-754 binary64; it is carried as its 64-bit
    pattern and never interpreted arithmetically here. *)
Record float64 : Type := Float64 { float_bits : Z }.

(** The values that occur in configurations, post records and JSON files. *)
Inductive value : Type :=
| VNone
| VBool (b : bool)
| VInt (n : Z)
| VFloat (f : float64)
| VStr (s : string)
| VList (l : list value)
| VDict (d : list (string * value)).

(** A [dict] with string keys, in insertion order. *)
Abbreviation dict := (list (string * value)).

(** Exceptions the modelled code can raise, by class.  [KeyError] carries
    the missing key and [ApiError] the message of a failure reported by one
    of the remote clients. *)
Inductive exn : Type :=
| KeyError (key : string)
| TypeError
| ValueError
| AttributeError
| OSError
| JSONDecodeError
| ApiError (msg : string).

(** The outcome of a call: a value, or a raised exception. *)
Inductive result (A : Type) : Type :=
| Ok (a : A)
| Raise (e : exn).
Arguments Ok {A} a.
Arguments Raise {A} e.

#[global] Instance result_ret : MRet result := fun A a => Ok a.
#[global] Instance result_bind : MBind result := fun A B f r =>
  match r with
  | Ok a => f a
  | Raise e => Raise e
  end.

Definition is_ok {A} (r : result A) : bool :=
  match r with Ok _ => true | Raise _ => false end.

(** ** Dictionaries *)

(** [d[key]] when present. *)
Fixpoint dict_get (key : string) (d : dict) : option value :=
  match d with
  | [] => None
  | (k, v) :: rest => if String.eqb k key then Some v else dict_get key rest
  end.

(** [d[key] = v]: an existing key keeps its position, a new key goes last. *)
Fixpoint dict_set (d : dict) (key : string) (v : value) : dict :=
  match d with
  | [] => [(key, v)]
  | (k, x) :: rest =>
      if String.eqb k key then (k, v) :: rest else (k, x) :: dict_set rest key v
  end.

Definition dict_has (key : string) (d : dict) : bool :=
  match dict_get key d with Some _ => true | None => false end.

Definition keys (d : dict) : list string := map fst d.

(** A Python dict holds each key once. *)
Definition unique_keys (d : dict) : Prop := NoDup (keys d).

Definition is_dict (v : value) : bool :=
  match v with VDict _ => true | _ => false end.

(** Truth value of an object, as [if x:], [not x] and [x or y] test it. *)
Definition truthy (v : value) : bool :=
  match v with
  | VNone => false
  | VBool b => b
  | VInt n => negb (n =? 0)%Z
  | VFloat f => negb ((float_bits f =? 0)%Z || (float_bits f =? 2 ^ 63)%Z)
  | VStr s => negb (String.eqb s "")
  | VList l => match l with [] => false | _ => true end
  | VDict d => match d with [] => false | _ => true end
  end.

(** [needle in haystack] for two strings. *)
Fixpoint str_contains (needle haystack : string) : bool :=
  String.prefix needle haystack ||
  match haystack with
  | EmptyString => false
  | String _ rest => str_contains needle rest
  end.

(** [obj[key]] with a string key: only a dict can be indexed by a string. *)
Definition getitem (obj : value) (key : string) : result value :=
  match obj with
  | VDict d =>
      match dict_get key d with
      | Some v => Ok v
      | None => Raise (KeyError key)
      end
  | _ => Raise TypeError
  end.

(** [obj[key] = v] with a string key. *)
Definition setitem (obj : value) (key : string) (v : value) : result value :=
  match obj with
  | VDict d => Ok (VDict (dict_set d key v))
  | _ => Raise TypeError
  end.

(** [key in obj] with a string key: membership in a dict, substring of a
    string, element of a list; other objects are not iterable. *)
Definition contains (key : string) (obj : value) : result bool :=
  match obj with
  | VDict d => Ok (dict_has key d)
  | VStr s => Ok (str_contains key s)
  | VList l =>
      Ok (existsb (fun x => match x with VStr s => String.eqb s key | _ => false end) l)
  | _ => Raise TypeError
  end.

(** [s.split(sep)] for a one-character separator: never the empty list. *)
Fixpoint split (sep : ascii) (s : string) : list string :=
  match s with
  | EmptyString => [EmptyString]
  | String c rest =>
      if Ascii.eqb c sep then EmptyString :: split sep rest
      else match split sep rest with
           | hd :: tl => String c hd :: tl
           | [] => [String c EmptyString]
           end
  end.


(** ** Decimal digits *)

Definition is_digit (c : ascii) : bool :=
  (48 <=? N_of_ascii c)%N && (N_of_ascii c <=? 57)%N.

Fixpoint all_digits (s : string) : bool :=
  match s with
  | EmptyString => true
  | String c r => is_digit c && all_digits r
  end.

(** The number written by the digits [s], continuing from [acc]. *)
Fixpoint digits_value (acc : Z) (s : string) : Z :=
  match s with
  | EmptyString => acc
  | String c r => digits_value (acc * 10 + (Z.of_N (N_of_ascii c) - 48)) r
  end.

(** ** Dotted paths, as the specification words them *)

(** [resolves v keys x]: every segment of [keys] resolves through nested
    mappings starting at [v], and the value reached is [x]. *)
Inductive resolves : value → list string → value → Prop :=
| resolves_here v : resolves v [] v
| resolves_step d key child rest x :
    dict_get key d = Some child →
    resolves child rest x →
    resolves (VDict d) (key :: rest) x.

(** [stuck v keys]: walking [keys] from [v], some segment is absent from
    the mapping it is looked up in, or a non-mapping value is indexed. *)
Inductive stuck : value → list string → Prop :=
| stuck_absent d key rest :
    dict_get key d = None → stuck (VDict d) (key :: rest)
| stuck_non_mapping v key rest :
    is_dict v = false → stuck v (key :: rest)
| stuck_below d key child rest :
    dict_get key d = Some child → stuck child rest → stuck (VDict d) (key :: rest).

(** ** The file system *)

(** Regular files with their text, the paths that are directories, and the
    paths that cannot be opened for writing (missing parent directory,
    permissions). *)
Record filesystem : Type := Filesystem {
  files : gmap string string;
  dirs : gset string;
  unwritable : gset string
}.

(** [os.path.exists(path)] *)
Definition path_exists (fs : filesystem) (path : string) : bool :=
  bool_decide (is_Some (files fs !! path) ∨ path ∈ dirs fs).

(** [open(path, 'r')] followed by reading the whole file. *)
Definition open_read (fs : filesystem) (path : string) : result string :=
  if decide (path ∈ dirs fs) then Raise OSError
  else match files fs !! path with
       | Some text => Ok text
       | None => Raise OSError
       end.

(** [open(path, 'w')], writing [text] and closing the file. *)
Definition open_write (fs : filesystem) (path text : string) : result filesystem :=
  if decide (path ∈ dirs fs ∨ path ∈ unwritable fs) then Raise OSError
  else Ok (Filesystem (<[path := text]> (files fs)) (dirs fs) (unwritable fs)).

(** [os.path.join(a, b)] on POSIX paths. *)
Definition ends_with_slash (s : string) : bool :=
  match String.get (String.length s - 1) s with
  | Some c => Ascii.eqb c "/"
  | None => false
  end.

Definition path_join (a b : string) : string :=
  if String.prefix "/" b then b
  else if String.eqb a "" || ends_with_slash a then a ++ b
  else a ++ "/" ++ b.

(** ** Dates *)

(** What [datetime.now()] returns. *)
Record datetime : Type := Datetime {
  year : Z; month : Z; day : Z; hour : Z; minute : Z; second : Z
}.

(** The decimal digit of [n mod 10]. *)
Definition digit_char (n : Z) : ascii := ascii_of_N (Z.to_N (48 + n mod 10)).

Definition digit (n : Z) : string := String (digit_char n) "".

Definition pad2 (n : Z) : string := (digit (n / 10) ++ digit n)%Z.
Definition pad4 (n : Z) : string :=
  (digit (n / 1000) ++ digit (n / 100) ++ digit (n / 10) ++ digit n)%Z.

(** [strftime("%Y%m%d_%H%M%S")] *)
Definition strftime_compact (t : datetime) : string :=
  pad4 (year t) ++ pad2 (month t) ++ pad2 (day t) ++ "_" ++
  pad2 (hour t) ++ pad2 (minute t) ++ pad2 (second t).

(** [strftime("%Y-%m-%d %H:%M:%S")] *)
Definition strftime_iso (t : datetime) : string :=
  pad4 (year t) ++ "-" ++ pad2 (month t) ++ "-" ++ pad2 (day t) ++ " " ++
  pad2 (hour t) ++ ":" ++ pad2 (minute t) ++ ":" ++ pad2 (second t).

(** A reading of the clock: four-digit year and fields in range. *)
Definition valid_datetime (t : datetime) : Prop :=
  (1000 ≤ year t ≤ 9999 ∧ 1 ≤ month t ≤ 12 ∧ 1 ≤ day t ≤ 31 ∧
   0 ≤ hour t < 24 ∧ 0 ≤ minute t < 60 ∧ 0 ≤ second t < 60)%Z.

(** ** Library interfaces *)

(** What the modelled code needs from the Python run time beyond the
    operations spelled out here: [repr] of a value (used for floats and for
    containers, whose text depends on the float and string formatting
    rules), [float] on a well-formed literal, and the message of a built-in
    exception. *)
Class PythonLib : Type := {
  py_repr : value → string;
  float_of_literal : string → float64;
  builtin_message : exn → string
}.

(** The two entry points of the [json] module the sources call:
    [json.dump(obj, f, indent=2, ensure_ascii=...)], as the text written,
    and [json.load(f)], on the text read. *)
Class JsonLib : Type := {
  json_dump : bool → value → string;
  json_load : string → result value
}.

(** ** JSON text

    An executable model of [json.dump(..., indent=2)] and [json.load] on
    file text (UTF-8 bytes), following the documented behaviour of the
    Python library: the item separator is a comma followed by a newline and
    the indentation, the key separator is a colon and a space, strings are
    escaped according to [ensure_ascii], and the decoder accepts the JSON
    grammar with the [NaN] and [Infinity] extensions. *)

Module Json.

Definition dquote : ascii := "034"%char.
Definition backslash : ascii := "092"%char.
Definition newline : ascii := "010"%char.

Definition hex_digit (n : N) : ascii :=
  if (n <? 10)%N then ascii_of_N (48 + n) else ascii_of_N (87 + n).

Definition hex4 (n : N) : string :=
  String (hex_digit (n / 4096 mod 16)) (String (hex_digit (n / 256 mod 16))
    (String (hex_digit (n / 16 mod 16)) (String (hex_digit (n mod 16)) ""))).

Definition u_escape (n : N) : string := String backslash (String "u" (hex4 n)).

(** The code points of a UTF-8 text. *)
Fixpoint decode_utf8 (s : string) (pending : N) (more : nat) : list N :=
  match s with
  | EmptyString => []
  | String c r =>
      let b := N_of_ascii c in
      match more with
      | S m =>
          let cp := (pending * 64 + b mod 64)%N in
          match m with
          | O => cp :: decode_utf8 r 0%N O
          | _ => decode_utf8 r cp m
          end
      | O =>
          if (b <? 128)%N then b :: decode_utf8 r 0%N O
          else if (b <? 224)%N then decode_utf8 r (b mod 32)%N 1
          else if (b <? 240)%N then decode_utf8 r (b mod 16)%N 2
          else decode_utf8 r (b mod 8)%N 3
      end
  end.

(** The UTF-8 bytes of a code point. *)
Definition utf8 (cp : N) : string :=
  (if cp <? 128 then String (ascii_of_N cp) ""
   else if cp <? 2048 then
     String (ascii_of_N (192 + cp / 64)) (String (ascii_of_N (128 + cp mod 64)) "")
   else if cp <? 65536 then
     String (ascii_of_N (224 + cp / 4096))
       (String (ascii_of_N (128 + cp / 64 mod 64))
          (String (ascii_of_N (128 + cp mod 64)) ""))
   else
     String (ascii_of_N (240 + cp / 262144))
       (String (ascii_of_N (128 + cp / 4096 mod 64))
          (String (ascii_of_N (128 + cp / 64 mod 64))
             (String (ascii_of_N (128 + cp mod 64)) ""))))%N.

(** The escapes both encoders apply: quote, backslash and control
    characters. *)
Definition escape_basic (cp : N) : option string :=
  (if cp =? 34 then Some (String backslash (String dquote ""))
   else if cp =? 92 then Some (String backslash (String backslash ""))
   else if cp =? 10 then Some (String backslash "n")
   else if cp =? 13 then Some (String backslash "r")
   else if cp =? 9 then Some (String backslash "t")
   else if cp =? 8 then Some (String backslash "b")
   else if cp =? 12 then Some (String backslash "f")
   else if cp <? 32 then Some (u_escape cp)
   else None)%N.

(** [ensure_ascii=False]: bytes other than the basic escapes are kept. *)
Fixpoint escape_bytes (s : string) : string :=
  match s with
  | EmptyString => ""
  | String c r =>
      match escape_basic (N_of_ascii c) with
      | Some e => e ++ escape_bytes r
      | None => String c (escape_bytes r)
      end
  end.

(** [ensure_ascii=True]: everything outside space..tilde is a [\u] escape,
    a surrogate pair above the basic plane. *)
Definition escape_ascii (cp : N) : string :=
  match escape_basic cp with
  | Some e => e
  | None =>
      (if cp <? 127 then String (ascii_of_N cp) ""
       else if cp <? 65536 then u_escape cp
       else u_escape (55296 + (cp - 65536) / 1024) ++
            u_escape (56320 + (cp - 65536) mod 1024))%N
  end.

(** The inside of a string literal. *)
Definition escape (ensure_ascii : bool) (s : string) : string :=
  if ensure_ascii then String.concat "" (map escape_ascii (decode_utf8 s 0%N O))
  else escape_bytes s.

Definition encode_string (ensure_ascii : bool) (s : string) : string :=
  String dquote (escape ensure_ascii s ++ String dquote "").

Definition nan_bits : Z := 0x7ff8000000000000.
Definition inf_bits : Z := 0x7ff0000000000000.
Definition neg_inf_bits : Z := 0xfff0000000000000.

Definition is_nan (f : float64) : bool :=
  ((float_bits f / 2 ^ 52) mod 2048 =? 2047)%Z &&
  negb (float_bits f mod 2 ^ 52 =? 0)%Z.

Definition newline_indent (level : nat) : string :=
  String newline (String.concat "" (repeat "  " level)).

Section Codec.
Context {P : PythonLib}.

Definition encode_float (f : float64) : string :=
  if is_nan f then "NaN"
  else if (float_bits f =? inf_bits)%Z then "Infinity"
  else if (float_bits f =? neg_inf_bits)%Z then "-Infinity"
  else py_repr (VFloat f).

(** [json.dumps(v, indent=2, ensure_ascii=...)] at nesting depth [level]:
    the items of a non-empty container each start a line, indented one
    level deeper, and are joined by commas. *)
Fixpoint encode (ensure_ascii : bool) (level : nat) (v : value) : string :=
  match v with
  | VNone => "null"
  | VBool true => "true"
  | VBool false => "false"
  | VInt n => pretty n
  | VFloat f => encode_float f
  | VStr s => encode_string ensure_ascii s
  | VList [] => "[]"
  | VList l =>
      "[" ++ newline_indent (S level) ++
      String.concat ("," ++ newline_indent (S level))
        (map (encode ensure_ascii (S level)) l) ++
      newline_indent level ++ "]"
  | VDict [] => "{}"
  | VDict d =>
      "{" ++ newline_indent (S level) ++
      String.concat ("," ++ newline_indent (S level))
        (map (fun '(k, x) =>
                encode_string ensure_ascii k ++ ": " ++ encode ensure_ascii (S level) x) d) ++
      newline_indent level ++ "}"
  end.

(** *** Decoding *)

Definition is_ws (c : ascii) : bool :=
  Ascii.eqb c " " || Ascii.eqb c newline || Ascii.eqb c "009" || Ascii.eqb c "013".

Fixpoint skip_ws (s : string) : string :=
  match s with
  | String c r => if is_ws c then skip_ws r else s
  | EmptyString => ""
  end.

Definition hex_value (c : ascii) : option N :=
  let n := N_of_ascii c in
  (if (48 <=? n) && (n <=? 57) then Some (n - 48)
   else if (97 <=? n) && (n <=? 102) then Some (n - 87)
   else if (65 <=? n) && (n <=? 70) then Some (n - 55)
   else None)%N.

Definition read_hex4 (s : string) : option (N * string) :=
  match s with
  | String a (String b (String c (String d r))) =>
      a ← hex_value a; b ← hex_value b; c ← hex_value c; d ← hex_value d;
      Some ((((a * 16 + b) * 16 + c) * 16 + d)%N, r)
  | _ => None
  end.

Definition simple_escape (c : ascii) : option ascii :=
  if Ascii.eqb c dquote then Some dquote
  else if Ascii.eqb c backslash then Some backslash
  else if Ascii.eqb c "/" then Some "/"%char
  else if Ascii.eqb c "b" then Some "008"%char
  else if Ascii.eqb c "f" then Some "012"%char
  else if Ascii.eqb c "n" then Some newline
  else if Ascii.eqb c "r" then Some "013"%char
  else if Ascii.eqb c "t" then Some "009"%char
  else None.

(** The rest of a string literal after its opening quote. *)
Fixpoint scan_string (fuel : nat) (s : string) (acc : string) : option (string * string) :=
  match fuel, s with
  | O, _ | _, EmptyString => None
  | S fuel, String c r =>
      if Ascii.eqb c dquote then Some (acc, r)
      else if Ascii.eqb c backslash then
        match r with
        | EmptyString => None
        | String e r' =>
            if Ascii.eqb e "u" then
              '(u, r2) ← read_hex4 r';
              let single := scan_string fuel r2 (acc ++ utf8 u) in
              if (55296 <=? u)%N && (u <? 56320)%N then
                match r2 with
                | String b1 (String b2 r3) =>
                    if Ascii.eqb b1 backslash && Ascii.eqb b2 "u" then
                      match read_hex4 r3 with
                      | Some (lo, r4) =>
                          if (56320 <=? lo)%N && (lo <? 57344)%N then
                            scan_string fuel r4
                              (acc ++ utf8 (65536 + (u - 55296) * 1024 + (lo - 56320))%N)
                          else single
                      | None => single
                      end
                    else single
                | _ => single
                end
              else single
            else
              ch ← simple_escape e;
              scan_string fuel r' (acc ++ String ch "")
        end
      else if (N_of_ascii c <? 32)%N then None
      else scan_string fuel r (acc ++ String c "")
  end.

Fixpoint take_digits (s : string) : string * string :=
  match s with
  | String c r =>
      if is_digit c then let '(d, r') := take_digits r in (String c d, r')
      else ("", s)
  | EmptyString => ("", "")
  end.

(** [s] without its first character, when that is [c]. *)
Definition after_char (c : ascii) (s : string) : option string :=
  match s with
  | String c' r => if Ascii.eqb c' c then Some r else None
  | EmptyString => None
  end.

(** The fraction of a number: a dot and at least one digit. *)
Definition take_fraction (s : string) : string * string :=
  match after_char "." s with
  | Some r =>
      let '(d, r') := take_digits r in
      if String.eqb d "" then ("", s) else (String "." d, r')
  | None => ("", s)
  end.

(** The exponent of a number: [e] or [E], an optional sign and at least
    one digit. *)
Definition take_exponent (s : string) : string * string :=
  match s with
  | String e r =>
      if Ascii.eqb e "e" || Ascii.eqb e "E" then
        let '(sign, r1) :=
          match after_char "+" r, after_char "-" r with
          | Some r', _ => ("+", r')
          | None, Some r' => ("-", r')
          | None, None => ("", r)
          end in
        let '(d, r2) := take_digits r1 in
        if String.eqb d "" then ("", s) else (String e (sign ++ d), r2)
      else ("", s)
  | EmptyString => ("", s)
  end.

(** A number after its sign: an [int] unless it has a fraction or an
    exponent. *)
Definition parse_unsigned (neg : bool) (s1 : string) : option (value * string) :=
  let '(int_part, s2) :=
    match after_char "0" s1 with
    | Some r => ("0", r)
    | None => take_digits s1
    end in
  if String.eqb int_part "" then None
  else
    let '(frac, s3) := take_fraction s2 in
    let '(exp, s4) := take_exponent s3 in
    let sign := if neg then "-" else "" in
    if String.eqb frac "" && String.eqb exp "" then
      Some (VInt (if neg then - digits_value 0 int_part else digits_value 0 int_part), s4)
    else Some (VFloat (float_of_literal (sign ++ int_part ++ frac ++ exp)), s4).

Definition parse_number (s : string) : option (value * string) :=
  match after_char "-" s with
  | Some r => parse_unsigned true r
  | None => parse_unsigned false s
  end.

(** [s] without the prefix [p], when it starts with it. *)
Fixpoint strip_prefix (p s : string) : option string :=
  match p, s with
  | EmptyString, _ => Some s
  | String a p', String b s' => if Ascii.eqb a b then strip_prefix p' s' else None
  | _, EmptyString => None
  end.

Definition parse_literal (s : string) : option (value * string) :=
  match strip_prefix "null" s with Some r => Some (VNone, r) | None =>
  match strip_prefix "true" s with Some r => Some (VBool true, r) | None =>
  match strip_prefix "false" s with Some r => Some (VBool false, r) | None =>
  match strip_prefix "NaN" s with Some r => Some (VFloat (Float64 nan_bits), r) | None =>
  match strip_prefix "Infinity" s with Some r => Some (VFloat (Float64 inf_bits), r) | None =>
  match strip_prefix "-Infinity" s with Some r => Some (VFloat (Float64 neg_inf_bits), r) | None =>
  parse_number s
  end end end end end end.

(** One value at the head of [s], and what follows it. *)
Fixpoint parse_value (fuel : nat) (s : string) : option (value * string) :=
  match fuel, s with
  | O, _ | _, EmptyString => None
  | S fuel, String c r =>
      if Ascii.eqb c "[" then
        match after_char "]" (skip_ws r) with
        | Some r' => Some (VList [], r')
        | None => parse_elements fuel (skip_ws r) []
        end
      else if Ascii.eqb c "{" then
        match after_char "}" (skip_ws r) with
        | Some r' => Some (VDict [], r')
        | None => parse_members fuel (skip_ws r) []
        end
      else if Ascii.eqb c dquote then
        '(str, r') ← scan_string (String.length r) r "";
        Some (VStr str, r')
      else parse_literal s
  end
with parse_elements (fuel : nat) (s : string) (acc : list value) : option (value * string) :=
  match fuel with
  | O => None
  | S fuel =>
      '(v, r) ← parse_value fuel s;
      match after_char "," (skip_ws r), after_char "]" (skip_ws r) with
      | Some r', _ => parse_elements fuel (skip_ws r') (acc ++ [v])
      | None, Some r' => Some (VList (acc ++ [v]), r')
      | None, None => None
      end
  end
with parse_members (fuel : nat) (s : string) (acc : dict) : option (value * string) :=
  match fuel with
  | O => None
  | S fuel =>
      r ← after_char dquote s;
      '(key, r1) ← scan_string (String.length r) r "";
      r2 ← after_char ":" (skip_ws r1);
      '(v, r3) ← parse_value fuel (skip_ws r2);
      match after_char "," (skip_ws r3), after_char "}" (skip_ws r3) with
      | Some r4, _ => parse_members fuel (skip_ws r4) (dict_set acc key v)
      | None, Some r4 => Some (VDict (dict_set acc key v), r4)
      | None, None => None
      end
  end.

(** [json.loads(text)]: one value, surrounded by white space only. *)
Definition loads (text : string) : result value :=
  match parse_value (S (String.length text)) (skip_ws text) with
  | Some (v, rest) =>
      if String.eqb (skip_ws rest) "" then Ok v else Raise JSONDecodeError
  | None => Raise JSONDecodeError
  end.

End Codec.

(** The [json] module over a Python run time. *)
Definition python_json (P : PythonLib) : JsonLib :=
  {| json_dump := fun ensure_ascii v => encode ensure_ascii 0 v;
     json_load := loads |}.

End Json.

(** ** config.py: dotted-path access and merge *)

Module Config.

(** The state of a [Config] object once constructed. *)
Record t : Type := Make { config_file : string; config : value }.


(** [Config.get]: the loop over the segments, inside the [try]. *)
Fixpoint get_loop (val : value) (keys : list string) : result value :=
  match keys with
  | [] => Ok val
  | key :: rest => v ← getitem val key; get_loop v rest
  end.

(** [Config.get(key_path, default)]: [except (KeyError, TypeError)]
    returns [default]. *)
Definition get (self : t) (key_path : string) (default : value) : result value :=
  match get_loop (config self) (split "." key_path) with
  | Ok v => Ok v
  | Raise (KeyError _) => Ok default
  | Raise TypeError => Ok default
  | Raise e => Raise e
  end.

(** [Config.set]: the walk to the parent dictionary followed by the
    assignment to the last key.  The dictionaries are shared objects in the
    source, so what is assigned below a key is written back under it. *)
Fixpoint set_walk (config : value) (init : list string) (last_key : string)
    (v : value) : result value :=
  match init with
  | [] => setitem config last_key v
  | key :: rest =>
      present ← contains key config;
      config1 ← (if present : bool then Ok config else setitem config key (VDict []));
      child ← getitem config1 key;
      child' ← set_walk child rest last_key v;
      setitem config1 key child'
  end.

(** The in-memory effect of [Config.set(key_path, value)]. *)
Definition set_value (config : value) (key_path : string) (v : value) : result value :=
  let keys := split "." key_path in
  set_walk config (removelast keys) (List.last keys "") v.

(** [Config._merge_configs]: what ends up under a key whose entry in
    [merged] is [old] when the user value is [val]. *)
Fixpoint merge_entry (old : option value) (val : value) {struct val} : value :=
  match old, val with
  | Some (VDict m), VDict u =>
      VDict ((fix loop (merged items : dict) {struct items} : dict :=
                match items with
                | [] => merged
                | (key, v) :: rest =>
                    loop (dict_set merged key (merge_entry (dict_get key merged) v)) rest
                end) m u)
  | _, _ => val
  end.

(** [Config._merge_configs(default, user)] for two dicts. *)
Fixpoint _merge_configs (default user : dict) {struct user} : dict :=
  match user with
  | [] => default
  | (key, v) :: rest =>
      _merge_configs (dict_set default key (merge_entry (dict_get key default) v)) rest
  end.


(** [Config._merge_configs(default, user)] as [load_config] calls it, on
    whatever [json.load] returned: [user.items()] needs a dict. *)
Definition merge_loaded (default : dict) (user : value) : result value :=
  match user with
  | VDict u => Ok (VDict (_merge_configs default u))
  | _ => Raise AttributeError
  end.

(** [self.default_config], set by [__init__]. *)
Definition default_config : dict :=
  [ ("reddit", VDict [ ("default_limit", VInt 10);
                       ("default_sort", VStr "hot");
                       ("user_agent", VStr "RedditCrawler/1.0") ]);
    ("summarizer", VDict [ ("model", VStr "gemini-2.5-pro");
                           ("include_comments", VBool false) ]);
    ("storage", VDict [ ("data_directory", VStr "data");
                        ("auto_save", VBool true);
                        ("filename_format", VStr "reddit_posts_%Y%m%d_%H%M%S") ]);
    ("filters", VDict [ ("min_score", VInt 0);
                        ("min_comments", VInt 0);
                        ("max_age_days", VInt 30);
                        ("exclude_nsfw", VBool true) ]) ].

Section WithJson.
Context {J : JsonLib}.

(** [Config.save_config(config)]: [self_config] is [self.config] when the
    attribute is already set, [arg] the optional argument.  A failure to
    write is reported on the console and otherwise ignored. *)
Definition save_config (config_file : string) (self_config : option value)
    (arg : option value) (fs : filesystem) : result filesystem :=
  let from_self :=
    match self_config with
    | Some c => Ok c
    | None => Raise AttributeError
    end in
  config_to_save ←
    match arg with
    | Some c => if truthy c then Ok c else from_self
    | None => from_self
    end;
  match open_write fs config_file (json_dump true config_to_save) with
  | Ok fs' => Ok fs'
  | Raise _ => Ok fs
  end.

(** The body of the [try] in [load_config]: read the file, parse it and
    merge it over the defaults. *)
Definition read_settings (config_file : string) (fs : filesystem) : result value :=
  text ← open_read fs config_file;
  user ← json_load text;
  merge_loaded default_config user.

(** [Config.load_config()], called by [__init__] before [self.config]
    exists. *)
Definition load_config (config_file : string) (fs : filesystem)
    : result (value * filesystem) :=
  if path_exists fs config_file then
    match read_settings config_file fs with
    | Ok merged => Ok (merged, fs)
    | Raise _ => Ok (VDict default_config, fs)
    end
  else
    fs' ← save_config config_file None (Some (VDict default_config)) fs;
    Ok (VDict default_config, fs').

(** [Config(config_file)] *)
Definition init (config_file : string) (fs : filesystem) : result (t * filesystem) :=
  '(cfg, fs') ← load_config config_file fs;
  Ok (Make config_file cfg, fs').

(** [Config.set(key_path, value)]: the assignment, then [save_config()]. *)
Definition set (self : t) (key_path : string) (v : value) (fs : filesystem)
    : result (t * filesystem) :=
  config' ← set_value (config self) key_path v;
  let self' := Make (config_file self) config' in
  fs' ← save_config (config_file self') (Some (config self')) None fs;
  Ok (self', fs').

End WithJson.

End Config.

(** ** Predicates used by the statements *)

(** Every dict inside [v] holds each key once, as every Python dict does. *)
Fixpoint well_formed (v : value) : Prop :=
  match v with
  | VList l =>
      (fix all (l : list value) : Prop :=
         match l with
         | [] => True
         | x :: r => well_formed x ∧ all r
         end) l
  | VDict d =>
      unique_keys d ∧
      (fix all (l : dict) : Prop :=
         match l with
         | [] => True
         | (_, x) :: r => well_formed x ∧ all r
         end) d
  | _ => True
  end.

(** Every value of the dict [d] is well formed. *)
Definition all_well_formed (d : dict) : Prop :=
  (fix all (l : dict) : Prop :=
     match l with
     | [] => True
     | (_, x) :: r => well_formed x ∧ all r
     end) d.

(** The walk of [Config.set] along [init] never has to index or assign
    into a non-mapping: every segment already present holds a mapping, and
    so does the place where the last key is assigned. *)
Fixpoint settable (config : value) (init : list string) : bool :=
  match config with
  | VDict d =>
      match init with
      | [] => true
      | key :: rest =>
          match dict_get key d with
          | Some child => settable child rest
          | None => true
          end
      end
  | _ => false
  end.

(** [path] can be opened for writing. *)
Definition writable (fs : filesystem) (path : string) : Prop :=
  (path ∉ dirs fs) ∧ (path ∉ unwritable fs).

(** The file system after [text] has been written to [path]. *)
Definition written (fs : filesystem) (path text : string) : filesystem :=
  Filesystem (<[path := text]> (files fs)) (dirs fs) (unwritable fs).

(** What may follow a value in encoded text: the end of the text, a comma
    or a line break. *)
Definition ends_value (rest : string) : bool :=
  match rest with
  | EmptyString => true
  | String c _ => Ascii.eqb c "," || Ascii.eqb c Json.newline
  end.

(** The text of a value starts with a character that is neither white
    space nor a closing bracket. *)
Definition starts_value (s : string) : bool :=
  match s with
  | EmptyString => false
  | String c _ => negb (Json.is_ws c) && negb (Ascii.eqb c "]")
  end.

(** The float [f] survives [json.dump] and [json.load]: its text is read
    back as [f].  This holds for every float but a [NaN], whatever its
    context in the encoded text. *)
Definition float_round_trips {P : PythonLib} (f : float64) : Prop :=
  starts_value (Json.encode_float f) = true ∧
  ∀ fuel rest, ends_value rest = true →
    Json.parse_value (S fuel) (Json.encode_float f ++ rest) = Some (VFloat f, rest).

(** A Unicode scalar value: a code point that is not a surrogate. *)
Definition is_scalar (cp : N) : bool :=
  ((cp <? 55296) || ((57344 <=? cp) && (cp <? 1114112)))%N.

(** [s] is the UTF-8 encoding of scalar values: decoding it and encoding
    the code points again gives [s] back. *)
Definition utf8_text (s : string) : bool :=
  forallb is_scalar (Json.decode_utf8 s 0%N O) &&
  String.eqb (String.concat "" (map Json.utf8 (Json.decode_utf8 s 0%N O))) s.

(** What the encoder asks of a text: with [ensure_ascii] the text is
    decoded to code points, so it has to be UTF-8; without it the bytes
    are copied. *)
Definition text_ok (ensure_ascii : bool) (s : string) : Prop :=
  ensure_ascii = true → utf8_text s = true.

(** [v] can be written and read back: every dict inside it holds each key
    once, every float survives, and every text and key suits the
    encoder. *)
Fixpoint encodable {P : PythonLib} (ensure_ascii : bool) (v : value) : Prop :=
  match v with
  | VFloat f => float_round_trips f
  | VStr s => text_ok ensure_ascii s
  | VList l =>
      (fix all (l : list value) : Prop :=
         match l with
         | [] => True
         | x :: r => encodable ensure_ascii x ∧ all r
         end) l
  | VDict d =>
      unique_keys d ∧
      (fix all (l : dict) : Prop :=
         match l with
         | [] => True
         | (k, x) :: r => text_ok ensure_ascii k ∧ encodable ensure_ascii x ∧ all r
         end) d
  | _ => True
  end.

(** The number of values in [v], counting each item of a container
    twice. *)
Fixpoint json_size (v : value) : nat :=
  match v with
  | VList l => S (list_sum (map (fun x => S (json_size x)) l))
  | VDict d => S (list_sum (map (fun '(_, x) => S (json_size x)) d))
  | _ => 1
  end.

(** ** Text helpers *)

Definition nl : string := String "010" "".

(** [str(v)], as an f-string formats a field. *)
Definition py_str {P : PythonLib} (v : value) : string :=
  match v with
  | VStr s => s
  | VNone => "None"
  | VBool true => "True"
  | VBool false => "False"
  | VInt n => pretty n
  | _ => py_repr v
  end.

(** [str(e)] for a caught exception. *)
Definition exn_str {P : PythonLib} (e : exn) : string :=
  match e with
  | KeyError key => py_repr (VStr key)
  | ApiError msg => msg
  | _ => builtin_message e
  end.

(** A UTF-8 continuation byte. *)
Definition is_continuation (c : ascii) : bool :=
  (128 <=? N_of_ascii c)%N && (N_of_ascii c <? 192)%N.

(** The first [n] characters of a UTF-8 text. *)
Fixpoint utf8_take (n : nat) (s : string) : string :=
  match s with
  | EmptyString => ""
  | String c r =>
      if is_continuation c then String c (utf8_take n r)
      else match n with
           | O => ""
           | S n' => String c (utf8_take n' r)
           end
  end.

(** [obj[:n]]: strings and lists can be sliced. *)
Definition slice_prefix (n : nat) (obj : value) : result value :=
  match obj with
  | VStr s => Ok (VStr (utf8_take n s))
  | VList l => Ok (VList (firstn n l))
  | _ => Raise TypeError
  end.

(** ASCII white space, as [str.strip()] removes it. *)
Definition is_space (c : ascii) : bool :=
  let n := N_of_ascii c in
  ((n =? 32) || ((9 <=? n) && (n <=? 13)) || ((28 <=? n) && (n <=? 31)))%N.

Fixpoint lstrip (s : string) : string :=
  match s with
  | String c r => if is_space c then lstrip r else s
  | EmptyString => ""
  end.

Fixpoint rstrip (s : string) : string :=
  match s with
  | EmptyString => ""
  | String c r =>
      match rstrip r with
      | EmptyString => if is_space c then "" else String c ""
      | r' => String c r'
      end
  end.

Definition strip (s : string) : string := rstrip (lstrip s).

(** ** Effects: the language-model service and the clock *)

(** The outside world as the summarizer sees it: a call of the model with
    a prompt yields the text of the response or fails, and the clock can be
    read; both may change the world. *)
Class Services (W : Type) : Type := {
  generate_content : string → W → result string * W;
  datetime_now : W → datetime * W;
  datetime_now_valid : ∀ w, valid_datetime (datetime_now w).1
}.

(** Computations that may raise and that act on the world. *)
Definition io (W A : Type) : Type := W → result A * W.

#[global] Instance io_ret {W} : MRet (io W) := fun A a w => (Ok a, w).
#[global] Instance io_bind {W} : MBind (io W) := fun A B f m w =>
  match m w with
  | (Ok a, w') => f a w'
  | (Raise e, w') => (Raise e, w')
  end.

(** A pure computation inside [io]. *)
Definition lift {W A} (r : result A) : io W A := fun w => (r, w).

(** [try: body except Exception as e: handler(e)] *)
Definition try_except {W A} (body : io W A) (handler : exn → io W A) : io W A :=
  fun w =>
    match body w with
    | (Ok a, w') => (Ok a, w')
    | (Raise e, w') => handler e w'
    end.

(** ** summarizer.py *)

Module PostSummarizer.

Definition indent : string := "            ".

Definition system_prompt : string :=
  "You are a helpful assistant that summarizes Reddit posts concisely and accurately.".

Definition error_summary : string := "Error: Could not generate summary".

Section WithPython.
Context {P : PythonLib}.

(** The [Top Comments] lines: [enumerate(comments[:5], 1)]. *)
Fixpoint comment_lines (i : Z) (comments : list value) : result string :=
  match comments with
  | [] => Ok ""
  | comment :: rest =>
      body ← getitem comment "body";
      short ← slice_prefix 200 body;
      lines ← comment_lines (i + 1) rest;
      Ok (pretty i ++ ". " ++ py_str short ++ "..." ++ nl ++ lines)
  end.

(** [content_to_summarize] *)
Definition content_to_summarize (post : dict) (include_comments : bool)
    (comments : option (list value)) : result string :=
  title ← getitem (VDict post) "title";
  let content := "Title: " ++ py_str title ++ nl in
  body ← getitem (VDict post) "content";
  let content :=
    if truthy body then content ++ "Content: " ++ py_str body ++ nl else content in
  match comments with
  | Some (c :: cs) =>
      if include_comments then
        lines ← comment_lines 1 (firstn 5 (c :: cs));
        Ok (content ++ nl ++ "Top Comments:" ++ nl ++ lines)
      else Ok content
  | _ => Ok content
  end.

(** [full_prompt] *)
Definition full_prompt (content : string) : string :=
  system_prompt ++ nl ++ nl ++
  String.concat nl
    [ "";
      indent ++ "Please provide a concise summary of this Reddit post. Include:";
      indent ++ "1. Main topic/subject";
      indent ++ "2. Key points discussed";
      indent ++ "3. Overall sentiment/tone";
      indent ++ "4. Any important details or conclusions";
      indent;
      indent ++ "Post content:";
      indent ++ content;
      indent;
      indent ++ "Provide a summary in 2-3 sentences.";
      indent ].

Section WithServices.
Context {W : Type} {S : Services W}.

(** [PostSummarizer._get_current_timestamp()] *)
Definition _get_current_timestamp : io W string :=
  fun w => let '(t, w') := datetime_now w in (Ok (strftime_iso t), w').

(** [PostSummarizer.summarize_post(post, include_comments, comments)] *)
Definition summarize_post (post : dict) (include_comments : bool)
    (comments : option (list value)) : io W dict :=
  try_except
    (content ← lift (content_to_summarize post include_comments comments);
     text ← generate_content (full_prompt content);
     let summary := strip text in
     let post_with_summary := dict_set post "summary" (VStr summary) in
     stamp ← _get_current_timestamp;
     mret (dict_set post_with_summary "summarized_at" (VStr stamp)))
    (fun e =>
       _ ← lift (getitem (VDict post) "id");
       mret (dict_set post "summary" (VStr error_summary))).

(** [PostSummarizer.summarize_multiple_posts(posts, include_comments)]:
    the loop, with the list built so far. *)
Fixpoint summarize_loop (posts : list dict) (include_comments : bool)
    (summarized_posts : list dict) : io W (list dict) :=
  match posts with
  | [] => mret summarized_posts
  | post :: rest =>
      _ ← lift (title ← getitem (VDict post) "title"; slice_prefix 50 title);
      let comments := if include_comments then Some [] else None in
      summarized_post ← summarize_post post include_comments comments;
      summarize_loop rest include_comments (summarized_posts ++ [summarized_post])%list
  end.

Definition summarize_multiple_posts (posts : list dict) (include_comments : bool)
    : io W (list dict) :=
  summarize_loop posts include_comments [].

(** The listing of one post in a digest. *)
Definition digest_entry (i : Z) (post : dict) : result string :=
  title ← getitem (VDict post) "title";
  subreddit ← getitem (VDict post) "subreddit";
  score ← getitem (VDict post) "score";
  num_comments ← getitem (VDict post) "num_comments";
  summary_line ←
    (if dict_has "summary" post then
       summary ← getitem (VDict post) "summary";
       Ok ("   Summary: " ++ py_str summary ++ nl)
     else Ok "");
  permalink ← getitem (VDict post) "permalink";
  Ok (pretty i ++ ". **" ++ py_str title ++ "**" ++ nl ++
      "   Subreddit: r/" ++ py_str subreddit ++ nl ++
      "   Score: " ++ py_str score ++ " | Comments: " ++ py_str num_comments ++ nl ++
      summary_line ++
      "   Link: " ++ py_str permalink ++ nl ++ nl).

Fixpoint digest_entries (i : Z) (posts : list dict) : result string :=
  match posts with
  | [] => Ok ""
  | post :: rest =>
      entry ← digest_entry i post;
      entries ← digest_entries (i + 1) rest;
      Ok (entry ++ entries)
  end.

Definition digest_system_prompt : string :=
  "You are a helpful assistant that creates insightful summaries of Reddit discussions.".

Definition full_digest_prompt (digest_content : string) : string :=
  digest_system_prompt ++ nl ++ nl ++
  String.concat nl
    [ "";
      indent ++ "Based on these Reddit posts, provide an overall summary highlighting:";
      indent ++ "1. Main themes or topics discussed";
      indent ++ "2. Notable trends or patterns";
      indent ++ "3. Most engaging or controversial posts";
      indent ++ "4. Key insights or takeaways";
      indent;
      indent ++ "Posts data:";
      indent ++ digest_content;
      indent;
      indent ++ "Provide a comprehensive but concise summary in 3-4 paragraphs.";
      indent ].

(** [PostSummarizer.create_digest(posts)] *)
Definition create_digest (posts : list dict) : io W string :=
  try_except
    (match posts with
     | [] => mret "No posts to summarize."
     | _ =>
         entries ← lift (digest_entries 1 (firstn 10 posts));
         let digest_content := "Reddit Posts Summary:" ++ nl ++ nl ++ entries in
         text ← generate_content (full_digest_prompt digest_content);
         let overall_summary := strip text in
         stamp ← _get_current_timestamp;
         mret ("# Reddit Posts Digest" ++ nl ++ nl ++
               "**Generated on:** " ++ stamp ++ nl ++ nl ++
               "## Overall Summary" ++ nl ++ overall_summary ++ nl ++ nl ++
               "## Individual Posts" ++ nl ++ digest_content)
     end)
    (fun e => mret ("Error creating digest: " ++ exn_str e)).

End WithServices.
End WithPython.

End PostSummarizer.

(** ** storage.py *)

(** [len(obj)] *)
Definition py_len (obj : value) : result nat :=
  match obj with
  | VStr s => Ok (String.length s)
  | VList l => Ok (length l)
  | VDict d => Ok (length d)
  | _ => Raise TypeError
  end.

Module DataStorage.

Record t : Type := Make { data_dir : string }.

Section WithJson.
Context {J : JsonLib}.

(** The default name of a posts file, [reddit_posts_<timestamp>.json]. *)
Definition default_posts_name (now : datetime) : string :=
  "reddit_posts_" ++ strftime_compact now ++ ".json".

(** The name [save_posts] writes under: the one given, unless it is
    absent or empty ([if not filename]). *)
Definition written_name (filename : option string) (now : datetime) : string :=
  match filename with
  | Some f => if String.eqb f "" then default_posts_name now else f
  | None => default_posts_name now
  end.

(** [DataStorage.save_posts(posts, filename)]; [now] is the reading of the
    clock used for the default file name.  Returns the path written, or
    the empty string when writing failed. *)
Definition save_posts (self : t) (posts : list value) (filename : option string)
    (now : datetime) (fs : filesystem) : string * filesystem :=
  let filename := written_name filename now in
  let filepath := path_join (data_dir self) filename in
  match open_write fs filepath (json_dump false (VList posts)) with
  | Ok fs' => (filepath, fs')
  | Raise _ => ("", fs)
  end.

(** [DataStorage.load_posts(filename)]: what [json.load] returned, or the
    empty list on any failure (the [print] needs [len(posts)]). *)
Definition load_posts (self : t) (filename : string) (fs : filesystem) : value :=
  let filepath := path_join (data_dir self) filename in
  let loaded :=
    text ← open_read fs filepath;
    posts ← json_load text;
    _ ← py_len posts;
    Ok posts in
  match loaded with
  | Ok posts => posts
  | Raise _ => VList []
  end.

End WithJson.

End DataStorage.

(** ** reddit_client.py *)

Module RedditClient.

(** An object of a submission's comment forest: a comment, or a
    placeholder without a body.  [author] is absent for a deleted
    account. *)
Record comment_object : Type := CommentObject {
  id : string;
  body : option string;
  score : Z;
  created_utc : float64;
  author : option string
}.

(** The content API: [reddit.submission(id=post_id)], then
    [comments.replace_more(limit=0)] and [comments.list()], as the
    flattened forest or the error one of the calls raised. *)
Class Api : Type := {
  submission_comments : string → result (list comment_object)
}.

(** [lst[:limit]] for a Python [int]: a negative bound counts from the
    end. *)
Definition slice_to {A} (limit : Z) (lst : list A) : list A :=
  if (0 <=? limit)%Z then firstn (Z.to_nat limit) lst
  else firstn (length lst - Z.to_nat (- limit)) lst.

(** The [comment_data] dict of a comment that has a body. *)
Definition comment_data (comment : comment_object) (text : string) : value :=
  VDict [ ("id", VStr (id comment));
          ("body", VStr text);
          ("score", VInt (score comment));
          ("created_utc", VFloat (created_utc comment));
          ("author", VStr (match author comment with
                           | Some name => name
                           | None => "[deleted]"
                           end)) ].

(** The loop body: [if hasattr(comment, 'body')]. *)
Fixpoint collect (forest : list comment_object) : list value :=
  match forest with
  | [] => []
  | comment :: rest =>
      match body comment with
      | Some text => comment_data comment text :: collect rest
      | None => collect rest
      end
  end.

(** [RedditClient.get_post_comments(post_id, limit)] *)
Definition get_post_comments {A : Api} (post_id : string) (limit : Z) : list value :=
  match submission_comments post_id with
  | Ok forest => collect (slice_to limit forest)
  | Raise _ => []
  end.

End RedditClient.

(** ** main.py *)

Module Main.

Definition lower_char (c : ascii) : ascii :=
  let n := N_of_ascii c in
  if ((65 <=? n) && (n <=? 90))%N then ascii_of_N (n + 32) else c.

(** [s.lower()] on ASCII letters. *)
Fixpoint lower (s : string) : string :=
  match s with
  | EmptyString => ""
  | String c r => String (lower_char c) (lower r)
  end.

(** [s.isdigit()] on ASCII text: non-empty and digits only. *)
Definition isdigit (s : string) : bool :=
  negb (String.eqb s "") && all_digits s.

(** [s.replace('.', '')] *)
Fixpoint remove_dots (s : string) : string :=
  match s with
  | EmptyString => ""
  | String c r => if Ascii.eqb c "." then remove_dots r else String c (remove_dots r)
  end.

Fixpoint count_dots (s : string) : nat :=
  match s with
  | EmptyString => 0
  | String c r => (if Ascii.eqb c "." then 1 else 0) + count_dots r
  end.

(** [int(s)] on text made of digits. *)
Definition py_int (s : string) : result value :=
  if isdigit s then Ok (VInt (digits_value 0 s)) else Raise ValueError.

(** [float(s)] on text made of digits and dots: a literal has at most one
    dot and at least one digit. *)
Definition py_float {P : PythonLib} (s : string) : result value :=
  if isdigit (remove_dots s) && (count_dots s <=? 1)%nat
  then Ok (VFloat (float_of_literal s))
  else Raise ValueError.

(** The conversion [set_config] applies to [--value]. *)
Definition coerce {P : PythonLib} (raw : string) : result value :=
  if String.eqb (lower raw) "true" || String.eqb (lower raw) "false" then
    Ok (VBool (String.eqb (lower raw) "true"))
  else if isdigit raw then py_int raw
  else if isdigit (remove_dots raw) then py_float raw
  else Ok (VStr raw).

(** The [set-config] command on the process's [Config] object: nothing
    happens unless both options are given and non-empty. *)
Definition set_config {P : PythonLib} {J : JsonLib} (config : Config.t)
    (key raw : option string) (fs : filesystem) : result (Config.t * filesystem) :=
  match key, raw with
  | Some key, Some raw =>
      if String.eqb key "" || String.eqb raw "" then Ok (config, fs)
      else
        v ← coerce raw;
        Config.set config key v fs
  | _, _ => Ok (config, fs)
  end.

End Main.

(** ** Post records and the wording of the summarizer's contract *)

(** The fields the content client gives every post record. *)
Definition post_fields : list string :=
  [ "id"; "title"; "content"; "url"; "score"; "upvote_ratio"; "num_comments";
    "created_utc"; "author"; "permalink"; "subreddit" ].

(** A post record: a dict with the client's fields, whose title is text. *)
Definition post_record (post : dict) : bool :=
  forallb (fun key => dict_has key post) post_fields &&
  match dict_get "title" post with
  | Some (VStr _) => true
  | _ => false
  end.

(** [copy] holds every field of [post] other than the two summary fields,
    with the same value, and no other such field. *)
Definition same_original_fields (post copy : dict) : Prop :=
  ∀ key, key ≠ "summary" → key ≠ "summarized_at" →
         dict_get key copy = dict_get key post.

(** [s] has the shape [pattern], where [d] stands for a decimal digit and
    any other character for itself. *)
Fixpoint matches_pattern (pattern s : string) : bool :=
  match pattern, s with
  | EmptyString, EmptyString => true
  | String p pattern', String c s' =>
      (if Ascii.eqb p "d" then is_digit c else Ascii.eqb p c) &&
      matches_pattern pattern' s'
  | _, _ => false
  end.

(** The batch contract in the specification's words: [summarize_post]
    without comments, applied to each post in turn, results in input
    order. *)
Fixpoint summarize_each {P : PythonLib} {W : Type} {S : Services W}
    (posts : list dict) : io W (list dict) :=
  match posts with
  | [] => mret []
  | post :: rest =>
      first ← PostSummarizer.summarize_post post false None;
      others ← summarize_each rest;
      mret (first :: others)
  end.
From stdpp Require sorting.

(** ** Further wording for dotted paths *)

(** Two key lists part ways: at the first position where they differ both
    still have a segment. *)
Fixpoint diverge (a b : list string) : bool :=
  match a, b with
  | x :: a', y :: b' => if String.eqb x y then diverge a' b' else true
  | _, _ => false
  end.

(** The user configuration leaves the path [keys] to the defaults: it
    holds mappings along the path up to a segment it does not have. *)
Fixpoint untouched (user : value) (keys : list string) : bool :=
  match user, keys with
  | VDict u, key :: rest =>
      match dict_get key u with
      | None => true
      | Some child =>
          match rest with
          | [] => false
          | _ :: _ => untouched child rest
          end
      end
  | _, _ => false
  end.

(** Text of ASCII characters only. *)
Fixpoint ascii_text (s : string) : bool :=
  match s with
  | EmptyString => true
  | String c r => (N_of_ascii c <? 128)%N && ascii_text r
  end.

(** ** config.py: the environment and validation *)

Module Settings.

(** The process environment, once [load_dotenv()] has run. *)
Definition environ : Type := gmap string string.

(** [os.getenv(name, default)]; [os.getenv(name)] has [None] for
    [default]. *)
Definition getenv (env : environ) (name : string) (default : value) : value :=
  match env !! name with
  | Some text => VStr text
  | None => default
  end.

(** [Config.get_reddit_config()] *)
Definition get_reddit_config (self : Config.t) (env : environ) : result dict :=
  user_agent ← Config.get self "reddit.user_agent" VNone;
  default_limit ← Config.get self "reddit.default_limit" VNone;
  default_sort ← Config.get self "reddit.default_sort" VNone;
  Ok [ ("client_id", getenv env "REDDIT_CLIENT_ID" VNone);
       ("client_secret", getenv env "REDDIT_CLIENT_SECRET" VNone);
       ("user_agent", getenv env "REDDIT_USER_AGENT" user_agent);
       ("default_limit", default_limit);
       ("default_sort", default_sort) ].

(** [Config.get_gemini_config()] *)
Definition get_gemini_config (self : Config.t) (env : environ) : result dict :=
  model ← Config.get self "summarizer.model" VNone;
  Ok [ ("api_key", getenv env "GEMINI_API_KEY" VNone);
       ("model", model) ].

(** [Config.get_storage_config()] *)
Definition get_storage_config (self : Config.t) : result dict :=
  data_directory ← Config.get self "storage.data_directory" VNone;
  auto_save ← Config.get self "storage.auto_save" VNone;
  filename_format ← Config.get self "storage.filename_format" VNone;
  Ok [ ("data_directory", data_directory);
       ("auto_save", auto_save);
       ("filename_format", filename_format) ].

(** [Config.get_filter_config()] *)
Definition get_filter_config (self : Config.t) : result dict :=
  min_score ← Config.get self "filters.min_score" VNone;
  min_comments ← Config.get self "filters.min_comments" VNone;
  max_age_days ← Config.get self "filters.max_age_days" VNone;
  exclude_nsfw ← Config.get self "filters.exclude_nsfw" VNone;
  Ok [ ("min_score", min_score);
       ("min_comments", min_comments);
       ("max_age_days", max_age_days);
       ("exclude_nsfw", exclude_nsfw) ].

Definition client_id_required : string :=
  "REDDIT_CLIENT_ID environment variable is required".
Definition client_secret_required : string :=
  "REDDIT_CLIENT_SECRET environment variable is required".
Definition api_key_required : string :=
  "GEMINI_API_KEY environment variable is required for summarization".
Definition limit_not_positive : string :=
  "Reddit default limit must be a positive integer".

(** [not isinstance(x, int) or x <= 0]: a [bool] is an [int] in Python,
    [True] being 1 and [False] 0. *)
Definition not_positive_int (x : value) : bool :=
  match x with
  | VInt n => (n <=? 0)%Z
  | VBool b => (Z.b2z b <=? 0)%Z
  | _ => true
  end.

(** [Config.validate_config()] *)
Definition validate_config (self : Config.t) (env : environ) : result dict :=
  let errors : dict := [] in
  reddit_config ← get_reddit_config self env;
  client_id ← getitem (VDict reddit_config) "client_id";
  let errors :=
    if truthy client_id then errors
    else dict_set errors "reddit_client_id" (VStr client_id_required) in
  client_secret ← getitem (VDict reddit_config) "client_secret";
  let errors :=
    if truthy client_secret then errors
    else dict_set errors "reddit_client_secret" (VStr client_secret_required) in
  gemini_config ← get_gemini_config self env;
  api_key ← getitem (VDict gemini_config) "api_key";
  let errors :=
    if truthy api_key then errors
    else dict_set errors "gemini_api_key" (VStr api_key_required) in
  default_limit ← Config.get self "reddit.default_limit" VNone;
  let errors :=
    if not_positive_int default_limit
    then dict_set errors "reddit_limit" (VStr limit_not_positive)
    else errors in
  Ok errors.

End Settings.

(** The variable [name] is not set, or set to the empty text. *)
Definition unset (env : Settings.environ) (name : string) : Prop :=
  env !! name = None ∨ env !! name = Some "".

(** The report [validate_config] builds. *)
Definition validation_report (id secret key limit : bool) : dict :=
  let errors : dict := [] in
  let errors :=
    if id then errors
    else dict_set errors "reddit_client_id" (VStr Settings.client_id_required) in
  let errors :=
    if secret then errors
    else dict_set errors "reddit_client_secret" (VStr Settings.client_secret_required) in
  let errors :=
    if key then errors
    else dict_set errors "gemini_api_key" (VStr Settings.api_key_required) in
  if limit then dict_set errors "reddit_limit" (VStr Settings.limit_not_positive)
  else errors.

(** ** storage.py: digests and the files of the data directory *)

(** The two calls on the operating system that the file-system record
    does not decide: [os.listdir] and [os.remove].  A removal that
    succeeds removes that regular file and nothing else. *)
Class FileOps : Type := {
  os_listdir : filesystem → string → result (list string);
  os_remove : filesystem → string → result filesystem;
  os_remove_ok : ∀ fs path fs',
    os_remove fs path = Ok fs' →
    (path ∉ dirs fs) ∧ is_Some (files fs !! path) ∧
    fs' = Filesystem (delete path (files fs)) (dirs fs) (unwritable fs)
}.

(** [s.endswith(suffix)] *)
Definition endswith (s suffix : string) : bool :=
  (String.length suffix <=? String.length s)%nat &&
  String.eqb (substring (String.length s - String.length suffix)
                (String.length suffix) s) suffix.

(** [sorted(names, reverse=True)]: text compares character by
    character. *)
Definition sorted_reverse (names : list string) : list string :=
  sorting.merge_sort (flip String.le) names.

(** A list of names in descending order. *)
Definition descending (names : list string) : Prop :=
  ∀ i j a b, (i < j)%nat → names !! i = Some a → names !! j = Some b → String.le b a.

(** [t1] is an earlier reading of the clock than [t2]. *)
Definition datetime_key (t : datetime) : Z :=
  (((((year t * 100 + month t) * 100 + day t) * 100 + hour t) * 100 + minute t) * 100
   + second t)%Z.

Definition earlier (t1 t2 : datetime) : Prop := (datetime_key t1 < datetime_key t2)%Z.

Module DataFiles.

Section WithServices.
Context {W : Type} {S : Services W}.

(** The default name of a digest file,
    [reddit_digest_<timestamp>.md]. *)
Definition default_digest_name : io W string :=
  fun w => let '(t, w') := datetime_now w in
           (Ok ("reddit_digest_" ++ strftime_compact t ++ ".md"), w').

(** [DataStorage.save_digest(digest, filename)]: the path written, or
    the empty string when writing failed. *)
Definition save_digest (self : DataStorage.t) (digest : string)
    (filename : option string) (fs : filesystem) : io W (string * filesystem) :=
  filename ←
    match filename with
    | Some f => if String.eqb f "" then default_digest_name else mret f
    | None => default_digest_name
    end;
  let filepath := path_join (DataStorage.data_dir self) filename in
  mret (match open_write fs filepath digest with
        | Ok fs' => (filepath, fs')
        | Raise _ => ("", fs)
        end).

End WithServices.

Section WithFileOps.
Context {O : FileOps}.

(** [DataStorage.list_saved_files()] *)
Definition list_saved_files (self : DataStorage.t) (fs : filesystem) : result dict :=
  if negb (path_exists fs (DataStorage.data_dir self)) then
    Ok [ ("json", VList []); ("md", VList []) ]
  else
    files ← os_listdir fs (DataStorage.data_dir self);
    let json_files := List.filter (fun f => endswith f ".json") files in
    let md_files := List.filter (fun f => endswith f ".md") files in
    Ok [ ("json", VList (map VStr (sorted_reverse json_files)));
         ("md", VList (map VStr (sorted_reverse md_files))) ].

(** [DataStorage.delete_file(filename)] *)
Definition delete_file (self : DataStorage.t) (filename : string) (fs : filesystem)
    : bool * filesystem :=
  let filepath := path_join (DataStorage.data_dir self) filename in
  if path_exists fs filepath then
    match os_remove fs filepath with
    | Ok fs' => (true, fs')
    | Raise _ => (false, fs)
    end
  else (false, fs).

End WithFileOps.

End DataFiles.

(** ** reddit_client.py: listings and search *)

Module RedditPosts.

(** A submission as the content API hands it over; [author] is absent
    for a deleted account and [display_name] is the name of the
    submission's subreddit. *)
Record submission_object : Type := Submission {
  id : string;
  title : string;
  selftext : string;
  url : string;
  score : Z;
  upvote_ratio : float64;
  num_comments : Z;
  created_utc : float64;
  author : option string;
  permalink : string;
  display_name : string
}.

(** The listings of a subreddit and its search, each as the submissions
    iterated or the error raised on the way. *)
Class Listings : Type := {
  hot : string → Z → result (list submission_object);
  new : string → Z → result (list submission_object);
  top : string → Z → result (list submission_object);
  rising : string → Z → result (list submission_object);
  search : string → string → Z → result (list submission_object)
}.

(** The [post_data] dict of a submission. *)
Definition post_data (post : submission_object) (subreddit : string) : dict :=
  [ ("id", VStr (id post));
    ("title", VStr (title post));
    ("content", VStr (selftext post));
    ("url", VStr (url post));
    ("score", VInt (score post));
    ("upvote_ratio", VFloat (upvote_ratio post));
    ("num_comments", VInt (num_comments post));
    ("created_utc", VFloat (created_utc post));
    ("author", VStr (match author post with
                     | Some name => name
                     | None => "[deleted]"
                     end));
    ("permalink", VStr ("https://reddit.com" ++ permalink post));
    ("subreddit", VStr subreddit) ].

Section WithListings.
Context {L : Listings}.

(** [RedditClient.get_posts_from_subreddit(subreddit_name, limit,
    sort_by)] *)
Definition get_posts_from_subreddit (subreddit_name : string) (limit : Z)
    (sort_by : string) : list dict :=
  let posts :=
    if String.eqb sort_by "hot" then hot subreddit_name limit
    else if String.eqb sort_by "new" then new subreddit_name limit
    else if String.eqb sort_by "top" then top subreddit_name limit
    else if String.eqb sort_by "rising" then rising subreddit_name limit
    else hot subreddit_name limit in
  match posts with
  | Ok posts => map (fun post => post_data post subreddit_name) posts
  | Raise _ => []
  end.

(** [RedditClient.search_posts(query, subreddit_name, limit)] *)
Definition search_posts (query : string) (subreddit_name : option string) (limit : Z)
    : list dict :=
  let posts :=
    match subreddit_name with
    | Some name => if String.eqb name "" then search "all" query limit
                   else search name query limit
    | None => search "all" query limit
    end in
  match posts with
  | Ok posts => map (fun post => post_data post (display_name post)) posts
  | Raise _ => []
  end.

End WithListings.

End RedditPosts.

(** ** main.py: the [fetch] and [digest] commands *)

(** [s.replace(old, new)] for a non-empty [old]: the occurrences are
    replaced from the left, and the characters of an occurrence are
    skipped. *)
Fixpoint replace_from (old new s : string) (skip : nat) : string :=
  match s with
  | EmptyString => ""
  | String c r =>
      match skip with
      | S k => replace_from old new r k
      | O =>
          if String.prefix old s
          then new ++ replace_from old new r (String.length old - 1)
          else String c (replace_from old new r 0)
      end
  end.

Definition str_replace (s old new : string) : string := replace_from old new s 0.


(** [c.isalnum()] for an ASCII character. *)
Definition is_alnum (c : ascii) : bool :=
  let n := N_of_ascii c in
  (is_digit c || ((65 <=? n) && (n <=? 90)) || ((97 <=? n) && (n <=? 122)))%N.

(** [c.isalnum() or c in (' ', '-', '_')] *)
Definition is_safe (c : ascii) : bool :=
  is_alnum c || Ascii.eqb c " " || Ascii.eqb c "-" || Ascii.eqb c "_".

(** The [safe_query] of the [search] command, for an ASCII query: the
    characters kept, joined, without trailing white space. *)
Fixpoint keep_safe (query : string) : string :=
  match query with
  | EmptyString => ""
  | String c r => if is_safe c then String c (keep_safe r) else keep_safe r
  end.

Definition safe_query (query : string) : string := rstrip (keep_safe query).

Module Commands.

Section WithLibraries.
Context {P : PythonLib} {J : JsonLib} {W : Type} {S : Services W}.

(** One listing of [create_digest] for an item of whatever
    [load_posts] returned: only a dict can be indexed by a field name. *)
Definition digest_entry_of (i : Z) (post : value) : result string :=
  match post with
  | VDict d => PostSummarizer.digest_entry i d
  | _ => Raise TypeError
  end.

Fixpoint digest_entries_of (i : Z) (posts : list value) : result string :=
  match posts with
  | [] => Ok ""
  | post :: rest =>
      entry ← digest_entry_of i post;
      entries ← digest_entries_of (i + 1) rest;
      Ok (entry ++ entries)
  end.

(** [PostSummarizer.create_digest(posts)] on whatever [load_posts]
    returned.  Of the values that are not a list, a non-empty text is
    sliced and its first character indexed by a field name, and a dict
    cannot be sliced: both raise inside the [try], and the handler only
    uses the message of the error. *)
Definition create_digest_of (posts : value) : io W string :=
  try_except
    (if negb (truthy posts) then mret "No posts to summarize."
     else
       entries ← lift (match posts with
                       | VList l => digest_entries_of 1 (firstn 10 l)
                       | _ => Raise TypeError
                       end);
       let digest_content := "Reddit Posts Summary:" ++ nl ++ nl ++ entries in
       text ← generate_content (PostSummarizer.full_digest_prompt digest_content);
       let overall_summary := strip text in
       stamp ← PostSummarizer._get_current_timestamp;
       mret ("# Reddit Posts Digest" ++ nl ++ nl ++
             "**Generated on:** " ++ stamp ++ nl ++ nl ++
             "## Overall Summary" ++ nl ++ overall_summary ++ nl ++ nl ++
             "## Individual Posts" ++ nl ++ digest_content))
    (fun e => mret ("Error creating digest: " ++ exn_str e)).

(** The [digest] command: the file system it leaves. *)
Definition digest (storage : DataStorage.t) (filename : string) (create_digest : bool)
    (fs : filesystem) : io W filesystem :=
  let posts := DataStorage.load_posts storage filename fs in
  if negb (truthy posts) then mret fs
  else if create_digest then
    digest_content ← create_digest_of posts;
    let digest_filename := str_replace filename ".json" "_digest.md" in
    '(_, fs') ← DataFiles.save_digest storage digest_content (Some digest_filename) fs;
    mret fs'
  else mret fs.

(** The lines [fetch] prints for one post need these fields. *)
Definition display (post : dict) : result unit :=
  _ ← getitem (VDict post) "title";
  _ ← getitem (VDict post) "score";
  _ ← getitem (VDict post) "num_comments";
  _ ← (if dict_has "summary" post then getitem (VDict post) "summary" else Ok VNone);
  _ ← getitem (VDict post) "permalink";
  Ok ().

Fixpoint display_all (posts : list dict) : result unit :=
  match posts with
  | [] => Ok ()
  | post :: rest => _ ← display post; display_all rest
  end.

(** The [fetch] command: the posts it displays and the file system it
    leaves. *)
Definition fetch {L : RedditPosts.Listings} (storage : DataStorage.t)
    (subreddit : string) (limit : Z) (sort : string) (summarize save comments : bool)
    (fs : filesystem) : io W (list dict * filesystem) :=
  let posts := RedditPosts.get_posts_from_subreddit subreddit limit sort in
  match posts with
  | [] => mret ([], fs)
  | _ :: _ =>
      posts ← (if summarize
               then PostSummarizer.summarize_multiple_posts posts comments
               else mret posts);
      fs' ← (if save then
               fun w =>
                 let '(now, w') := datetime_now w in
                 let filename :=
                   subreddit ++ "_" ++ sort ++ "_" ++ strftime_compact now ++ ".json" in
                 (Ok (DataStorage.save_posts storage (map VDict posts)
                        (Some filename) now fs).2, w')
             else mret fs);
      _ ← lift (display_all posts);
      mret (posts, fs')
  end.

(** The lines [search] prints for one post need these fields. *)
Definition display_found (post : dict) : result unit :=
  _ ← getitem (VDict post) "title";
  _ ← getitem (VDict post) "subreddit";
  _ ← getitem (VDict post) "score";
  _ ← getitem (VDict post) "num_comments";
  _ ← (if dict_has "summary" post then getitem (VDict post) "summary" else Ok VNone);
  _ ← getitem (VDict post) "permalink";
  Ok ().

Fixpoint display_found_all (posts : list dict) : result unit :=
  match posts with
  | [] => Ok ()
  | post :: rest => _ ← display_found post; display_found_all rest
  end.

(** The name of the file [search] saves to. *)
Definition search_filename (query : string) (now : datetime) : string :=
  "search_" ++ safe_query query ++ "_" ++ strftime_compact now ++ ".json".

(** The [search] command: the posts it displays and the file system it
    leaves. *)
Definition search {L : RedditPosts.Listings} (storage : DataStorage.t)
    (query : string) (subreddit : option string) (limit : Z) (summarize save : bool)
    (fs : filesystem) : io W (list dict * filesystem) :=
  let posts := RedditPosts.search_posts query subreddit limit in
  match posts with
  | [] => mret ([], fs)
  | _ :: _ =>
      posts ← (if summarize
               then PostSummarizer.summarize_multiple_posts posts false
               else mret posts);
      fs' ← (if save then
               fun w =>
                 let '(now, w') := datetime_now w in
                 (Ok (DataStorage.save_posts storage (map VDict posts)
                        (Some (search_filename query now)) now fs).2, w')
             else mret fs);
      _ ← lift (display_found_all posts);
      mret (posts, fs')
  end.

End WithLibraries.

End Commands.

(** ** config.py with the dictionaries as shared objects

    [dict.copy()] is shallow: the copy of [default_config] that
    [load_config] and [reset_to_defaults] make shares the nested
    dictionaries with [default_config] itself, and [set] changes them in
    place.  Here the dictionaries live in a store and a slot of a
    dictionary holds a reference to another dictionary or a value that is
    not a dictionary. *)

Module ConfigObject.

Definition loc : Type := nat.

Inductive slot : Type :=
| Ref (l : loc)
| Val (v : value).

(** A dictionary object, in insertion order, and the store of all of
    them; a new object goes to the end. *)
Definition object : Type := list (string * slot).
Definition heap : Type := list object.

Fixpoint obj_get (key : string) (o : object) : option slot :=
  match o with
  | [] => None
  | (k, s) :: rest => if String.eqb k key then Some s else obj_get key rest
  end.

Fixpoint obj_set (o : object) (key : string) (s : slot) : object :=
  match o with
  | [] => [(key, s)]
  | (k, x) :: rest =>
      if String.eqb k key then (k, s) :: rest else (k, x) :: obj_set rest key s
  end.

(** A value built by a dict display or by [json.load]: its dictionaries
    are new objects. *)
Fixpoint store (v : value) (h : heap) {struct v} : slot * heap :=
  match v with
  | VDict d =>
      let '(o, h1) :=
        (fix fill (items : dict) (o : object) (h : heap) {struct items} : object * heap :=
           match items with
           | [] => (o, h)
           | (k, x) :: rest =>
               let '(s, h1) := store x h in fill rest (obj_set o k s) h1
           end) d [] h in
      (Ref (length h1), (h1 ++ [o])%list)
  | _ => (Val v, h)
  end.

(** The value a slot stands for, as [json.dump] walks it; [fuel]
    bounds the depth. *)
Fixpoint view (fuel : nat) (h : heap) (s : slot) {struct fuel} : option value :=
  match s with
  | Val v => Some v
  | Ref l =>
      match fuel with
      | O => None
      | S fuel' =>
          o ← h !! l;
          d ← (fix each (o : object) : option dict :=
                 match o with
                 | [] => Some []
                 | (k, s') :: rest =>
                     v ← view fuel' h s'; d ← each rest; Some ((k, v) :: d)
                 end) o;
          Some (VDict d)
      end
  end.

(** [obj[key]], [key in obj] and [obj[key] = s] on a slot; a value that
    is not a dictionary cannot be indexed by a string or assigned to. *)
Definition index (h : heap) (s : slot) (key : string) : result slot :=
  match s with
  | Ref l =>
      match h !! l with
      | Some o =>
          match obj_get key o with
          | Some s' => Ok s'
          | None => Raise (KeyError key)
          end
      | None => Raise TypeError
      end
  | Val _ => Raise TypeError
  end.

Definition has_key (h : heap) (key : string) (s : slot) : result bool :=
  match s with
  | Ref l =>
      match h !! l with
      | Some o => Ok (match obj_get key o with Some _ => true | None => false end)
      | None => Raise TypeError
      end
  | Val v => contains key v
  end.

Definition assign (h : heap) (s : slot) (key : string) (x : slot) : result heap :=
  match s with
  | Ref l =>
      match h !! l with
      | Some o => Ok (<[l := obj_set o key x]> h)
      | None => Raise TypeError
      end
  | Val _ => Raise TypeError
  end.

(** [d.copy()]: a new object with the slots of [d]. *)
Definition copy (h : heap) (s : slot) : result (slot * heap) :=
  match s with
  | Ref l =>
      match h !! l with
      | Some o => Ok (Ref (length h), (h ++ [o])%list)
      | None => Raise TypeError
      end
  | Val _ => Raise AttributeError
  end.

(** The state of a [Config] object: its two dictionaries. *)
Record t : Type := Make {
  config_file : string;
  default_config : slot;
  config : slot
}.

(** [Config.get(key_path, default)] *)
Fixpoint get_loop (h : heap) (s : slot) (keys : list string) : result slot :=
  match keys with
  | [] => Ok s
  | key :: rest => s' ← index h s key; get_loop h s' rest
  end.

Definition get (self : t) (h : heap) (key_path : string) (default : value) : result slot :=
  match get_loop h (config self) (split "." key_path) with
  | Ok s => Ok s
  | Raise (KeyError _) => Ok (Val default)
  | Raise TypeError => Ok (Val default)
  | Raise e => Raise e
  end.

(** [Config._merge_configs(default, user)], [user] being what
    [json.load] has just built. *)
Fixpoint _merge_configs (h : heap) (default : slot) (user : value) {struct user}
    : result (slot * heap) :=
  '(merged, h) ← copy h default;
  match user with
  | VDict u =>
      h' ← (fix loop (items : dict) (h : heap) {struct items} : result heap :=
              match items with
              | [] => Ok h
              | (key, val) :: rest =>
                  present ← has_key h key merged;
                  old ← (if present : bool then index h merged key else Ok (Val VNone));
                  match present, old, val with
                  | true, Ref _, VDict _ =>
                      '(sub, h1) ← _merge_configs h old val;
                      h2 ← assign h1 merged key sub;
                      loop rest h2
                  | _, _, _ =>
                      let '(s, h1) := store val h in
                      h2 ← assign h1 merged key s;
                      loop rest h2
                  end
              end) u h;
      Ok (merged, h')
  | _ => Raise AttributeError
  end.

(** [Config.set]: the walk to the parent dictionary and the
    assignment. *)
Fixpoint set_walk (h : heap) (s : slot) (init : list string) (last_key : string)
    (x : slot) : result heap :=
  match init with
  | [] => assign h s last_key x
  | key :: rest =>
      present ← has_key h key s;
      h1 ← (if present : bool then Ok h
            else assign (h ++ [[]])%list s key (Ref (length h)));
      child ← index h1 s key;
      set_walk h1 child rest last_key x
  end.

Section WithJson.
Context {J : JsonLib}.

(** [json.dump(d, f, indent=2)] into the settings file, inside the
    [try] of [save_config]: a failure to open the file leaves the file
    system as it was.  The store of a [Config] has no cycle, so the walk
    ends within the depth allowed; a dictionary that contained itself would
    be rejected by [json.dump], which is reported like a failed write. *)
Definition write_config (config_file : string) (h : heap) (s : slot) (fs : filesystem)
    : filesystem :=
  match view (S (length h)) h s with
  | Some c =>
      match open_write fs config_file (json_dump true c) with
      | Ok fs' => fs'
      | Raise _ => fs
      end
  | None => fs
  end.

(** [Config(config_file)]: [__init__] builds [default_config] and calls
    [load_config]. *)
Definition init (config_file : string) (fs : filesystem)
    : result (t * heap * filesystem) :=
  let '(defaults, h) := store (VDict Config.default_config) [] in
  if path_exists fs config_file then
    match (text ← open_read fs config_file;
           user ← json_load text;
           _merge_configs h defaults user) with
    | Ok (merged, h') => Ok (Make config_file defaults merged, h', fs)
    | Raise _ =>
        '(c, h') ← copy h defaults;
        Ok (Make config_file defaults c, h', fs)
    end
  else
    let fs' := write_config config_file h defaults fs in
    '(c, h') ← copy h defaults;
    Ok (Make config_file defaults c, h', fs').

(** [Config.set(key_path, value)] *)
Definition set (self : t) (key_path : string) (v : value) (h : heap) (fs : filesystem)
    : result (heap * filesystem) :=
  let keys := split "." key_path in
  let '(x, h) := store v h in
  h' ← set_walk h (config self) (removelast keys) (List.last keys "") x;
  Ok (h', write_config (config_file self) h' (config self) fs).

(** [Config.reset_to_defaults()] *)
Definition reset_to_defaults (self : t) (h : heap) (fs : filesystem)
    : result (t * heap * filesystem) :=
  '(c, h') ← copy h (default_config self);
  let self' := Make (config_file self) (default_config self) c in
  Ok (self', h', write_config (config_file self') h' (config self') fs).

End WithJson.

End ConfigObject.

(** The four sections of the default configuration. *)
Definition default_sections : list string :=
  [ "reddit"; "summarizer"; "storage"; "filters" ].

(** ** Concrete instances for the examples *)

Module Examples.

(** The floats of the examples, with the text Python prints for them. *)
Definition float_table : list (Z * string) :=
  [ (0x0000000000000000, "0.0");
    (0x3fe0000000000000, "0.5");
    (0x3fee666666666666, "0.95");
    (0x3ff0000000000000, "1.0");
    (0x41d954fc40000000, "1700000000.0") ]%Z.

Definition repr_float (f : float64) : string :=
  match find (fun entry => (fst entry =? float_bits f)%Z) float_table with
  | Some (_, text) => text
  | None => "nan"
  end.

Definition parse_float (text : string) : float64 :=
  match find (fun entry => String.eqb (snd entry) text) float_table with
  | Some (bits, _) => Float64 bits
  | None => Float64 Json.nan_bits
  end.

Definition has_char (c : ascii) (s : string) : bool :=
  match String.index 0 (String c "") s with Some _ => true | None => false end.

(** [repr] of a string of printable characters: single quotes unless the
    text has a single quote and no double quote. *)
Definition repr_str (s : string) : string :=
  let q : ascii :=
    if has_char "'" s && negb (has_char Json.dquote s) then Json.dquote else "'"%char in
  let fix body (s : string) : string :=
    match s with
    | EmptyString => ""
    | String c r =>
        (if Ascii.eqb c Json.backslash then String Json.backslash (String Json.backslash "")
         else if Ascii.eqb c q then String Json.backslash (String c "")
         else if Ascii.eqb c Json.newline then String Json.backslash "n"
         else String c "") ++ body r
    end in
  String q (body s ++ String q "").

Fixpoint repr (v : value) : string :=
  match v with
  | VNone => "None"
  | VBool true => "True"
  | VBool false => "False"
  | VInt n => pretty n
  | VFloat f => repr_float f
  | VStr s => repr_str s
  | VList l =>
      "[" ++ String.concat ", " ((fix each (l : list value) : list string :=
                                   match l with
                                   | [] => []
                                   | x :: r => repr x :: each r
                                   end) l) ++ "]"
  | VDict d =>
      "{" ++ String.concat ", " ((fix each (l : dict) : list string :=
                                   match l with
                                   | [] => []
                                   | (k, x) :: r => (repr_str k ++ ": " ++ repr x) :: each r
                                   end) d) ++ "}"
  end.

Definition python : PythonLib :=
  {| py_repr := repr;
     float_of_literal := parse_float;
     builtin_message := fun _ => "" |}.

Definition json : JsonLib := Json.python_json python.

(** A world whose model answers from a script, one reply per call, and
    whose clock counts seconds from 2024-01-01 00:00:00. *)
Record scripted : Type := Scripted {
  replies : list (result string);
  seconds : Z
}.

Definition clock_reading (s : Z) : datetime :=
  Datetime 2024 1 1 ((s / 3600) mod 24) ((s / 60) mod 60) (s mod 60).

Definition scripted_generate (prompt : string) (w : scripted) : result string * scripted :=
  match replies w with
  | reply :: rest => (reply, Scripted rest (seconds w))
  | [] => (Raise (ApiError "no reply"), w)
  end.

Definition scripted_now (w : scripted) : datetime * scripted :=
  (clock_reading (seconds w), Scripted (replies w) (seconds w + 1)).

Lemma scripted_now_valid w : valid_datetime (scripted_now w).1.
Proof.
  unfold valid_datetime, scripted_now, clock_reading; simpl.
  pose proof (Z.mod_pos_bound (seconds w / 3600) 24).
  pose proof (Z.mod_pos_bound (seconds w / 60) 60).
  pose proof (Z.mod_pos_bound (seconds w) 60). lia.
Qed.

Definition services : Services scripted :=
  {| generate_content := scripted_generate;
     datetime_now := scripted_now;
     datetime_now_valid := scripted_now_valid |}.

(** A post record as the content client builds it; the title and the
    author are not ASCII. *)
Definition post1 : dict :=
  [ ("id", VStr "1abc9z");
    ("title", VStr "Café culture in Tōkyō");
    ("content", VStr "");
    ("url", VStr "https://example.com/a");
    ("score", VInt 1520);
    ("upvote_ratio", VFloat (Float64 0x3fee666666666666));
    ("num_comments", VInt 87);
    ("created_utc", VFloat (Float64 0x41d954fc40000000));
    ("author", VStr "[deleted]");
    ("permalink", VStr "https://reddit.com/r/travel/comments/1abc9z/");
    ("subreddit", VStr "travel") ].

Definition post2 : dict :=
  [ ("id", VStr "1abd00");
    ("title", VStr "Weekly thread");
    ("content", VStr "Ask anything.");
    ("url", VStr "https://example.com/b");
    ("score", VInt (-3));
    ("upvote_ratio", VFloat (Float64 0x3fe0000000000000));
    ("num_comments", VInt 0);
    ("created_utc", VFloat (Float64 0x41d954fc40000000));
    ("author", VStr "mod_team");
    ("permalink", VStr "https://reddit.com/r/travel/comments/1abd00/");
    ("subreddit", VStr "travel") ].


Definition empty_fs : filesystem := Filesystem ∅ ∅ ∅.

(** A data directory that exists and is empty. *)
Definition data_fs : filesystem := Filesystem ∅ {[ "data"; "data/" ]} ∅.

(** A settings file in a directory that does not exist. *)
Definition no_settings_dir_fs : filesystem :=
  Filesystem ∅ ∅ {[ "missing/config.json" ]}.

Definition new_year : datetime := Datetime 2024 1 1 0 0 0.

Definition default_store : Config.t :=
  Config.Make "config.json" (VDict Config.default_config).

Definition comment (name : string) (text : option string) : RedditClient.comment_object :=
  RedditClient.CommentObject name text 1 (Float64 0x41d954fc40000000) (Some "someone").

(** A client whose post [1abc9z] has three comments and a placeholder,
    and whose other calls fail. *)
Definition api : RedditClient.Api :=
  {| RedditClient.submission_comments := fun post_id =>
       if String.eqb post_id "1abc9z" then
         Ok [ comment "c1" (Some "first"); comment "more" None;
              comment "c2" (Some "second"); comment "c3" (Some "third") ]
       else Raise (ApiError "received 404 HTTP response") |}.

End Examples.

(** ** Further instances for the examples *)

Module Samples.

(** [os.remove] on the file-system record: a regular file that is not
    protected is removed. *)
Definition remove (fs : filesystem) (path : string) : result filesystem :=
  if decide (path ∈ dirs fs ∨ path ∈ unwritable fs) then Raise OSError
  else match files fs !! path with
       | Some _ => Ok (Filesystem (delete path (files fs)) (dirs fs) (unwritable fs))
       | None => Raise OSError
       end.

Lemma remove_ok fs path fs' :
  remove fs path = Ok fs' →
  (path ∉ dirs fs) ∧ is_Some (files fs !! path) ∧
  fs' = Filesystem (delete path (files fs)) (dirs fs) (unwritable fs).
Proof.
  unfold remove. destruct (decide _) as [|Hno]; [done|].
  destruct (files fs !! path) eqn:Hfile; [|done]. intros [= <-].
  split; [tauto|]. split; [by eexists|done].
Qed.

(** The names in the data directory, in the order the system lists
    them. *)
Definition data_listing : list string :=
  [ "reddit_posts_20240101_000000.json"; "notes.txt";
    "reddit_digest_20240102_090000.md"; "reddit_posts_20240102_083000.json";
    "travel_hot_20240101_120000.json" ].

Definition file_ops : FileOps :=
  {| os_listdir := fun fs dir =>
       if decide (dir ∈ dirs fs) then Ok data_listing else Raise OSError;
     os_remove := remove;
     os_remove_ok := remove_ok |}.

(** The submissions behind [Examples.post1] and [Examples.post2]. *)
Definition submission1 : RedditPosts.submission_object :=
  RedditPosts.Submission "1abc9z" "Café culture in Tōkyō" "" "https://example.com/a"
    1520 (Float64 0x3fee666666666666) 87 (Float64 0x41d954fc40000000) None
    "/r/travel/comments/1abc9z/" "travel".

Definition submission2 : RedditPosts.submission_object :=
  RedditPosts.Submission "1abd00" "Weekly thread" "Ask anything." "https://example.com/b"
    (-3) (Float64 0x3fe0000000000000) 0 (Float64 0x41d954fc40000000) (Some "mod_team")
    "/r/travel/comments/1abd00/" "travel".

(** A client that knows the subreddit [travel] and fails elsewhere. *)
Definition travel (subreddit : string) (limit : Z)
    : result (list RedditPosts.submission_object) :=
  if String.eqb subreddit "travel" then
    Ok (RedditClient.slice_to limit [submission1; submission2])
  else Raise (ApiError "received 404 HTTP response").

Definition listings : RedditPosts.Listings :=
  {| RedditPosts.hot := travel;
     RedditPosts.new := travel;
     RedditPosts.top := travel;
     RedditPosts.rising := travel;
     RedditPosts.search := fun subreddit query limit =>
       if String.eqb subreddit "all" then Ok [submission2]
       else travel subreddit limit |}.

(** A later reading of the clock than [Examples.new_year]. *)
Definition next_morning : datetime := Datetime 2024 1 2 8 30 0.

(** A data directory that holds a posts file under a name without
    extension. *)
Definition posts_text : string :=
  json_dump (JsonLib := Examples.json) false (VList [VDict Examples.post2]).

Definition plain_name_fs : filesystem :=
  Filesystem {[ "data/posts" := posts_text ]} {[ "data"; "data/" ]} ∅.

End Samples.
(** * Properties *)
#[local] Open Scope list_scope.

Lemma string_app_nil_r (s : string) : (s ++ "")%string = s.
Proof.
  induction s as [|c s IH]; [reflexivity|].
  change (String c (s ++ "")%string = String c s). by f_equal.
Qed.

(** *** Dictionaries *)

Lemma dict_get_set_eq d key v : dict_get key (dict_set d key v) = Some v.
Proof.
  induction d as [|[k x] d IH]; simpl.
  - by rewrite String.eqb_refl.
  - destruct (String.eqb k key) eqn:E; simpl; rewrite E; done.
Qed.

Lemma dict_get_set_ne d key key' v :
  key ≠ key' → dict_get key' (dict_set d key v) = dict_get key' d.
Proof.
  intros Hne. induction d as [|[k x] d IH]; simpl.
  - destruct (String.eqb_spec key key'); congruence.
  - destruct (String.eqb_spec k key) as [->|]; simpl.
    + destruct (String.eqb_spec key key'); congruence.
    + by rewrite IH.
Qed.

Lemma dict_get_None_keys key d : dict_get key d = None ↔ key ∉ keys d.
Proof.
  induction d as [|[k x] d IH]; simpl.
  - split; [intros _; apply not_elem_of_nil | done].
  - rewrite not_elem_of_cons. destruct (String.eqb_spec k key) as [->|Hne].
    + split; [done | intros [? _]; done].
    + rewrite IH. split; [intros ?; split; congruence | intros [_ ?]; done].
Qed.

Lemma merge_entry_dicts m u :
  Config.merge_entry (Some (VDict m)) (VDict u) = VDict (Config._merge_configs m u).
Proof.
  reflexivity.
Qed.

Lemma merge_configs_lookup default user key :
  unique_keys user →
  dict_get key (Config._merge_configs default user) =
    match dict_get key user with
    | Some v => Some (Config.merge_entry (dict_get key default) v)
    | None => dict_get key default
    end.
Proof.
  unfold unique_keys. revert default.
  induction user as [|[k v] user IH]; intros default Hnd; simpl; [done|].
  simpl in Hnd. apply NoDup_cons in Hnd as [Hk Hnd].
  rewrite IH by done. destruct (String.eqb_spec k key) as [->|Hne].
  - apply dict_get_None_keys in Hk. rewrite Hk. apply dict_get_set_eq.
  - rewrite dict_get_set_ne by done. done.
Qed.

Lemma merge_entry_not_both old v :
  (∀ m u, old = Some (VDict m) → v ≠ VDict u) → Config.merge_entry old v = v.
Proof.
  intros H. destruct old as [[]|], v; try reflexivity.
  exfalso. by eapply H.
Qed.

(** C2: [_merge_configs(default, user)] keeps every key of [default] that
    [user] does not have; under a key that both have it holds the recursive
    merge when both values are dicts, and the user's value otherwise. *)
Theorem merge_configs_per_key (default user : dict) (Huser : unique_keys user) :
  (∀ key, dict_get key user = None →
     dict_get key (Config._merge_configs default user) = dict_get key default) ∧
  (∀ key d u, dict_get key default = Some (VDict d) →
     dict_get key user = Some (VDict u) →
     dict_get key (Config._merge_configs default user)
       = Some (VDict (Config._merge_configs d u))) ∧
  (∀ key x v, dict_get key default = Some x → dict_get key user = Some v →
     is_dict x && is_dict v = false →
     dict_get key (Config._merge_configs default user) = Some v).
Proof.
  split; [|split].
  - intros key Hu. rewrite merge_configs_lookup, Hu; done.
  - intros key d u Hd Hu. rewrite merge_configs_lookup, Hu, Hd by done.
    by rewrite merge_entry_dicts.
  - intros key x v Hd Hu Hnot. rewrite merge_configs_lookup, Hu, Hd by done.
    f_equal. apply merge_entry_not_both. intros m u [= ->] ->. done.
Qed.

(** *** JSON text: what [dump] writes, [load] reads back *)

Lemma string_app_cons c (s t : string) : (String c s ++ t)%string = String c (s ++ t)%string.
Proof. reflexivity. Qed.

Lemma string_app_nil_l (t : string) : ("" ++ t)%string = t.
Proof. reflexivity. Qed.

Lemma string_app_assoc (a b c : string) : ((a ++ b) ++ c)%string = (a ++ (b ++ c))%string.
Proof.
  induction a as [|x a IH]; [reflexivity|].
  rewrite !string_app_cons. by f_equal.
Qed.

Lemma string_length_app (a b : string) :
  String.length (a ++ b)%string = (String.length a + String.length b)%nat.
Proof.
  induction a as [|x a IH]; [reflexivity|].
  rewrite string_app_cons. simpl. by rewrite IH.
Qed.

Lemma N_of_ascii_inj a b : N_of_ascii a = N_of_ascii b → a = b.
Proof. intros H. by rewrite <- (ascii_N_embedding a), H, ascii_N_embedding. Qed.

Lemma ascii_eqb_N a b : Ascii.eqb a b = (N_of_ascii a =? N_of_ascii b)%N.
Proof.
  destruct (Ascii.eqb_spec a b) as [->|Hne].
  - by rewrite N.eqb_refl.
  - symmetry. apply N.eqb_neq. intros H. by apply Hne, N_of_ascii_inj.
Qed.

Lemma hex_value_digit n : (n < 16)%N → Json.hex_value (Json.hex_digit n) = Some n.
Proof.
  intros Hn. unfold Json.hex_value, Json.hex_digit.
  destruct (N.ltb_spec n 10).
  - rewrite N_ascii_embedding by lia.
    replace ((48 <=? 48 + n)%N) with true by (symmetry; apply N.leb_le; lia).
    replace ((48 + n <=? 57)%N) with true by (symmetry; apply N.leb_le; lia).
    simpl. f_equal. lia.
  - rewrite N_ascii_embedding by lia.
    replace ((48 <=? 87 + n)%N && (87 + n <=? 57)%N) with false
      by (symmetry; apply andb_false_iff; right; apply N.leb_gt; lia).
    replace ((97 <=? 87 + n)%N) with true by (symmetry; apply N.leb_le; lia).
    replace ((87 + n <=? 102)%N) with true by (symmetry; apply N.leb_le; lia).
    simpl. f_equal. lia.
Qed.

Lemma read_hex4_hex4 n rest :
  (n < 65536)%N → Json.read_hex4 (Json.hex4 n ++ rest) = Some (n, rest).
Proof.
  intros Hn. unfold Json.hex4. rewrite !string_app_cons, string_app_nil_l.
  unfold Json.read_hex4.
  rewrite !hex_value_digit by (apply N.mod_lt; lia). simpl.
  f_equal. f_equal.
  pose proof (N.div_mod n 4096). pose proof (N.div_mod (n mod 4096) 256).
  pose proof (N.div_mod (n mod 256) 16).
  assert (n / 4096 < 16)%N by (apply N.Div0.div_lt_upper_bound; lia).
  rewrite (N.mod_small (n / 4096) 16) by done.
  replace (n / 256 mod 16)%N with ((n mod 4096) / 256)%N.
  2:{ replace 4096%N with (256 * 16)%N by done.
      rewrite N.Div0.mod_mul_r, N.mul_comm, N.div_add by lia.
      rewrite (N.div_small (n mod 256) 256) by (apply N.mod_lt; lia). lia. }
  replace (n / 16 mod 16)%N with ((n mod 256) / 16)%N.
  2:{ replace 256%N with (16 * 16)%N by done.
      rewrite N.Div0.mod_mul_r, N.mul_comm, N.div_add by lia.
      rewrite (N.div_small (n mod 16) 16) by (apply N.mod_lt; lia). lia. }
  replace (n mod 16)%N with ((n mod 256) mod 16)%N.
  2:{ replace 256%N with (16 * 16)%N by done.
      rewrite N.Div0.mod_mul_r, N.mul_comm, N.Div0.mod_add, N.Div0.mod_mod by lia. done. }
  replace (n mod 256)%N with ((n mod 4096) mod 256)%N in *.
  2:{ replace 4096%N with (256 * 16)%N by done.
      rewrite N.Div0.mod_mul_r, N.mul_comm, N.Div0.mod_add, N.Div0.mod_mod by lia. done. }
  lia.
Qed.

Lemma scan_string_quote fuel rest acc :
  Json.scan_string (S fuel) (String Json.dquote rest) acc = Some (acc, rest).
Proof. reflexivity. Qed.

Lemma scan_string_simple fuel e ch tail acc :
  Json.simple_escape e = Some ch → e ≠ "u"%char →
  Json.scan_string (S fuel) (String Json.backslash (String e tail)) acc
  = Json.scan_string fuel tail (acc ++ String ch "")%string.
Proof.
  intros Hesc Hu. simpl.
  rewrite (proj2 (Ascii.eqb_neq e "u") Hu). by rewrite Hesc.
Qed.

Lemma scan_string_control fuel n tail acc :
  (n < 32)%N →
  Json.scan_string (S fuel) (Json.u_escape n ++ tail)%string acc
  = Json.scan_string fuel tail (acc ++ String (ascii_of_N n) "")%string.
Proof.
  intros Hn. unfold Json.u_escape. rewrite !string_app_cons.
  cbn -[Json.hex4 Json.read_hex4 Json.utf8 N.leb N.ltb String.append].
  rewrite read_hex4_hex4 by lia.
  cbn -[Json.hex4 Json.read_hex4 Json.utf8 N.leb N.ltb String.append].
  replace ((55296 <=? n)%N) with false by (symmetry; apply N.leb_gt; lia).
  simpl. unfold Json.utf8.
  by replace ((n <? 128)%N) with true by (symmetry; apply N.ltb_lt; lia).
Qed.

Lemma scan_string_plain fuel c tail acc :
  c ≠ Json.dquote → c ≠ Json.backslash → (32 ≤ N_of_ascii c)%N →
  Json.scan_string (S fuel) (String c tail) acc
  = Json.scan_string fuel tail (acc ++ String c "")%string.
Proof.
  intros Hq Hb Hc. simpl.
  rewrite (proj2 (Ascii.eqb_neq _ _) Hq), (proj2 (Ascii.eqb_neq _ _) Hb).
  by replace ((N_of_ascii c <? 32)%N) with false by (symmetry; apply N.ltb_ge; lia).
Qed.

Lemma ascii_of_code c n : N_of_ascii c = n → c = ascii_of_N n.
Proof. intros <-. by rewrite ascii_N_embedding. Qed.

Lemma scan_string_escape s : ∀ fuel acc rest,
  (String.length (Json.escape_bytes s) < fuel)%nat →
  Json.scan_string fuel (Json.escape_bytes s ++ String Json.dquote rest)%string acc
  = Some ((acc ++ s)%string, rest).
Proof.
  induction s as [|c s IH]; intros fuel acc rest Hfuel.
  - destruct fuel as [|fuel]; [simpl in Hfuel; lia|].
    rewrite string_app_nil_r. apply scan_string_quote.
  - assert (Hacc : ∀ acc, ((acc ++ String c "") ++ s)%string = (acc ++ String c s)%string).
    { intros a. by rewrite string_app_assoc. }
    simpl in Hfuel |- *. unfold Json.escape_basic in *.
    destruct (N.eqb_spec (N_of_ascii c) 34) as [E|Hq];
      [|destruct (N.eqb_spec (N_of_ascii c) 92) as [E|Hb];
        [|destruct (N.eqb_spec (N_of_ascii c) 10) as [E|_];
          [|destruct (N.eqb_spec (N_of_ascii c) 13) as [E|_];
            [|destruct (N.eqb_spec (N_of_ascii c) 9) as [E|_];
              [|destruct (N.eqb_spec (N_of_ascii c) 8) as [E|_];
                [|destruct (N.eqb_spec (N_of_ascii c) 12) as [E|_];
                  [|destruct (N.ltb_spec (N_of_ascii c) 32) as [E|E]]]]]]]].
    1-7: apply ascii_of_code in E; subst c;
         rewrite !string_app_cons, string_app_nil_l in *; simpl in Hfuel;
         destruct fuel as [|fuel]; [lia|];
         erewrite scan_string_simple by (reflexivity || discriminate);
         rewrite IH by lia; by rewrite Hacc.
    + rewrite string_app_assoc. destruct fuel as [|fuel]; [lia|].
      rewrite scan_string_control by done.
      rewrite string_length_app in Hfuel. unfold Json.u_escape in Hfuel. simpl in Hfuel.
      rewrite IH by lia. by rewrite ascii_N_embedding, Hacc.
    + rewrite string_app_cons. simpl in Hfuel. destruct fuel as [|fuel]; [lia|].
      rewrite scan_string_plain.
      * rewrite IH by lia. by rewrite Hacc.
      * intros ->. by apply Hq.
      * intros ->. by apply Hb.
      * done.
Qed.

(** Escapes of code points *)

Lemma string_concat_cons (x : string) (l : list string) :
  String.concat "" (x :: l) = (x ++ String.concat "" l)%string.
Proof. destruct l; [by rewrite string_app_nil_r|reflexivity]. Qed.

Lemma utf8_ascii cp : (cp < 128)%N → Json.utf8 cp = String (ascii_of_N cp) "".
Proof.
  intros Hcp. unfold Json.utf8.
  by replace ((cp <? 128)%N) with true by (symmetry; apply N.ltb_lt; lia).
Qed.

Lemma scan_string_u fuel cp tail acc :
  (cp < 65536)%N → (cp < 55296 ∨ 56320 ≤ cp)%N →
  Json.scan_string (S fuel) (Json.u_escape cp ++ tail)%string acc
  = Json.scan_string fuel tail (acc ++ Json.utf8 cp)%string.
Proof.
  intros Hcp Hns. unfold Json.u_escape. rewrite !string_app_cons.
  cbn -[Json.hex4 Json.read_hex4 Json.utf8 N.leb N.ltb String.append].
  rewrite read_hex4_hex4 by lia.
  cbn -[Json.hex4 Json.read_hex4 Json.utf8 N.leb N.ltb String.append].
  replace ((55296 <=? cp)%N && (cp <? 56320)%N) with false; [done|].
  symmetry. apply andb_false_iff.
  destruct Hns; [left; apply N.leb_gt|right; apply N.ltb_ge]; lia.
Qed.

Lemma scan_string_pair fuel hi lo tail acc :
  (55296 ≤ hi < 56320)%N → (56320 ≤ lo < 57344)%N →
  Json.scan_string (S fuel) (Json.u_escape hi ++ Json.u_escape lo ++ tail)%string acc
  = Json.scan_string fuel tail
      (acc ++ Json.utf8 (65536 + (hi - 55296) * 1024 + (lo - 56320)))%string.
Proof.
  intros Hhi Hlo. unfold Json.u_escape. rewrite !string_app_cons.
  cbn -[Json.hex4 Json.read_hex4 Json.utf8 N.leb N.ltb String.append].
  rewrite read_hex4_hex4 by lia.
  cbn -[Json.hex4 Json.read_hex4 Json.utf8 N.leb N.ltb String.append].
  replace ((55296 <=? hi)%N && (hi <? 56320)%N) with true.
  2:{ symmetry. apply andb_true_intro. split; [apply N.leb_le|apply N.ltb_lt]; lia. }
  rewrite read_hex4_hex4 by lia.
  cbn -[Json.hex4 Json.read_hex4 Json.utf8 N.leb N.ltb String.append].
  replace ((56320 <=? lo)%N && (lo <? 57344)%N) with true; [done|].
  symmetry. apply andb_true_intro. split; [apply N.leb_le|apply N.ltb_lt]; lia.
Qed.

Lemma is_scalar_cases cp :
  is_scalar cp = true → (cp < 55296 ∨ 57344 ≤ cp < 1114112)%N.
Proof.
  unfold is_scalar. intros [H|[H1 H2]%andb_prop]%orb_prop.
  - left. by apply N.ltb_lt.
  - right. split; [by apply N.leb_le|by apply N.ltb_lt].
Qed.

(** Reading the escape of one code point appends its UTF-8 bytes. *)
Lemma scan_string_code_point fuel cp tail acc :
  is_scalar cp = true →
  Json.scan_string (S fuel) (Json.escape_ascii cp ++ tail)%string acc
  = Json.scan_string fuel tail (acc ++ Json.utf8 cp)%string.
Proof.
  intros Hs%is_scalar_cases. unfold Json.escape_ascii, Json.escape_basic.
  destruct (N.eqb_spec cp 34) as [->|Hq]; [by apply scan_string_simple|].
  destruct (N.eqb_spec cp 92) as [->|Hb]; [by apply scan_string_simple|].
  destruct (N.eqb_spec cp 10) as [->|_]; [by apply scan_string_simple|].
  destruct (N.eqb_spec cp 13) as [->|_]; [by apply scan_string_simple|].
  destruct (N.eqb_spec cp 9) as [->|_]; [by apply scan_string_simple|].
  destruct (N.eqb_spec cp 8) as [->|_]; [by apply scan_string_simple|].
  destruct (N.eqb_spec cp 12) as [->|_]; [by apply scan_string_simple|].
  destruct (N.ltb_spec cp 32) as [Hc|Hc]; [apply scan_string_u; lia|].
  destruct (N.ltb_spec cp 127) as [Ha|Ha].
  - rewrite utf8_ascii by lia. rewrite string_app_cons, string_app_nil_l.
    apply scan_string_plain.
    + intros E. apply (f_equal N_of_ascii) in E.
      rewrite N_ascii_embedding in E by lia. by apply Hq.
    + intros E. apply (f_equal N_of_ascii) in E.
      rewrite N_ascii_embedding in E by lia. by apply Hb.
    + rewrite N_ascii_embedding by lia. done.
  - destruct (N.ltb_spec cp 65536) as [Hw|Hw]; [apply scan_string_u; lia|].
    pose proof (N.div_mod (cp - 65536) 1024 ltac:(lia)) as Hdm.
    assert (Hr : ((cp - 65536) mod 1024 < 1024)%N) by (apply N.mod_lt; lia).
    assert (Hq' : ((cp - 65536) / 1024 < 1024)%N)
      by (apply N.Div0.div_lt_upper_bound; lia).
    remember ((cp - 65536) mod 1024)%N as r eqn:Er.
    remember ((cp - 65536) / 1024)%N as q eqn:Eq. clear Er Eq.
    rewrite string_app_assoc, scan_string_pair by lia.
    do 3 f_equal. lia.
Qed.

Lemma escape_ascii_length cp : (1 ≤ String.length (Json.escape_ascii cp))%nat.
Proof.
  unfold Json.escape_ascii, Json.escape_basic, Json.u_escape.
  repeat (destruct (_ =? _)%N; [simpl; lia|]).
  repeat (destruct (_ <? _)%N; [simpl; lia|]).
  rewrite string_length_app. simpl. lia.
Qed.

Lemma scan_string_code_points cps : ∀ fuel acc rest,
  forallb is_scalar cps = true → (length cps < fuel)%nat →
  Json.scan_string fuel
    (String.concat "" (map Json.escape_ascii cps) ++ String Json.dquote rest)%string acc
  = Some ((acc ++ String.concat "" (map Json.utf8 cps))%string, rest).
Proof.
  induction cps as [|cp cps IH]; intros fuel acc rest Hall Hfuel.
  - destruct fuel as [|fuel]; [simpl in Hfuel; lia|].
    simpl String.concat. rewrite string_app_nil_r. apply scan_string_quote.
  - simpl in Hall. apply andb_prop in Hall as [Hcp Hall].
    simpl in Hfuel. destruct fuel as [|fuel]; [lia|].
    change (map Json.escape_ascii (cp :: cps))
      with (Json.escape_ascii cp :: map Json.escape_ascii cps).
    change (map Json.utf8 (cp :: cps)) with (Json.utf8 cp :: map Json.utf8 cps).
    rewrite !string_concat_cons, string_app_assoc.
    rewrite scan_string_code_point by done.
    rewrite IH by (done || lia). by rewrite string_app_assoc.
Qed.

Lemma code_points_length cps :
  (length cps ≤ String.length (String.concat "" (map Json.escape_ascii cps)))%nat.
Proof.
  induction cps as [|cp cps IH]; [simpl; lia|].
  change (map Json.escape_ascii (cp :: cps))
    with (Json.escape_ascii cp :: map Json.escape_ascii cps).
  rewrite string_concat_cons, string_length_app.
  pose proof (escape_ascii_length cp). simpl. lia.
Qed.

(** The inside of a string literal is read back as the text. *)
Lemma scan_string_escaped ensure_ascii s fuel acc rest :
  text_ok ensure_ascii s →
  (String.length (Json.escape ensure_ascii s) < fuel)%nat →
  Json.scan_string fuel (Json.escape ensure_ascii s ++ String Json.dquote rest)%string acc
  = Some ((acc ++ s)%string, rest).
Proof.
  intros Hok Hfuel. destruct ensure_ascii; [|by apply scan_string_escape].
  unfold Json.escape in *.
  specialize (Hok eq_refl). unfold utf8_text in Hok.
  apply andb_prop in Hok as [Hall Heq]. apply String.eqb_eq in Heq.
  rewrite scan_string_code_points.
  - by rewrite Heq.
  - done.
  - pose proof (code_points_length (Json.decode_utf8 s 0 0)). lia.
Qed.

(** Numbers *)

Lemma ends_value_cases rest :
  ends_value rest = true →
  rest = "" ∨ ∃ c r, rest = String c r ∧ (c = ","%char ∨ c = Json.newline).
Proof.
  destruct rest as [|c r]; [by left|]. simpl.
  intros [H|H]%orb_prop; apply Ascii.eqb_eq in H; right; exists c, r; auto.
Qed.

Lemma take_digits_end rest : ends_value rest = true → Json.take_digits rest = ("", rest).
Proof.
  intros [->|(c & r & -> & [->| ->])]%ends_value_cases; reflexivity.
Qed.

Lemma take_digits_app d rest :
  all_digits d = true → ends_value rest = true →
  Json.take_digits (d ++ rest)%string = (d, rest).
Proof.
  intros Hd Hrest. induction d as [|c d IH].
  - by apply take_digits_end.
  - simpl in Hd. apply andb_prop in Hd as [Hc Hd].
    rewrite string_app_cons. simpl. by rewrite Hc, IH.
Qed.

Lemma take_fraction_end rest : ends_value rest = true → Json.take_fraction rest = ("", rest).
Proof.
  intros [->|(c & r & -> & [->| ->])]%ends_value_cases; reflexivity.
Qed.

Lemma take_exponent_end rest : ends_value rest = true → Json.take_exponent rest = ("", rest).
Proof.
  intros [->|(c & r & -> & [->| ->])]%ends_value_cases; reflexivity.
Qed.

Lemma pretty_N_char_code k : (k < 10)%N → N_of_ascii (pretty_N_char k) = (48 + k)%N.
Proof.
  intros Hk.
  assert (k = 0 ∨ k = 1 ∨ k = 2 ∨ k = 3 ∨ k = 4 ∨ k = 5 ∨ k = 6 ∨ k = 7 ∨ k = 8 ∨ k = 9)%N
    as Hcases by lia.
  repeat (destruct Hcases as [->|Hcases]; [reflexivity|]). by subst.
Qed.

Lemma is_digit_code c : is_digit c = true ↔ (48 ≤ N_of_ascii c ≤ 57)%N.
Proof.
  unfold is_digit. rewrite andb_true_iff, !N.leb_le. done.
Qed.

Lemma digits_value_app acc d e :
  digits_value acc (d ++ e)%string = digits_value (digits_value acc d) e.
Proof.
  revert acc. induction d as [|c d IH]; intros acc; [done|].
  rewrite string_app_cons. simpl. apply IH.
Qed.

Lemma all_digits_app d e : all_digits (d ++ e)%string = all_digits d && all_digits e.
Proof.
  induction d as [|c d IH]; [done|].
  rewrite string_app_cons. simpl. by rewrite IH, andb_assoc.
Qed.

(** The digits stdpp's printer puts in front of [s] for a positive
    number: they are digits, the first is not a zero, and they spell the
    number. *)
Lemma pretty_N_go_digits x :
  (0 < x)%N → ∀ s, ∃ c d,
    pretty_N_go x s = (String c d ++ s)%string ∧
    all_digits (String c d) = true ∧ c ≠ "0"%char ∧
    ∀ acc, digits_value acc (String c d) =
           (acc * 10 ^ Z.of_nat (String.length (String c d)) + Z.of_N x)%Z.
Proof.
  induction (N.lt_wf_0 x) as [x _ IH]. intros Hx s.
  rewrite pretty_N_go_step by done.
  pose proof (N.div_mod x 10 ltac:(lia)) as Hdm.
  assert (Hk : (x mod 10 < 10)%N) by (apply N.mod_lt; lia).
  pose proof (pretty_N_char_code _ Hk) as Hcode.
  remember (x mod 10)%N as k eqn:Ek. remember (x / 10)%N as q eqn:Eq.
  clear Ek Eq.
  assert (Hdig : is_digit (pretty_N_char k) = true)
    by (apply is_digit_code; lia).
  destruct (N.eq_dec q 0%N) as [->|Hnz].
  - rewrite pretty_N_go_0.
    exists (pretty_N_char k), "". split; [done|]. split; [by simpl; rewrite Hdig|].
    split.
    + intros Hc. assert (N_of_ascii (pretty_N_char k) = 48%N) by by rewrite Hc.
      lia.
    + intros acc. simpl. rewrite Hcode. lia.
  - destruct (IH q ltac:(lia) ltac:(lia) (String (pretty_N_char k) s))
      as (c & d & Heq & Hall & Hc & Hval).
    exists c, (d ++ String (pretty_N_char k) "")%string.
    split; [|split; [|split; [done|]]].
    + rewrite Heq, !string_app_cons. f_equal. by rewrite string_app_assoc.
    + simpl in Hall |- *. apply andb_prop in Hall as [-> Hall]. simpl.
      rewrite all_digits_app, Hall. simpl. by rewrite Hdig.
    + intros acc.
      change (String c (d ++ String (pretty_N_char k) ""))%string
        with (String c d ++ String (pretty_N_char k) "")%string.
      remember (String c d) as cd eqn:Ecd. clear Ecd.
      rewrite digits_value_app, Hval, string_length_app. simpl.
      rewrite Hcode, Nat.add_1_r, Nat2Z.inj_succ, Z.pow_succ_r by lia.
      generalize (10 ^ Z.of_nat (String.length cd))%Z. intros p.
      clear -Hdm. nia.
Qed.

Lemma pretty_Z_cases (n : Z) :
  (n = 0%Z ∧ pretty n = "0") ∨
  ∃ c d, pretty n = ((if (n <? 0)%Z then "-" else "") ++ String c d)%string ∧
         all_digits (String c d) = true ∧ c ≠ "0"%char ∧
         digits_value 0 (String c d) = Z.abs n.
Proof.
  destruct n as [|p|p]; [by left|right..].
  - destruct (pretty_N_go_digits (Npos p) ltac:(lia) "") as (c & d & Heq & Hall & Hc & Hval).
    exists c, d. split; [|split; [done|split; [done|]]].
    + change (pretty (Z.pos p)) with (pretty_N_go (N.pos p) ""). rewrite Heq.
      by rewrite string_app_nil_r.
    + rewrite Hval. simpl. lia.
  - destruct (pretty_N_go_digits (Npos p) ltac:(lia) "") as (c & d & Heq & Hall & Hc & Hval).
    exists c, d. split; [|split; [done|split; [done|]]].
    + change (pretty (Z.neg p)) with ("-" ++ pretty_N_go (N.pos p) "")%string. rewrite Heq.
      by rewrite string_app_nil_r.
    + rewrite Hval. simpl. lia.
Qed.

Section Encoded.
Context {P : PythonLib}.

Lemma digit_eqb_false c x :
  is_digit c = true → (N_of_ascii x < 48 ∨ 57 < N_of_ascii x)%N → Ascii.eqb c x = false.
Proof.
  intros Hc%is_digit_code Hx. rewrite ascii_eqb_N. apply N.eqb_neq. lia.
Qed.

Lemma after_char_digit c d rest x :
  is_digit c = true → (N_of_ascii x < 48 ∨ 57 < N_of_ascii x)%N →
  Json.after_char x (String c d ++ rest)%string = None.
Proof.
  intros Hc Hx. rewrite string_app_cons. simpl. by rewrite digit_eqb_false.
Qed.

Lemma strip_prefix_ne p q c r : p ≠ c → Json.strip_prefix (String p q) (String c r) = None.
Proof.
  intros Hne. change (Json.strip_prefix (String p q) (String c r))
    with (if Ascii.eqb p c then Json.strip_prefix q r else None).
  by rewrite (proj2 (Ascii.eqb_neq _ _) Hne).
Qed.

Lemma strip_prefix_digit c d p q :
  is_digit c = true → (N_of_ascii p < 48 ∨ 57 < N_of_ascii p)%N →
  Json.strip_prefix (String p q) (String c d) = None.
Proof.
  intros Hc Hp. apply strip_prefix_ne. intros ->.
  apply is_digit_code in Hc. lia.
Qed.

Lemma parse_unsigned_digits (neg : bool) c d rest :
  all_digits (String c d) = true → c ≠ "0"%char → ends_value rest = true →
  Json.parse_unsigned neg (String c d ++ rest)%string
  = Some (VInt (if neg then - digits_value 0 (String c d) else digits_value 0 (String c d)),
          rest).
Proof.
  intros Hall Hc Hrest. unfold Json.parse_unsigned.
  assert (Hzero : Json.after_char "0" (String c d ++ rest)%string = None).
  { rewrite string_app_cons. simpl. by rewrite (proj2 (Ascii.eqb_neq _ _) Hc). }
  rewrite Hzero, take_digits_app by done.
  rewrite take_fraction_end, take_exponent_end by done. reflexivity.
Qed.

Lemma parse_number_digits (neg : bool) c d rest :
  all_digits (String c d) = true → c ≠ "0"%char → ends_value rest = true →
  Json.parse_number ((if neg then "-" else "") ++ String c d ++ rest)%string
  = Some (VInt (if neg then - digits_value 0 (String c d) else digits_value 0 (String c d)),
          rest).
Proof.
  intros Hall Hc Hrest.
  assert (Hd : is_digit c = true) by (simpl in Hall; by apply andb_prop in Hall as [? _]).
  unfold Json.parse_number. destruct neg.
  - rewrite string_app_cons, string_app_nil_l.
    change (Json.after_char "-" (String "-" (String c d ++ rest)))%string
      with (Some (String c d ++ rest)%string).
    by apply parse_unsigned_digits.
  - rewrite string_app_nil_l. rewrite after_char_digit by (done || (left; reflexivity) || (right; reflexivity)).
    by apply parse_unsigned_digits.
Qed.

Lemma parse_number_zero rest :
  ends_value rest = true → Json.parse_number ("0" ++ rest)%string = Some (VInt 0, rest).
Proof.
  intros Hrest. unfold Json.parse_number. rewrite string_app_cons, string_app_nil_l.
  change (Json.after_char "-" (String "0" rest)) with (@None string).
  unfold Json.parse_unsigned.
  change (Json.after_char "0" (String "0" rest)) with (Some rest).
  cbv beta iota zeta.
  rewrite take_fraction_end, take_exponent_end by done. reflexivity.
Qed.

Lemma parse_number_int (n : Z) rest :
  ends_value rest = true →
  Json.parse_number (pretty n ++ rest)%string = Some (VInt n, rest).
Proof.
  intros Hrest. destruct (pretty_Z_cases n) as [[-> ->]|(c & d & -> & Hall & Hc & Hval)].
  - by apply parse_number_zero.
  - rewrite string_app_assoc, parse_number_digits by done.
    rewrite Hval. do 2 f_equal. destruct (Z.ltb_spec n 0); f_equal; lia.
Qed.

(** The first character of a printed integer. *)
Lemma pretty_Z_head (n : Z) rest :
  ∃ c r, (pretty n ++ rest)%string = String c r ∧
         (is_digit c = true ∨ (c = "-"%char ∧ ∃ c' r', r = String c' r' ∧ is_digit c' = true)).
Proof.
  destruct (pretty_Z_cases n) as [[-> ->]|(c & d & -> & Hall & Hc & Hval)].
  - exists "0"%char, rest. split; [done|by left].
  - assert (Hd : is_digit c = true) by (simpl in Hall; by apply andb_prop in Hall as [? _]).
    destruct (n <? 0)%Z.
    + exists "-"%char, (String c d ++ rest)%string. split; [done|].
      right. split; [done|]. by exists c, (d ++ rest)%string.
    + exists c, (d ++ rest)%string. split; [done|by left].
Qed.

Lemma parse_literal_number s :
  (∃ c r, s = String c r ∧
          (is_digit c = true ∨
           (c = "-"%char ∧ ∃ c' r', r = String c' r' ∧ is_digit c' = true))) →
  Json.parse_literal s = Json.parse_number s.
Proof.
  intros (c & r & -> & [Hc|(-> & c' & r' & -> & Hc')]).
  - unfold Json.parse_literal.
    by rewrite !strip_prefix_digit by (done || (left; reflexivity) || (right; reflexivity)).
  - unfold Json.parse_literal.
    rewrite !(strip_prefix_ne _ _ "-"%char) by discriminate.
    change (Json.strip_prefix "-Infinity" (String "-" (String c' r')))
      with (Json.strip_prefix "Infinity" (String c' r')).
    by rewrite strip_prefix_digit by (done || (right; reflexivity)).
Qed.

Lemma parse_value_literal fuel c r :
  c ≠ "["%char → c ≠ "{"%char → c ≠ Json.dquote →
  Json.parse_value (S fuel) (String c r) = Json.parse_literal (String c r).
Proof.
  intros H1 H2 H3. simpl.
  by rewrite (proj2 (Ascii.eqb_neq _ _) H1), (proj2 (Ascii.eqb_neq _ _) H2),
    (proj2 (Ascii.eqb_neq _ _) H3).
Qed.

Lemma parse_value_int fuel (n : Z) rest :
  ends_value rest = true →
  Json.parse_value (S fuel) (pretty n ++ rest)%string = Some (VInt n, rest).
Proof.
  intros Hrest. pose proof (pretty_Z_head n rest) as Hhead.
  rewrite <- parse_number_int by done.
  rewrite <- parse_literal_number by done.
  destruct Hhead as (c & r & -> & Hc).
  apply parse_value_literal.
  all: intros ->; destruct Hc as [Hc|[Hc _]]; by vm_compute in Hc.
Qed.

(** White space and the heads of encoded values *)

Lemma skip_ws_spaces k s :
  Json.skip_ws (String.concat "" (repeat "  " k) ++ s)%string = Json.skip_ws s.
Proof.
  induction k as [|k IH]; [done|].
  destruct k as [|k].
  - reflexivity.
  - change (String.concat "" (repeat "  " (S (S k))))
      with ("  " ++ "" ++ String.concat "" (repeat "  " (S k)))%string.
    rewrite !string_app_assoc, string_app_nil_l, !string_app_cons, string_app_nil_l.
    simpl Json.skip_ws. apply IH.
Qed.

Lemma skip_ws_indent k s :
  Json.skip_ws (Json.newline_indent k ++ s)%string = Json.skip_ws s.
Proof.
  unfold Json.newline_indent. rewrite string_app_cons. simpl Json.skip_ws.
  apply skip_ws_spaces.
Qed.

Lemma skip_ws_starts s : starts_value s = true → Json.skip_ws s = s.
Proof.
  destruct s as [|c r]; [done|]. simpl.
  intros [Hws _]%andb_prop. by destruct (Json.is_ws c).
Qed.

Lemma after_bracket_starts s : starts_value s = true → Json.after_char "]" s = None.
Proof.
  destruct s as [|c r]; [done|]. simpl.
  intros [_ Hb]%andb_prop. by destruct (Ascii.eqb c "]").
Qed.

Lemma starts_value_app s rest :
  starts_value s = true → starts_value (s ++ rest)%string = true.
Proof. by destruct s. Qed.

Lemma ends_value_indent k s : ends_value (Json.newline_indent k ++ s)%string = true.
Proof. reflexivity. Qed.

Lemma dict_set_fresh acc key v :
  dict_get key acc = None → dict_set acc key v = acc ++ [(key, v)].
Proof.
  induction acc as [|[k x] acc IH]; simpl; [done|].
  destruct (String.eqb k key); [done|]. intros H. by rewrite IH.
Qed.

Lemma parse_elements_step fuel s acc v r :
  Json.parse_value fuel s = Some (v, r) →
  Json.parse_elements (S fuel) s acc
  = match Json.after_char "," (Json.skip_ws r), Json.after_char "]" (Json.skip_ws r) with
    | Some r', _ => Json.parse_elements fuel (Json.skip_ws r') (acc ++ [v])
    | None, Some r' => Some (VList (acc ++ [v]), r')
    | None, None => None
    end.
Proof. intros H. simpl. by rewrite H. Qed.

Lemma parse_members_step fuel r acc key r1 r2 v r3 :
  Json.scan_string (String.length r) r "" = Some (key, r1) →
  Json.after_char ":" (Json.skip_ws r1) = Some r2 →
  Json.parse_value fuel (Json.skip_ws r2) = Some (v, r3) →
  Json.parse_members (S fuel) (String Json.dquote r) acc
  = match Json.after_char "," (Json.skip_ws r3), Json.after_char "}" (Json.skip_ws r3) with
    | Some r4, _ => Json.parse_members fuel (Json.skip_ws r4) (dict_set acc key v)
    | None, Some r4 => Some (VDict (dict_set acc key v), r4)
    | None, None => None
    end.
Proof.
  intros H1 H2 H3.
  change (Json.parse_members (S fuel) (String Json.dquote r) acc)
    with ('(key, r1) ← Json.scan_string (String.length r) r "";
          r2 ← Json.after_char ":" (Json.skip_ws r1);
          '(v, r3) ← Json.parse_value fuel (Json.skip_ws r2);
          match Json.after_char "," (Json.skip_ws r3),
                Json.after_char "}" (Json.skip_ws r3) with
          | Some r4, _ => Json.parse_members fuel (Json.skip_ws r4) (dict_set acc key v)
          | None, Some r4 => Some (VDict (dict_set acc key v), r4)
          | None, None => None
          end).
  rewrite H1. simpl. rewrite H2. simpl. by rewrite H3.
Qed.

Lemma parse_value_open_bracket fuel r :
  Json.parse_value (S fuel) (String "[" r)
  = match Json.after_char "]" (Json.skip_ws r) with
    | Some r' => Some (VList [], r')
    | None => Json.parse_elements fuel (Json.skip_ws r) []
    end.
Proof. reflexivity. Qed.

Lemma parse_value_open_brace fuel r :
  Json.parse_value (S fuel) (String "{" r)
  = match Json.after_char "}" (Json.skip_ws r) with
    | Some r' => Some (VDict [], r')
    | None => Json.parse_members fuel (Json.skip_ws r) []
    end.
Proof. reflexivity. Qed.

Lemma parse_value_open_quote fuel r :
  Json.parse_value (S fuel) (String Json.dquote r)
  = ('(str, r') ← Json.scan_string (String.length r) r ""; Some (VStr str, r')).
Proof. reflexivity. Qed.

Lemma after_comma t :
  Json.after_char "," (Json.skip_ws ("," ++ t)%string) = Some t.
Proof. reflexivity. Qed.

Lemma after_close_bracket t :
  Json.after_char "," (Json.skip_ws ("]" ++ t)%string) = None ∧
  Json.after_char "]" (Json.skip_ws ("]" ++ t)%string) = Some t.
Proof. split; reflexivity. Qed.

Lemma after_close_brace t :
  Json.after_char "," (Json.skip_ws ("}" ++ t)%string) = None ∧
  Json.after_char "}" (Json.skip_ws ("}" ++ t)%string) = Some t.
Proof. split; reflexivity. Qed.

Lemma list_items_size l m :
  (list_sum (map (fun y => S (json_size y)) l) ≤ m)%nat →
  ∀ y, y ∈ l → (json_size y ≤ m)%nat.
Proof.
  induction l as [|z l IHl]; intros Hm y Hy; [by apply elem_of_nil in Hy|].
  simpl in Hm. apply elem_of_cons in Hy as [->|Hy]; [lia|]. apply IHl; [lia|done].
Qed.

Lemma dict_items_size (d : dict) m :
  (list_sum (map (fun '(_, y) => S (json_size y)) d) ≤ m)%nat →
  ∀ k y, (k, y) ∈ d → (json_size y ≤ m)%nat.
Proof.
  induction d as [|[k z] d IHd]; intros Hm k' y Hy; [by apply elem_of_nil in Hy|].
  simpl in Hm. apply elem_of_cons in Hy as [[= -> ->]|Hy]; [lia|].
  eapply IHd; [lia|done].
Qed.

Lemma starts_value_length s : starts_value s = true → (1 ≤ String.length s)%nat.
Proof. destruct s; [done|simpl; lia]. Qed.

Lemma concat_items_length {A} (size : A → nat) (enc : A → string) sep (l : list A) :
  (1 ≤ String.length sep)%nat →
  (∀ y, y ∈ l → (size y ≤ String.length (enc y))%nat) →
  (list_sum (map (fun y => S (size y)) l) ≤ String.length (String.concat sep (map enc l)) + 1)%nat.
Proof.
  intros Hsep. induction l as [|x l IHl]; intros Hall; [simpl; lia|].
  pose proof (Hall x ltac:(left)) as Hx.
  destruct l as [|y l].
  - simpl. lia.
  - change (String.concat sep (map enc (x :: y :: l)))
      with (enc x ++ sep ++ String.concat sep (map enc (y :: l)))%string.
    rewrite !string_length_app.
    assert (IH' := IHl ltac:(intros z Hz; apply Hall; by right)).
    simpl in IH' |- *. lia.
Qed.

(** The encoder with either value of [ensure_ascii] *)
Section WithOption.
Variable ea : bool.

Lemma encodable_list_items l :
  encodable ea (VList l) → ∀ y, y ∈ l → encodable ea y.
Proof.
  induction l as [|z l IHl]; intros Hl y Hy; [by apply elem_of_nil in Hy|].
  destruct Hl as [Hz Hl].
  apply elem_of_cons in Hy as [->|Hy]; [done|]. by apply IHl.
Qed.

Lemma encodable_dict_items (d : dict) :
  encodable ea (VDict d) → ∀ k y, (k, y) ∈ d → text_ok ea k ∧ encodable ea y.
Proof.
  intros [_ Hd]. induction d as [|[k z] d IHd]; intros k' y Hy;
    [by apply elem_of_nil in Hy|].
  destruct Hd as (Hk & Hz & Hd).
  apply elem_of_cons in Hy as [[= -> ->]|Hy]; [done|]. by apply IHd.
Qed.

Lemma encode_starts v level rest :
  encodable ea v → starts_value (Json.encode ea level v ++ rest)%string = true.
Proof.
  destruct v as [|[]|n|f|s|[|x xs]|[|[k x] xs]]; intros Hf; try reflexivity.
  - destruct (pretty_Z_head n rest) as (c & r & Heq & Hc). simpl Json.encode.
    rewrite Heq. simpl.
    destruct Hc as [Hc|[-> _]]; [|reflexivity].
    unfold Json.is_ws.
    rewrite !(digit_eqb_false c) by (done || (left; reflexivity) || (right; reflexivity)).
    reflexivity.
  - apply starts_value_app, Hf.
Qed.

Lemma encode_string_app s rest :
  (Json.encode_string ea s ++ rest)%string
  = String Json.dquote (Json.escape ea s ++ String Json.dquote rest)%string.
Proof.
  unfold Json.encode_string. by rewrite string_app_cons, string_app_assoc.
Qed.

Lemma parse_value_string fuel s rest :
  text_ok ea s →
  Json.parse_value (S fuel) (Json.encode_string ea s ++ rest)%string
  = Some (VStr s, rest).
Proof.
  intros Hs. rewrite encode_string_app, parse_value_open_quote.
  rewrite scan_string_escaped; [done|done|].
  rewrite string_length_app. simpl. lia.
Qed.

Lemma encode_list x xs level :
  Json.encode ea level (VList (x :: xs))
  = ("[" ++ Json.newline_indent (S level) ++
     String.concat ("," ++ Json.newline_indent (S level))
       (map (Json.encode ea (S level)) (x :: xs)) ++
     Json.newline_indent level ++ "]")%string.
Proof. reflexivity. Qed.

Lemma encode_dict kx d level :
  Json.encode ea level (VDict (kx :: d))
  = ("{" ++ Json.newline_indent (S level) ++
     String.concat ("," ++ Json.newline_indent (S level))
       (map (fun '(k, x) =>
               Json.encode_string ea k ++ ": " ++ Json.encode ea (S level) x)
          (kx :: d)) ++
     Json.newline_indent level ++ "}")%string.
Proof. reflexivity. Qed.

(** One induction step: values of size at most [n] are read back. *)
Section Step.
Variable n : nat.
Hypothesis IH : ∀ v, (json_size v ≤ n)%nat →
  ∀ fuel level rest, (json_size v ≤ fuel)%nat →
    encodable ea v → ends_value rest = true →
    Json.parse_value fuel (Json.encode ea level v ++ rest)%string = Some (v, rest).

Lemma parse_elements_encode xs : ∀ x acc fuel level rest,
  (∀ y, y ∈ x :: xs → (json_size y ≤ n)%nat ∧ encodable ea y) →
  (list_sum (map (fun y => S (json_size y)) (x :: xs)) ≤ fuel)%nat →
  Json.parse_elements fuel
    (String.concat ("," ++ Json.newline_indent (S level))
       (map (Json.encode ea (S level)) (x :: xs)) ++
     Json.newline_indent level ++ "]" ++ rest)%string acc
  = Some (VList (acc ++ x :: xs), rest).
Proof.
  induction xs as [|y ys IHxs]; intros x acc fuel level rest Hall Hfuel.
  - destruct (Hall x ltac:(left)) as (Hn & Hok).
    simpl in Hfuel. destruct fuel as [|fuel]; [lia|].
    change (String.concat ("," ++ Json.newline_indent (S level))
              (map (Json.encode ea (S level)) [x]))%string
      with (Json.encode ea (S level) x).
    erewrite parse_elements_step
      by (apply IH; done || lia || apply ends_value_indent).
    rewrite skip_ws_indent.
    destruct (after_close_bracket rest) as [-> ->]. done.
  - destruct (Hall x ltac:(left)) as (Hn & Hok).
    destruct (Hall y ltac:(right; left)) as (_ & Hoky).
    simpl in Hfuel. destruct fuel as [|fuel]; [lia|].
    change (String.concat ("," ++ Json.newline_indent (S level))
              (map (Json.encode ea (S level)) (x :: y :: ys)))%string
      with (Json.encode ea (S level) x ++ ("," ++ Json.newline_indent (S level)) ++
            String.concat ("," ++ Json.newline_indent (S level))
              (map (Json.encode ea (S level)) (y :: ys)))%string.
    rewrite !string_app_assoc.
    erewrite parse_elements_step by (apply IH; done || lia).
    rewrite after_comma, skip_ws_indent.
    assert (Hs : starts_value
                   (String.concat ("," ++ Json.newline_indent (S level))
                      (map (Json.encode ea (S level)) (y :: ys)) ++
                    Json.newline_indent level ++ "]" ++ rest)%string = true).
    { destruct ys as [|z zs].
      - by apply encode_starts.
      - change (String.concat ("," ++ Json.newline_indent (S level))
                  (map (Json.encode ea (S level)) (y :: z :: zs)))%string
          with (Json.encode ea (S level) y ++ ("," ++ Json.newline_indent (S level)) ++
                String.concat ("," ++ Json.newline_indent (S level))
                  (map (Json.encode ea (S level)) (z :: zs)))%string.
        rewrite string_app_assoc. by apply encode_starts. }
    rewrite skip_ws_starts by done.
    rewrite IHxs.
    + by rewrite <- app_assoc.
    + intros z Hz. apply Hall. by right.
    + simpl. lia.
Qed.

Lemma parse_member_key fuel k x level tail acc :
  (json_size x ≤ n)%nat → (json_size x ≤ fuel)%nat →
  text_ok ea k → encodable ea x → ends_value tail = true →
  Json.parse_members (S fuel)
    ((Json.encode_string ea k ++ ": " ++ Json.encode ea (S level) x) ++ tail)%string acc
  = match Json.after_char "," (Json.skip_ws tail), Json.after_char "}" (Json.skip_ws tail) with
    | Some r4, _ => Json.parse_members fuel (Json.skip_ws r4) (dict_set acc k x)
    | None, Some r4 => Some (VDict (dict_set acc k x), r4)
    | None, None => None
    end.
Proof.
  intros Hn Hfuel Hk Hok Htail.
  rewrite !string_app_assoc, encode_string_app.
  apply (parse_members_step _ _ _ k
           (": " ++ Json.encode ea (S level) x ++ tail)%string
           (" " ++ Json.encode ea (S level) x ++ tail)%string).
  - rewrite scan_string_escaped by (done || (rewrite string_length_app; simpl; lia)).
    by rewrite string_app_nil_l.
  - reflexivity.
  - change (Json.skip_ws (" " ++ Json.encode ea (S level) x ++ tail)%string)
      with (Json.skip_ws (Json.encode ea (S level) x ++ tail)%string).
    rewrite skip_ws_starts by by apply encode_starts.
    by apply IH.
Qed.

Lemma parse_members_encode d : ∀ k x acc fuel level rest,
  (∀ k' y, (k', y) ∈ (k, x) :: d →
           (json_size y ≤ n)%nat ∧ text_ok ea k' ∧ encodable ea y) →
  NoDup (keys (acc ++ (k, x) :: d)) →
  (list_sum (map (fun '(_, y) => S (json_size y)) ((k, x) :: d)) ≤ fuel)%nat →
  Json.parse_members fuel
    (String.concat ("," ++ Json.newline_indent (S level))
       (map (fun '(k, x) =>
               Json.encode_string ea k ++ ": " ++ Json.encode ea (S level) x)%string
          ((k, x) :: d)) ++
     Json.newline_indent level ++ "}" ++ rest)%string acc
  = Some (VDict (acc ++ (k, x) :: d), rest).
Proof.
  induction d as [|[k' y] d IHd]; intros k x acc fuel level rest Hall Hnd Hfuel.
  - destruct (Hall k x ltac:(left)) as (Hn & Hk & Hok).
    simpl in Hfuel. destruct fuel as [|fuel]; [lia|].
    change (String.concat ("," ++ Json.newline_indent (S level))
              (map (fun '(k, x) =>
                      Json.encode_string ea k ++ ": " ++ Json.encode ea (S level) x)
                 [(k, x)]))%string
      with (Json.encode_string ea k ++ ": " ++ Json.encode ea (S level) x)%string.
    rewrite parse_member_key by (done || lia || apply ends_value_indent).
    rewrite skip_ws_indent.
    destruct (after_close_brace rest) as [-> ->].
    rewrite dict_set_fresh; [done|].
    apply dict_get_None_keys. unfold keys in Hnd. rewrite map_app in Hnd.
    apply NoDup_app in Hnd as (_ & Hdis & _). intros Hin.
    apply (Hdis k Hin). left.
  - destruct (Hall k x ltac:(left)) as (Hn & Hk & Hok).
    simpl in Hfuel. destruct fuel as [|fuel]; [lia|].
    change (String.concat ("," ++ Json.newline_indent (S level))
              (map (fun '(k, x) =>
                      Json.encode_string ea k ++ ": " ++ Json.encode ea (S level) x)
                 ((k, x) :: (k', y) :: d)))%string
      with ((Json.encode_string ea k ++ ": " ++ Json.encode ea (S level) x) ++
            ("," ++ Json.newline_indent (S level)) ++
            String.concat ("," ++ Json.newline_indent (S level))
              (map (fun '(k, x) =>
                      Json.encode_string ea k ++ ": " ++ Json.encode ea (S level) x)
                 ((k', y) :: d)))%string.
    rewrite (string_app_assoc (_ ++ ": " ++ _)%string).
    rewrite parse_member_key by (done || lia).
    rewrite !string_app_assoc, after_comma, skip_ws_indent.
    assert (Hs : starts_value
                   (String.concat ("," ++ Json.newline_indent (S level))
                      (map (fun '(k, x) =>
                              Json.encode_string ea k ++ ": " ++
                              Json.encode ea (S level) x)
                         ((k', y) :: d)) ++
                    Json.newline_indent level ++ "}" ++ rest)%string = true).
    { destruct d as [|[k2 z] d]; reflexivity. }
    rewrite skip_ws_starts by done.
    assert (Hfresh : dict_get k acc = None).
    { apply dict_get_None_keys. unfold keys in Hnd. rewrite map_app in Hnd.
      apply NoDup_app in Hnd as (_ & Hdis & _). intros Hin.
      apply (Hdis k Hin). left. }
    rewrite dict_set_fresh by done.
    rewrite IHd.
    + by rewrite <- app_assoc.
    + intros k2 z Hz. apply Hall. by right.
    + by rewrite <- app_assoc.
    + simpl. lia.
Qed.

End Step.

(** Every encodable value is read back from its encoding, whatever the
    nesting depth and the text that follows. *)
Lemma parse_value_encode n : ∀ v, (json_size v ≤ n)%nat →
  ∀ fuel level rest, (json_size v ≤ fuel)%nat →
    encodable ea v → ends_value rest = true →
    Json.parse_value fuel (Json.encode ea level v ++ rest)%string = Some (v, rest).
Proof.
  induction n as [|n IH]; intros v Hsize fuel level rest Hfuel Hok Hrest.
  { destruct v; simpl in Hsize; lia. }
  destruct fuel as [|fuel]; [destruct v; simpl in Hfuel; lia|].
  destruct v as [|[]|i|f|s|[|x xs]|[|[k x] d]]; try reflexivity.
  - by apply parse_value_int.
  - by apply Hok.
  - by apply parse_value_string.
  - change (json_size (VList (x :: xs)))
      with (S (list_sum (map (fun y => S (json_size y)) (x :: xs)))) in *.
    rewrite encode_list, !string_app_assoc, string_app_cons, string_app_nil_l.
    rewrite parse_value_open_bracket, skip_ws_indent.
    assert (Hitems : ∀ y, y ∈ x :: xs → (json_size y ≤ n)%nat ∧ encodable ea y).
    { intros y Hy. split; [|by apply (encodable_list_items (x :: xs))].
      apply (list_items_size (x :: xs)); [lia|done]. }
    assert (Hs : starts_value
                   (String.concat ("," ++ Json.newline_indent (S level))
                      (map (Json.encode ea (S level)) (x :: xs)) ++
                    Json.newline_indent level ++ "]" ++ rest)%string = true).
    { destruct (Hitems x ltac:(left)) as (_ & Hfx). destruct xs as [|z zs].
      - by apply encode_starts.
      - change (String.concat ("," ++ Json.newline_indent (S level))
                  (map (Json.encode ea (S level)) (x :: z :: zs)))%string
          with (Json.encode ea (S level) x ++ ("," ++ Json.newline_indent (S level)) ++
                String.concat ("," ++ Json.newline_indent (S level))
                  (map (Json.encode ea (S level)) (z :: zs)))%string.
        rewrite string_app_assoc. by apply encode_starts. }
    rewrite skip_ws_starts, after_bracket_starts by done.
    rewrite (parse_elements_encode n IH); [done|done|lia].
  - change (json_size (VDict ((k, x) :: d)))
      with (S (list_sum (map (fun '(_, y) => S (json_size y)) ((k, x) :: d)))) in *.
    rewrite encode_dict, !string_app_assoc, string_app_cons, string_app_nil_l.
    rewrite parse_value_open_brace, skip_ws_indent.
    assert (Hitems : ∀ k' y, (k', y) ∈ (k, x) :: d →
              (json_size y ≤ n)%nat ∧ text_ok ea k' ∧ encodable ea y).
    { intros k' y Hy. split; [|by apply (encodable_dict_items ((k, x) :: d))].
      apply (dict_items_size ((k, x) :: d) n ltac:(lia) k'); done. }
    assert (Hs : starts_value
                   (String.concat ("," ++ Json.newline_indent (S level))
                      (map (fun '(k, x) =>
                              Json.encode_string ea k ++ ": " ++
                              Json.encode ea (S level) x)
                         ((k, x) :: d)) ++
                    Json.newline_indent level ++ "}" ++ rest)%string = true).
    { destruct d as [|[k2 z] d]; reflexivity. }
    rewrite skip_ws_starts by done.
    replace (Json.after_char "}" _) with (@None string).
    2:{ destruct d as [|[k2 z] d]; reflexivity. }
    rewrite (parse_members_encode n IH); [done|done| |lia].
    apply Hok.
Qed.

(** The fuel [loads] gives the parser is enough: an encoding is at
    least as long as the size of the value. *)
Lemma json_size_length n : ∀ v, (json_size v ≤ n)%nat →
  ∀ level, encodable ea v →
    (json_size v ≤ String.length (Json.encode ea level v))%nat.
Proof.
  induction n as [|n IH]; intros v Hsize level Hok.
  { destruct v; simpl in Hsize; lia. }
  destruct v as [|[]|i|f|s|[|x xs]|[|[k x] d]]; try (simpl; lia).
  - apply (starts_value_length (Json.encode ea level (VInt i))).
    rewrite <- (string_app_nil_r (Json.encode ea level (VInt i))).
    by apply encode_starts.
  - apply starts_value_length, Hok.
  - change (json_size (VList (x :: xs)))
      with (S (list_sum (map (fun y => S (json_size y)) (x :: xs)))) in *.
    rewrite encode_list, !string_length_app.
    pose proof (concat_items_length json_size (Json.encode ea (S level))
                  ("," ++ Json.newline_indent (S level))%string (x :: xs)) as Hc.
    unfold Json.newline_indent in *. simpl String.length in *.
    assert (Hitems : ∀ y, y ∈ x :: xs →
              (json_size y ≤ String.length (Json.encode ea (S level) y))%nat).
    { intros y Hy. apply IH.
      - apply (list_items_size (x :: xs)); [lia|done].
      - by apply (encodable_list_items (x :: xs)). }
    specialize (Hc ltac:(lia) Hitems). lia.
  - change (json_size (VDict ((k, x) :: d)))
      with (S (list_sum (map (fun '(_, y) => S (json_size y)) ((k, x) :: d)))) in *.
    rewrite encode_dict, !string_length_app.
    pose proof (concat_items_length (fun '(_, y) => json_size y)
                  (fun '(k, x) => (Json.encode_string ea k ++ ": " ++
                                   Json.encode ea (S level) x)%string)
                  ("," ++ Json.newline_indent (S level))%string ((k, x) :: d)) as Hc.
    unfold Json.newline_indent in *. simpl String.length in *.
    assert (Hitems : ∀ kv, kv ∈ (k, x) :: d →
              ((let '(_, y) := kv in json_size y) ≤
               String.length (let '(k, x) := kv in
                              (Json.encode_string ea k ++ ": " ++
                               Json.encode ea (S level) x)%string))%nat).
    { intros [k' y] Hy. rewrite !string_length_app.
      assert (json_size y ≤ String.length (Json.encode ea (S level) y))%nat; [|lia].
      apply IH.
      - apply (dict_items_size ((k, x) :: d) n ltac:(lia) k'); done.
      - by apply (encodable_dict_items ((k, x) :: d) Hok k'). }
    specialize (Hc ltac:(lia) Hitems).
    replace (map (fun y : string * value => S (let '(_, y0) := y in json_size y0)) ((k, x) :: d))
      with (map (fun '(_, y) => S (json_size y)) ((k, x) :: d)) in Hc.
    2:{ apply map_ext. by intros []. }
    lia.
Qed.

(** What [json.dump(v, f, indent=2, ensure_ascii=...)] writes,
    [json.load] reads back as [v]. *)
Lemma json_round_trip v :
  encodable ea v →
  json_load (JsonLib := Json.python_json P)
    (json_dump (JsonLib := Json.python_json P) ea v) = Ok v.
Proof.
  intros Hok. simpl. unfold Json.loads.
  pose proof (encode_starts v 0 "" Hok) as Hs. rewrite string_app_nil_r in Hs.
  rewrite skip_ws_starts by done.
  pose proof (parse_value_encode (json_size v) v ltac:(lia)
                (S (String.length (Json.encode ea 0 v))) 0 "") as Hp.
  rewrite string_app_nil_r in Hp. rewrite Hp; [done| |done|done].
  pose proof (json_size_length (json_size v) v ltac:(lia) 0 Hok). lia.
Qed.


End WithOption.
End Encoded.

(** *** Dotted-path lookup *)

Lemma get_loop_resolves v keys x :
  resolves v keys x → Config.get_loop v keys = Ok x.
Proof.
  induction 1 as [|d key child rest x Hget _ IH]; simpl; [done|].
  by rewrite Hget.
Qed.

Lemma get_loop_stuck v keys :
  stuck v keys →
  (∃ k, Config.get_loop v keys = Raise (KeyError k)) ∨
  Config.get_loop v keys = Raise TypeError.
Proof.
  induction 1 as [d key rest Hget|v key rest Hnd|d key child rest Hget _ IH]; simpl.
  - rewrite Hget. left. by eexists.
  - right. by destruct v.
  - by rewrite Hget.
Qed.

Lemma resolves_or_stuck v keys : (∃ x, resolves v keys x) ∨ stuck v keys.
Proof.
  revert v. induction keys as [|key rest IH]; intros v.
  - left. eexists. constructor.
  - destruct v as [| | | | | |d]; try (right; by apply stuck_non_mapping).
    destruct (dict_get key d) as [child|] eqn:Hget.
    + destruct (IH child) as [[x Hx]|Hs].
      * left. exists x. by econstructor.
      * right. by eapply stuck_below.
    + right. by apply stuck_absent.
Qed.

Lemma resolves_not_stuck v keys x : resolves v keys x → stuck v keys → False.
Proof.
  induction 1 as [|d key child rest x Hget _ IH]; inversion 1; subst;
    try done; congruence.
Qed.


(** *** The file system *)

Lemma open_write_writable fs path text :
  writable fs path → open_write fs path text = Ok (written fs path text).
Proof.
  intros [Hd Hu]. unfold open_write. rewrite decide_False; [done|]. tauto.
Qed.

Lemma open_write_not_writable fs path text :
  ¬ writable fs path → open_write fs path text = Raise OSError.
Proof.
  intros Hn. unfold open_write. rewrite decide_True; [done|].
  unfold writable in Hn.
  destruct (decide (path ∈ dirs fs)); [by left|].
  destruct (decide (path ∈ unwritable fs)); [by right|]. tauto.
Qed.

Lemma writable_dec fs path : writable fs path ∨ ¬ writable fs path.
Proof.
  unfold writable.
  destruct (decide (path ∈ dirs fs)), (decide (path ∈ unwritable fs)); tauto.
Qed.

Lemma read_after_write fs path text :
  writable fs path → open_read (written fs path text) path = Ok text.
Proof.
  intros [Hd _]. unfold open_read, written; simpl.
  rewrite decide_False by done. by rewrite lookup_insert_eq.
Qed.


(** *** Assignment along a dotted path *)

Lemma split_nonempty sep s : split sep s ≠ [].
Proof.
  destruct s as [|c s]; simpl; [done|].
  destruct (Ascii.eqb c sep); [done|]. by destruct (split sep s).
Qed.

Lemma split_init_last sep s :
  split sep s = removelast (split sep s) ++ [List.last (split sep s) ""].
Proof. apply app_removelast_last, split_nonempty. Qed.

Lemma dict_has_true key d : dict_has key d = true → ∃ v, dict_get key d = Some v.
Proof. unfold dict_has. destruct (dict_get key d); [eauto|done]. Qed.

Lemma dict_has_false key d : dict_has key d = false → dict_get key d = None.
Proof. unfold dict_has. by destruct (dict_get key d). Qed.

Lemma keys_dict_set_in d key v x :
  dict_get key d = Some x → keys (dict_set d key v) = keys d.
Proof.
  induction d as [|[k y] d IH]; simpl; [done|].
  destruct (String.eqb_spec k key) as [->|Hne]; simpl; [done|].
  intros H. by rewrite IH.
Qed.

Lemma keys_dict_set_new d key v :
  dict_get key d = None → keys (dict_set d key v) = keys d ++ [key].
Proof.
  induction d as [|[k y] d IH]; simpl; [done|].
  destruct (String.eqb_spec k key) as [->|Hne]; simpl; [done|].
  intros H. by rewrite IH.
Qed.

Lemma unique_keys_dict_set d key v : unique_keys d → unique_keys (dict_set d key v).
Proof.
  unfold unique_keys. intros Hd.
  destruct (dict_get key d) as [x|] eqn:Hget.
  - by rewrite (keys_dict_set_in _ _ _ _ Hget).
  - rewrite keys_dict_set_new by done.
    apply NoDup_app. split; [done|]. split; [|apply NoDup_singleton].
    intros k Hk ->%list_elem_of_singleton. by apply dict_get_None_keys in Hget.
Qed.

Lemma well_formed_dict d : well_formed (VDict d) ↔ unique_keys d ∧ all_well_formed d.
Proof. done. Qed.

Lemma all_well_formed_get d key x :
  all_well_formed d → dict_get key d = Some x → well_formed x.
Proof.
  induction d as [|[k y] d IH]; simpl; [done|].
  intros [Hy Hd]. destruct (String.eqb k key); [by intros [= <-]|by apply IH].
Qed.

Lemma all_well_formed_set d key v :
  all_well_formed d → well_formed v → all_well_formed (dict_set d key v).
Proof.
  intros Hd Hv. induction d as [|[k y] d IH]; simpl; [done|].
  destruct Hd as [Hy Hd].
  destruct (String.eqb k key); simpl; [done|]. split; [done|by apply IH].
Qed.

Lemma well_formed_get d key x :
  well_formed (VDict d) → dict_get key d = Some x → well_formed x.
Proof. intros [_ H]%well_formed_dict. by apply all_well_formed_get. Qed.

Lemma well_formed_set d key v :
  well_formed (VDict d) → well_formed v → well_formed (VDict (dict_set d key v)).
Proof.
  intros [Hu Ha]%well_formed_dict Hv. apply well_formed_dict.
  split; [by apply unique_keys_dict_set | by apply all_well_formed_set].
Qed.

Lemma settable_empty init : settable (VDict []) init = true.
Proof. by destruct init. Qed.

Lemma set_walk_settable config init last_key v :
  settable config init = true →
  ∃ d', Config.set_walk config init last_key v = Ok (VDict d') ∧
        resolves (VDict d') (init ++ [last_key]) v ∧
        (well_formed config → well_formed v → well_formed (VDict d')).
Proof.
  revert config. induction init as [|key rest IH]; intros config Hs.
  - destruct config as [| | | | | |d]; try done. simpl.
    eexists. split; [done|]. split.
    + econstructor; [apply dict_get_set_eq | constructor].
    + intros. by apply well_formed_set.
  - destruct config as [| | | | | |d]; try done. simpl in Hs |- *.
    unfold dict_has. destruct (dict_get key d) as [child|] eqn:Hget; simpl.
    + rewrite Hget; simpl.
      destruct (IH child Hs) as (d' & -> & Hres & Hwf). simpl.
      eexists. split; [done|]. split.
      * econstructor; [apply dict_get_set_eq | done].
      * intros Hc Hv. apply well_formed_set; [done|].
        apply Hwf; [|done]. by eapply well_formed_get.
    + rewrite dict_get_set_eq; simpl.
      destruct (IH (VDict []) (settable_empty rest)) as (d' & -> & Hres & Hwf). simpl.
      eexists. split; [done|]. split.
      * econstructor; [apply dict_get_set_eq | done].
      * intros Hc Hv. apply well_formed_set.
        -- apply well_formed_set; [done|]. split; [apply NoDup_nil_2|done].
        -- apply Hwf; [|done]. split; [apply NoDup_nil_2|done].
Qed.

Lemma set_walk_not_settable config init last_key v :
  settable config init = false →
  Config.set_walk config init last_key v = Raise TypeError.
Proof.
  revert config. induction init as [|key rest IH]; intros config Hs.
  - by destruct config.
  - destruct config as [| | | | s|l|d]; try done; simpl in *.
    + by destruct (str_contains key s).
    + by destruct (existsb _ l).
    + unfold dict_has. destruct (dict_get key d) as [child|] eqn:Hget; [|done].
      simpl. rewrite Hget; simpl. by rewrite (IH child Hs).
Qed.



(** *** Reloading a saved configuration *)

Lemma resolves_merge keys default user x :
  well_formed (VDict user) → keys ≠ [] → is_dict x = false →
  resolves (VDict user) keys x →
  resolves (VDict (Config._merge_configs default user)) keys x.
Proof.
  revert default user. induction keys as [|key rest IH]; [done|].
  intros default user Hwf _ Hx Hres.
  inversion Hres as [|d key' child rest' x' Hget Hrest]; subst.
  assert (Hc : well_formed child) by by eapply well_formed_get.
  econstructor.
  { rewrite merge_configs_lookup by apply Hwf. by rewrite Hget. }
  destruct rest as [|key2 rest].
  - inversion Hrest; subst. rewrite merge_entry_not_both; [constructor|].
    intros m u _ ->. done.
  - destruct child as [| | | | | |cu]; try (by inversion Hrest).
    destruct (dict_get key default) as [[| | | | | |m]|]; try done.
    rewrite merge_entry_dicts. by apply IH.
Qed.

(** *** Values that can be written and read back *)

Section Encodable.
Context {P : PythonLib}.
Variable ea : bool.







End Encodable.

(** *** [Config.set] and [Config.load_config] *)

Section ConfigStore.
Context {J : JsonLib}.

Lemma save_config_self config_file cfg fs :
  Config.save_config config_file (Some cfg) None fs =
    Ok (match open_write fs config_file (json_dump true cfg) with
        | Ok fs' => fs'
        | Raise _ => fs
        end).
Proof. unfold Config.save_config; simpl. by destruct (open_write _ _ _). Qed.


(** C10, as the code has it: without a settings file the constructor
    keeps the defaults in memory and writes them to the file when the file
    can be written (a failed write is reported and otherwise ignored); with
    a settings file the file system is left as it is, and the defaults are
    kept when the file cannot be read, parsed or merged. *)
Theorem load_config_defaults (config_file : string) (fs : filesystem) :
  (path_exists fs config_file = false →
     ∃ fs', Config.init config_file fs
              = Ok (Config.Make config_file (VDict Config.default_config), fs') ∧
            (writable fs config_file →
               fs' = written fs config_file (json_dump true (VDict Config.default_config))) ∧
            (¬ writable fs config_file → fs' = fs)) ∧
  (path_exists fs config_file = true →
     ∃ cfg, Config.init config_file fs = Ok (Config.Make config_file cfg, fs) ∧
            (∀ e, Config.read_settings config_file fs = Raise e →
                  cfg = VDict Config.default_config) ∧
            (∀ merged, Config.read_settings config_file fs = Ok merged → cfg = merged)).
Proof.
  split.
  - intros Hex. unfold Config.init, Config.load_config. rewrite Hex.
    unfold Config.save_config; simpl.
    destruct (writable_dec fs config_file) as [Hw|Hw].
    + rewrite open_write_writable by done. simpl.
      eexists. split; [done|]. split; [done|]. intros; tauto.
    + rewrite open_write_not_writable by done. simpl.
      eexists. split; [done|]. split; [intros; tauto|done].
  - intros Hex. unfold Config.init, Config.load_config. rewrite Hex.
    destruct (Config.read_settings config_file fs) as [merged|e]; simpl.
    + eexists. split; [done|]. split; [done|]. by intros ? [= <-].
    + eexists. split; [done|]. split; [done|]. done.
Qed.

End ConfigStore.



(** *** Saving and loading posts *)

Lemma open_write_inv fs path text fs' :
  open_write fs path text = Ok fs' → writable fs path ∧ fs' = written fs path text.
Proof.
  destruct (writable_dec fs path) as [Hw|Hw].
  - rewrite open_write_writable by done. by intros [= <-].
  - by rewrite open_write_not_writable.
Qed.

Lemma save_then_load {J : JsonLib} (self : DataStorage.t) (posts : list value)
    (filename : option string) (now : datetime) (fs fs' : filesystem) (path : string) :
  DataStorage.save_posts self posts filename now fs = (path, fs') →
  path ≠ "" →
  json_load (json_dump false (VList posts)) = Ok (VList posts) →
  path = path_join (DataStorage.data_dir self) (DataStorage.written_name filename now) ∧
  DataStorage.load_posts self (DataStorage.written_name filename now) fs' = VList posts.
Proof.
  intros Hsave Hpath Hjson. unfold DataStorage.save_posts in Hsave.
  destruct (open_write _ _ _) as [fs1|e] eqn:Hw; [|by inversion Hsave; subst].
  apply open_write_inv in Hw as [Hw ->]. inversion Hsave; subst. split; [done|].
  unfold DataStorage.load_posts. rewrite read_after_write by done. simpl.
  by rewrite Hjson.
Qed.

(** C1, as the code has it: when [save_posts(P, filename)] returns a
    non-empty path, [load_posts] on the name the posts were written under
    returns [P], in the same order and with the same field values, text
    outside ASCII included.  That name is the given one when it is not
    empty, and the time-stamped default otherwise.  The posts are
    [encodable]: a Python dict holds each key once, and a float is read
    back unless it is a [NaN]. *)
Theorem save_load_roundtrip {P : PythonLib} (self : DataStorage.t) (posts : list value)
    (filename : option string) (now : datetime) (fs fs' : filesystem) (path : string)
    (Hsave : DataStorage.save_posts (J := Json.python_json P) self posts filename now fs
             = (path, fs'))
    (Hpath : path ≠ "")
    (Hposts : encodable false (VList posts)) :
  DataStorage.load_posts (J := Json.python_json P) self
    (DataStorage.written_name filename now) fs' = VList posts ∧
  (∀ f, filename = Some f → f ≠ "" →
        DataStorage.load_posts (J := Json.python_json P) self f fs' = VList posts).
Proof.
  destruct (save_then_load (J := Json.python_json P) self posts filename now fs fs' path
              Hsave Hpath (json_round_trip false _ Hposts)) as [_ Hload].
  split; [done|]. intros f -> Hf. simpl in Hload.
  by destruct (String.eqb_spec f "").
Qed.

(** *** Summaries *)

Section Summaries.
Context {P : PythonLib} {W : Type} {S : Services W}.

Lemma content_without_comments post include_comments comments :
  comments = None ∨ comments = Some [] →
  PostSummarizer.content_to_summarize post include_comments comments =
  PostSummarizer.content_to_summarize post false None.
Proof. intros [-> | ->]; reflexivity. Qed.

Lemma summarize_post_without_comments post include_comments comments :
  comments = None ∨ comments = Some [] →
  PostSummarizer.summarize_post post include_comments comments =
  PostSummarizer.summarize_post post false None.
Proof.
  intros H. unfold PostSummarizer.summarize_post.
  by rewrite (content_without_comments _ _ _ H).
Qed.

End Summaries.

(** *** Timestamps *)

Lemma is_digit_digit_char n : is_digit (digit_char n) = true.
Proof.
  unfold is_digit, digit_char.
  assert (0 ≤ n mod 10 < 10)%Z by (apply Z.mod_pos_bound; lia).
  rewrite N_ascii_embedding by lia.
  apply andb_true_intro. split; [apply N.leb_le | apply N.leb_le]; lia.
Qed.


Lemma strftime_compact_shape t : matches_pattern "dddddddd_dddddd" (strftime_compact t) = true.
Proof.
  unfold strftime_compact, pad4, pad2, digit. simpl.
  by rewrite !is_digit_digit_char.
Qed.

(** *** One summary *)

Lemma post_record_fields post :
  post_record post = true →
  (∃ id, dict_get "id" post = Some id) ∧
  (∃ title, dict_get "title" post = Some (VStr title)) ∧
  (∃ content, dict_get "content" post = Some content).
Proof.
  unfold post_record. intros [Hall Ht]%andb_prop.
  simpl in Hall. repeat (apply andb_prop in Hall as [? Hall]).
  repeat split.
  - by apply dict_has_true.
  - destruct (dict_get "title" post) as [[]|]; try done. by eexists.
  - by apply dict_has_true.
Qed.

Section OneSummary.
Context {P : PythonLib} {W : Type} {S : Services W}.

Lemma same_original_fields_summary post v :
  same_original_fields post (dict_set post "summary" v).
Proof. intros key H1 H2. by rewrite dict_get_set_ne. Qed.

Lemma same_original_fields_both post v t :
  same_original_fields post (dict_set (dict_set post "summary" v) "summarized_at" t).
Proof. intros key H1 H2. by rewrite !dict_get_set_ne. Qed.

Lemma summarize_post_returns_copy (post : dict) (include_comments : bool)
    (comments : option (list value)) (w : W) :
  post_record post = true →
  ∃ copy w',
    PostSummarizer.summarize_post post include_comments comments w = (Ok copy, w') ∧
    same_original_fields post copy.
Proof.
  intros ((id & Hid) & _ & _)%post_record_fields.
  unfold PostSummarizer.summarize_post, try_except, mbind, io_bind, lift.
  destruct (PostSummarizer.content_to_summarize post include_comments comments)
    as [content|e]; simpl.
  - destruct (generate_content (PostSummarizer.full_prompt content) w)
      as [[text|e] w1]; simpl.
    + unfold PostSummarizer._get_current_timestamp.
      destruct (datetime_now w1) as [t w2].
      eexists _, _. split; [done|]. apply same_original_fields_both.
    + rewrite Hid; simpl. eexists _, _. split; [done|].
      apply same_original_fields_summary.
  - rewrite Hid; simpl. eexists _, _. split; [done|].
    apply same_original_fields_summary.
Qed.


End OneSummary.

(** *** Batches of summaries *)

Section Batches.
Context {P : PythonLib} {W : Type} {S : Services W}.

Lemma title_preview post :
  post_record post = true →
  ∃ shown, (title ← getitem (VDict post) "title"; slice_prefix 50 title) = Ok shown.
Proof.
  intros (_ & (title & Ht) & _)%post_record_fields. simpl. rewrite Ht. simpl. eauto.
Qed.

Lemma batch_comments_empty (include_comments : bool) :
  let comments : option (list value) := if include_comments then Some [] else None in
  comments = None ∨ comments = Some [].
Proof. destruct include_comments; simpl; auto. Qed.

Lemma summarize_loop_cons post rest include_comments acc w :
  PostSummarizer.summarize_loop (post :: rest) include_comments acc w =
    match title ← getitem (VDict post) "title"; slice_prefix 50 title with
    | Ok _ =>
        match PostSummarizer.summarize_post post include_comments
                (if include_comments then Some [] else None) w with
        | (Ok copy, w1) =>
            PostSummarizer.summarize_loop rest include_comments (acc ++ [copy]) w1
        | (Raise e, w1) => (Raise e, w1)
        end
    | Raise e => (Raise e, w)
    end.
Proof.
  simpl. unfold mbind at 1. unfold io_bind at 1. unfold lift.
  destruct (_ ≫= _); [|done].
  unfold mbind, io_bind. by destruct (PostSummarizer.summarize_post _ _ _ _) as [[]].
Qed.

Lemma summarize_each_cons post rest w :
  summarize_each (post :: rest) w =
    match PostSummarizer.summarize_post post false None w with
    | (Ok copy, w1) =>
        match summarize_each rest w1 with
        | (Ok others, w2) => (Ok (copy :: others), w2)
        | (Raise e, w2) => (Raise e, w2)
        end
    | (Raise e, w1) => (Raise e, w1)
    end.
Proof.
  simpl. unfold mbind, io_bind.
  destruct (PostSummarizer.summarize_post _ _ _ _) as [[copy|e] w1]; [|done].
  by destruct (summarize_each rest w1) as [[]].
Qed.

Lemma summarize_loop_flag posts acc w :
  PostSummarizer.summarize_loop posts true acc w =
  PostSummarizer.summarize_loop posts false acc w.
Proof.
  revert acc w. induction posts as [|post rest IH]; intros acc w; [done|].
  rewrite !summarize_loop_cons.
  destruct (_ ≫= _); [|done].
  rewrite (summarize_post_without_comments post true (Some [])) by auto.
  destruct (PostSummarizer.summarize_post post false None w) as [[copy|e] w1]; [|done].
  apply IH.
Qed.

Lemma summarize_loop_each posts include_comments acc w :
  forallb post_record posts = true →
  PostSummarizer.summarize_loop posts include_comments acc w =
    match summarize_each posts w with
    | (Ok out, w') => (Ok (acc ++ out), w')
    | (Raise e, w') => (Raise e, w')
    end.
Proof.
  revert acc w. induction posts as [|post rest IH]; intros acc w Hall.
  - simpl. by rewrite app_nil_r.
  - simpl in Hall. apply andb_prop in Hall as [Hpost Hall].
    destruct (title_preview post Hpost) as [shown Hshown].
    rewrite summarize_loop_cons, summarize_each_cons, Hshown.
    rewrite (summarize_post_without_comments post include_comments)
      by apply batch_comments_empty.
    destruct (PostSummarizer.summarize_post post false None w) as [[copy|e] w1]; [|done].
    rewrite IH by done.
    destruct (summarize_each rest w1) as [[out|e] w2]; [|done].
    by rewrite <- app_assoc.
Qed.

Lemma summarize_each_copies posts w :
  forallb post_record posts = true →
  ∃ out w', summarize_each posts w = (Ok out, w') ∧
            length out = length posts ∧
            ∀ i post, posts !! i = Some post →
                      ∃ copy, out !! i = Some copy ∧ same_original_fields post copy.
Proof.
  revert w. induction posts as [|post rest IH]; intros w Hall.
  - eexists _, _. split; [done|]. split; [done|]. intros i post. by rewrite lookup_nil.
  - simpl in Hall. apply andb_prop in Hall as [Hpost Hall].
    destruct (summarize_post_returns_copy post false None w Hpost) as (copy & w1 & Hone & Hsame).
    destruct (IH w1 Hall) as (out & w2 & Hrest & Hlen & Hnth).
    rewrite summarize_each_cons, Hone, Hrest.
    eexists _, _. split; [done|]. split; [simpl; by rewrite Hlen|].
    intros [|i] p; simpl.
    + intros [= <-]. eauto.
    + apply Hnth.
Qed.

(** C5: on post records, [summarize_multiple_posts] is [summarize_post]
    without comments applied to each post in turn: the results come in
    input order, one copy per post, the content put in each prompt is the
    title and the body only, and the outcome is the same for both values of
    [include_comments]. *)
Theorem summarize_multiple_posts_sequential (posts : list dict)
    (include_comments : bool) (w : W)
    (Hposts : forallb post_record posts = true) :
  PostSummarizer.summarize_multiple_posts posts include_comments w = summarize_each posts w ∧
  PostSummarizer.summarize_multiple_posts posts true w =
    PostSummarizer.summarize_multiple_posts posts false w ∧
  (∃ out w',
     PostSummarizer.summarize_multiple_posts posts include_comments w = (Ok out, w') ∧
     length out = length posts ∧
     ∀ i post, posts !! i = Some post →
               ∃ copy, out !! i = Some copy ∧ same_original_fields post copy) ∧
  (∀ post, post ∈ posts →
     ∃ title body,
       dict_get "title" post = Some title ∧ dict_get "content" post = Some body ∧
       PostSummarizer.content_to_summarize post include_comments
         (if include_comments then Some [] else None)
       = Ok (("Title: " ++ py_str title ++ nl) ++
             (if truthy body then "Content: " ++ py_str body ++ nl else ""))%string).
Proof.
  assert (Heach : PostSummarizer.summarize_multiple_posts posts include_comments w
                  = summarize_each posts w).
  { unfold PostSummarizer.summarize_multiple_posts.
    rewrite summarize_loop_each by done.
    by destruct (summarize_each posts w) as [[out|e] w']. }
  split; [done|]. split; [apply summarize_loop_flag|]. split.
  - rewrite Heach. by apply summarize_each_copies.
  - intros post Hin.
    assert (Hpost : post_record post = true).
    { rewrite forallb_forall in Hposts. apply Hposts. by apply list_elem_of_In. }
    destruct (post_record_fields post Hpost) as (_ & (title & Ht) & (body & Hb)).
    exists (VStr title), body. split; [done|]. split; [done|].
    rewrite content_without_comments by apply batch_comments_empty.
    unfold PostSummarizer.content_to_summarize. simpl. rewrite Ht, Hb. simpl.
    destruct (truthy body); [done|]. by rewrite string_app_nil_r.
Qed.

(** C7: the digest of no posts is the fixed text, and nothing is asked of
    the model or the clock. *)
Theorem create_digest_empty (w : W) :
  PostSummarizer.create_digest [] w = (Ok "No posts to summarize.", w).
Proof. reflexivity. Qed.

End Batches.

(** *** Comments of a post *)

Lemma length_collect forest :
  (length (RedditClient.collect forest) ≤ length forest)%nat.
Proof.
  induction forest as [|c rest IH]; simpl; [done|].
  destruct (RedditClient.body c); simpl; lia.
Qed.

Lemma collect_from_body forest record :
  record ∈ RedditClient.collect forest →
  ∃ comment text, comment ∈ forest ∧ RedditClient.body comment = Some text ∧
                  record = RedditClient.comment_data comment text.
Proof.
  induction forest as [|c rest IH]; simpl; [by intros ?%elem_of_nil|].
  destruct (RedditClient.body c) as [text|] eqn:Hb.
  - intros [->|Hin]%elem_of_cons.
    + exists c, text. split; [left|done].
    + destruct (IH Hin) as (c' & t' & ? & ? & ?). exists c', t'. split; [by right|done].
  - intros Hin. destruct (IH Hin) as (c' & t' & ? & ? & ?).
    exists c', t'. split; [by right|done].
Qed.

Lemma slice_to_sublist {A} (limit : Z) (lst : list A) x :
  x ∈ RedditClient.slice_to limit lst → x ∈ lst.
Proof.
  unfold RedditClient.slice_to.
  destruct (0 <=? limit)%Z; intros (i & Hi & _)%elem_of_take;
    by eapply list_elem_of_lookup_2.
Qed.

(** C8, as the code has it: for a limit that is not negative,
    [get_post_comments] returns at most [limit] records; for every limit,
    each record is built from an object of the post's comment forest that
    has a body, and the result is the empty list when the client raises. *)
Theorem get_post_comments_bounded {A : RedditClient.Api} (post_id : string) (limit : Z) :
  ((0 ≤ limit)%Z →
   (Z.of_nat (length (RedditClient.get_post_comments post_id limit)) ≤ limit)%Z) ∧
  (∀ record, record ∈ RedditClient.get_post_comments post_id limit →
     ∃ forest comment text,
       RedditClient.submission_comments post_id = Ok forest ∧
       comment ∈ forest ∧ RedditClient.body comment = Some text ∧
       record = RedditClient.comment_data comment text) ∧
  (∀ e, RedditClient.submission_comments post_id = Raise e →
        RedditClient.get_post_comments post_id limit = []).
Proof.
  unfold RedditClient.get_post_comments.
  destruct (RedditClient.submission_comments post_id) as [forest|e]; simpl.
  - split; [|split; [|done]].
    + intros Hlimit.
      pose proof (length_collect (RedditClient.slice_to limit forest)) as Hc.
      unfold RedditClient.slice_to in *.
      rewrite (proj2 (Z.leb_le 0 limit)) in * by done.
      rewrite length_take in Hc. lia.
    + intros record (c & t & Hin & Hb & ->)%collect_from_body.
      exists forest, c, t. split; [done|]. split; [|done].
      by eapply slice_to_sublist.
  - split; [lia|]. split; [by intros ? ?%elem_of_nil|done].
Qed.

(** *** The command front end *)

(** C9 at [--value 1.2.3]: the text passes the test
    [value.replace('.', '').isdigit()], so [float] is applied to it and
    raises; nothing is stored. *)
Theorem coerce_two_dots_raises {P : PythonLib} {J : JsonLib} :
  Main.coerce "1.2.3" = Raise ValueError ∧
  ∀ config fs,
    Main.set_config config (Some "reddit.default_limit") (Some "1.2.3") fs
    = Raise ValueError.
Proof. split; reflexivity. Qed.

(** With at most one dot in the text the conversion returns a value. *)
Lemma coerce_ok_one_dot {P : PythonLib} raw :
  (Main.count_dots raw ≤ 1)%nat → ∃ v, Main.coerce raw = Ok v.
Proof.
  intros Hdots. unfold Main.coerce, Main.py_int, Main.py_float.
  destruct (_ || _); [eauto|].
  destruct (Main.isdigit raw); [eauto|].
  destruct (Main.isdigit (Main.remove_dots raw)); [|eauto].
  rewrite (proj2 (Nat.leb_le _ _) Hdots). simpl. eauto.
Qed.

(** * Further properties of the code *)

(** ** config.py: merging *)

Lemma keys_dict_set d key v :
  keys (dict_set d key v) = if dict_has key d then keys d else keys d ++ [key].
Proof.
  unfold dict_has. destruct (dict_get key d) as [x|] eqn:Hget.
  - by eapply keys_dict_set_in.
  - by apply keys_dict_set_new.
Qed.

Lemma dict_has_keys key d : dict_has key d = true ↔ key ∈ keys d.
Proof.
  unfold dict_has. destruct (dict_get key d) eqn:Hget.
  - split; [|done]. intros _. destruct (decide (key ∈ keys d)) as [|Hn]; [done|].
    apply dict_get_None_keys in Hn. congruence.
  - apply dict_get_None_keys in Hget. split; [done|]. intros; contradiction.
Qed.

Lemma filter_ext_elem {A} (P1 P2 : A → Prop)
    `{!∀ x, Decision (P1 x), !∀ x, Decision (P2 x)} (l : list A) :
  (∀ x, x ∈ l → (P1 x ↔ P2 x)) → filter P1 l = filter P2 l.
Proof.
  induction l as [|a l IH]; intros Hall; [done|].
  rewrite !filter_cons. assert (P1 a ↔ P2 a) by (apply Hall; left).
  rewrite IH by (intros; apply Hall; by right).
  destruct (decide (P1 a)), (decide (P2 a)); first [done | exfalso; tauto].
Qed.

Lemma filter_none {A} (Q : A → Prop) `{!∀ x, Decision (Q x)} (l : list A) :
  (∀ x, x ∈ l → ¬ Q x) → filter Q l = [].
Proof.
  induction l as [|a l IH]; intros Hall; [done|].
  rewrite filter_cons_False by (apply Hall; left). apply IH. intros; apply Hall; by right.
Qed.

Lemma merge_configs_keys default user :
  unique_keys user →
  keys (Config._merge_configs default user)
  = keys default ++ filter (fun k => k ∉ keys default) (keys user).
Proof.
  unfold unique_keys. revert default.
  induction user as [|[k v] user IH]; intros default Hnd; simpl.
  { by rewrite app_nil_r. }
  simpl in Hnd. apply NoDup_cons in Hnd as [Hk Hnd].
  rewrite IH by done. rewrite keys_dict_set.
  destruct (dict_has k default) eqn:Hhas.
  - apply dict_has_keys in Hhas. by rewrite filter_cons_False by (intros ?; contradiction).
  - assert (Hn : k ∉ keys default).
    { intros Hin%dict_has_keys. congruence. }
    rewrite filter_cons_True by done. rewrite <- app_assoc. simpl. do 2 f_equal.
    apply filter_ext_elem. intros x Hx. rewrite not_elem_of_app, list_elem_of_singleton.
    split; [tauto|]. intros Hd. split; [done|]. by intros ->.
Qed.

Lemma merge_configs_unique default user :
  unique_keys default → unique_keys (Config._merge_configs default user).
Proof.
  revert default. induction user as [|[k v] user IH]; intros default Hd; simpl; [done|].
  apply IH. by apply unique_keys_dict_set.
Qed.

(** X1: the keys of a merged configuration: the defaults' keys in their
    order, followed by the keys only the user configuration has, in the
    user's order; each key once. *)
Theorem merge_configs_key_order (default user : dict)
    (Hdefault : unique_keys default) (Huser : unique_keys user) :
  keys (Config._merge_configs default user)
  = keys default ++ filter (fun k => k ∉ keys default) (keys user) ∧
  unique_keys (Config._merge_configs default user) ∧
  (∀ k, k ∈ keys default → dict_has k (Config._merge_configs default user) = true).
Proof.
  split; [by apply merge_configs_keys|]. split; [by apply merge_configs_unique|].
  intros k Hk. apply dict_has_keys. rewrite merge_configs_keys by done.
  apply elem_of_app. by left.
Qed.

Lemma dict_ext (a b : dict) :
  keys a = keys b → unique_keys a → (∀ k, dict_get k a = dict_get k b) → a = b.
Proof.
  revert b. induction a as [|[k x] a IH]; intros [|[k' y] b] Hk Hu Hget; try done.
  simpl in Hk. injection Hk as -> Hk.
  unfold unique_keys in Hu. simpl in Hu. apply NoDup_cons in Hu as [Hn Hu].
  pose proof (Hget k') as Hh. simpl in Hh. rewrite String.eqb_refl in Hh.
  injection Hh as ->. f_equal. apply IH; [done|done|].
  intros key. specialize (Hget key). simpl in Hget.
  destruct (String.eqb_spec k' key) as [Heq|]; [|done]. subst key.
  rewrite (proj2 (dict_get_None_keys k' a) Hn). symmetry.
  apply dict_get_None_keys. by rewrite <- Hk.
Qed.

Lemma dict_get_size key d child :
  dict_get key d = Some child → (json_size child < json_size (VDict d))%nat.
Proof.
  change (json_size (VDict d))
    with (S (list_sum (map (fun '(_, y) => S (json_size y)) d))).
  induction d as [|[k y] d IH]; simpl; [done|].
  destruct (String.eqb k key); [intros [= ->]; lia|]. intros H%IH. lia.
Qed.

Lemma merge_entry_none v : Config.merge_entry None v = v.
Proof. by destruct v. Qed.

Lemma merge_configs_idem n : ∀ default user,
  (json_size (VDict default) ≤ n)%nat →
  well_formed (VDict default) → well_formed (VDict user) →
  Config._merge_configs default (Config._merge_configs default user)
  = Config._merge_configs default user.
Proof.
  induction n as [|n IH]; intros d u Hsize Hd Hu.
  { change (json_size (VDict d))
      with (S (list_sum (map (fun '(_, y) => S (json_size y)) d))) in Hsize. lia. }
  pose proof (proj1 (well_formed_dict d) Hd) as [Hud _].
  pose proof (proj1 (well_formed_dict u) Hu) as [Huu _].
  assert (Hum : unique_keys (Config._merge_configs d u))
    by by apply merge_configs_unique.
  assert (Hself : ∀ z, (json_size z ≤ n)%nat → well_formed z →
                       Config.merge_entry (Some z) z = z).
  { intros z Hz Hwz. destruct z as [| | | | | |dz]; try done.
    rewrite merge_entry_dicts. f_equal.
    apply (IH dz [] Hz Hwz). split; [apply NoDup_nil_2|done]. }
  apply dict_ext.
  - rewrite (merge_configs_keys d (Config._merge_configs d u)) by done.
    rewrite (merge_configs_keys d u) by done.
    rewrite filter_app, (filter_none _ (keys d)) by (intros x Hx Hn; contradiction).
    simpl. f_equal. apply list_filter_filter_l. done.
  - by apply merge_configs_unique.
  - intros k. rewrite (merge_configs_lookup d (Config._merge_configs d u)) by done.
    rewrite (merge_configs_lookup d u) by done.
    destruct (dict_get k u) as [x|] eqn:Hx.
    + f_equal. destruct (dict_get k d) as [z|] eqn:Hz.
      * destruct z as [| | | | | |dz]; try (by destruct x).
        destruct x as [| | | | | |ux]; try done.
        rewrite !merge_entry_dicts. f_equal. apply IH.
        -- pose proof (dict_get_size _ _ _ Hz). lia.
        -- by apply (well_formed_get d k).
        -- by apply (well_formed_get u k).
      * by rewrite !merge_entry_none.
    + destruct (dict_get k d) as [z|] eqn:Hz; [|done]. f_equal. apply Hself.
      * pose proof (dict_get_size _ _ _ Hz). lia.
      * by apply (well_formed_get d k).
Qed.

(** X2: merging is idempotent: a merged configuration merged with the
    defaults again is itself, and so are the defaults. *)
Theorem merge_configs_idempotent (default user : dict)
    (Hdefault : well_formed (VDict default)) (Huser : well_formed (VDict user)) :
  Config._merge_configs default (Config._merge_configs default user)
  = Config._merge_configs default user ∧
  Config._merge_configs default default = default.
Proof.
  split; [by eapply merge_configs_idem|].
  apply (merge_configs_idem _ default [] (le_n _) Hdefault).
  split; [apply NoDup_nil_2|done].
Qed.

(** X3: a value the user configuration holds at a path, when it is not a
    mapping, is what [get] returns from the merged configuration,
    whatever the defaults hold there. *)
Theorem merge_user_value_wins (default user : dict) (file key_path : string)
    (x fallback : value)
    (Huser : well_formed (VDict user))
    (Hpath : resolves (VDict user) (split "." key_path) x)
    (Hleaf : is_dict x = false) :
  Config.get (Config.Make file (VDict (Config._merge_configs default user)))
    key_path fallback = Ok x.
Proof.
  unfold Config.get; simpl.
  rewrite (get_loop_resolves _ _ x); [done|].
  apply resolves_merge; [done|apply split_nonempty|done|done].
Qed.

Lemma untouched_merge keys : ∀ default user x,
  well_formed (VDict user) →
  resolves (VDict default) keys x →
  untouched (VDict user) keys = true →
  resolves (VDict (Config._merge_configs default user)) keys x.
Proof.
  induction keys as [|key rest IH]; intros default user x Hwf Hres Hun; [done|].
  inversion Hres as [|d key' child rest' x' Hget Hrest]; subst.
  pose proof (proj1 (well_formed_dict user) Hwf) as [Hu _].
  simpl in Hun.
  destruct (dict_get key user) as [uc|] eqn:Hget'.
  - destruct rest as [|key2 rest]; [done|].
    destruct uc as [| | | | | |cu]; try done.
    inversion Hrest as [|dd ? ? ? ? Hget2 Hrest2]; subst.
    econstructor.
    { rewrite merge_configs_lookup, Hget', Hget by done. by rewrite merge_entry_dicts. }
    apply IH; [|done|done]. by apply (well_formed_get user key).
  - econstructor; [|done]. by rewrite merge_configs_lookup, Hget' by done.
Qed.

(** X4: a value of the defaults at a path the user configuration leaves out
    (it holds mappings along the path up to a segment it lacks) is what
    [get] returns from the merged configuration. *)
Theorem merge_defaults_fill_in (default user : dict) (file key_path : string)
    (x fallback : value)
    (Huser : well_formed (VDict user))
    (Hpath : resolves (VDict default) (split "." key_path) x)
    (Hout : untouched (VDict user) (split "." key_path) = true) :
  Config.get (Config.Make file (VDict (Config._merge_configs default user)))
    key_path fallback = Ok x.
Proof.
  unfold Config.get; simpl.
  rewrite (get_loop_resolves _ _ x); [done|]. by apply untouched_merge.
Qed.

(** ** config.py: [set] and the other paths *)

(** What [get] makes of the walk: the value, or nothing. *)
Lemma get_from_loop self key_path fallback :
  Config.get self key_path fallback
  = Ok (match Config.get_loop (Config.config self) (split "." key_path) with
        | Ok v => v
        | Raise _ => fallback
        end).
Proof.
  unfold Config.get.
  destruct (resolves_or_stuck (Config.config self) (split "." key_path)) as [[x Hx]|Hs].
  - by rewrite (get_loop_resolves _ _ _ Hx).
  - destruct (get_loop_stuck _ _ Hs) as [[k ->]| ->]; done.
Qed.

Lemma get_loop_empty_dict key rest :
  Config.get_loop (VDict []) (key :: rest) = Raise (KeyError key).
Proof. reflexivity. Qed.

Lemma removelast_cons {A} (x y : A) l : removelast (x :: y :: l) = x :: removelast (y :: l).
Proof. reflexivity. Qed.

Lemma last_cons {A} (x y : A) l d : List.last (x :: y :: l) d = List.last (y :: l) d.
Proof. reflexivity. Qed.

Lemma set_walk_frame keys1 : ∀ keys2 config config' v,
  diverge keys1 keys2 = true →
  Config.set_walk config (removelast keys1) (List.last keys1 "") v = Ok config' →
  match Config.get_loop config' keys2 with Ok x => Some x | Raise _ => None end
  = match Config.get_loop config keys2 with Ok x => Some x | Raise _ => None end.
Proof.
  induction keys1 as [|k1 rest1 IH]; intros keys2 config config' v Hdiv Hset; [done|].
  destruct keys2 as [|k2 rest2]; [done|]. simpl in Hdiv.
  destruct rest1 as [|k1' rest1].
  - (* the last key of the path that is set *)
    destruct (String.eqb_spec k1 k2) as [->|Hne]; [by destruct rest2|].
    destruct config as [| | | | | |d]; try done. simpl in Hset.
    injection Hset as <-. simpl. by rewrite dict_get_set_ne.
  - rewrite removelast_cons, last_cons in Hset.
    destruct config as [| | | | s|l|d]; try done.
    + simpl in Hset. by destruct (str_contains k1 s).
    + simpl in Hset. by destruct (existsb _ l).
    + cbn [Config.set_walk contains mbind result_bind] in Hset.
      unfold dict_has in Hset.
      destruct (dict_get k1 d) as [child|] eqn:Hget; cbn in Hset.
      * rewrite Hget in Hset; cbn in Hset.
        destruct (Config.set_walk child _ _ v) as [child'|e] eqn:Hwalk; [|done].
        cbn in Hset. injection Hset as <-.
        destruct (String.eqb_spec k1 k2) as [->|Hne].
        -- simpl. rewrite dict_get_set_eq, Hget. simpl.
           by apply (IH rest2 child child' v).
        -- simpl. by rewrite dict_get_set_ne.
      * rewrite dict_get_set_eq in Hset; cbn in Hset.
        destruct (Config.set_walk (VDict []) _ _ v) as [child'|e] eqn:Hwalk; [|done].
        cbn in Hset. injection Hset as <-.
        destruct (String.eqb_spec k1 k2) as [->|Hne].
        -- simpl. rewrite dict_get_set_eq, Hget. simpl.
           rewrite (IH rest2 (VDict []) child' v Hdiv Hwalk).
           destruct rest2; [done|]. by rewrite get_loop_empty_dict.
        -- simpl. by rewrite !dict_get_set_ne.
Qed.

(** X5: [set(path, value)] leaves [get] of every path that parts ways with
    [path] as it was: the value stored there, or the default. *)
Theorem set_keeps_other_paths {J : JsonLib} (self self' : Config.t)
    (key_path other : string) (v fallback : value) (fs fs' : filesystem)
    (Hset : Config.set self key_path v fs = Ok (self', fs'))
    (Hother : diverge (split "." key_path) (split "." other) = true) :
  Config.get self' other fallback = Config.get self other fallback.
Proof.
  unfold Config.set, Config.set_value in Hset.
  destruct (Config.set_walk _ _ _ _) as [config'|e] eqn:Hwalk; [|done].
  cbn in Hset. destruct (open_write _ _ _) as [fs1|e]; cbn in Hset;
    injection Hset as <- <-.
  all: rewrite !get_from_loop; simpl.
  all: pose proof (set_walk_frame _ _ _ _ _ Hother Hwalk) as Hframe.
  all: destruct (Config.get_loop config' _), (Config.get_loop (Config.config self) _);
    congruence.
Qed.

(** X6: [set] raises [TypeError] exactly when its walk meets something that
    is not a mapping, whatever the file system; otherwise it returns. *)
Theorem set_raises_on_non_mapping {J : JsonLib} (self : Config.t) (key_path : string)
    (v : value) (fs : filesystem) :
  (settable (Config.config self) (removelast (split "." key_path)) = false →
   Config.set self key_path v fs = Raise TypeError) ∧
  (settable (Config.config self) (removelast (split "." key_path)) = true →
   ∃ self' fs', Config.set self key_path v fs = Ok (self', fs')).
Proof.
  assert (Hno : settable (Config.config self) (removelast (split "." key_path)) = false →
                Config.set self key_path v fs = Raise TypeError).
  { intros Hs. unfold Config.set, Config.set_value.
    by rewrite set_walk_not_settable. }
  split; [done|].
  intros Hs. unfold Config.set, Config.set_value.
  destruct (set_walk_settable _ _ (List.last (split "." key_path) "") v Hs)
    as (d' & -> & _). simpl. rewrite save_config_self. simpl. eauto.
Qed.

(** ** storage.py: outcomes of saving and loading *)




(** X11: [load_posts] never raises and returns the empty list when the file
    cannot be read, is not JSON, or holds a number, [true], [false] or
    [null]; a JSON text or object is returned as it is, so the result is
    not always a list. *)
Theorem load_posts_outcome {J : JsonLib} (self : DataStorage.t) (filename : string)
    (fs : filesystem) :
  let path := path_join (DataStorage.data_dir self) filename in
  let loaded := DataStorage.load_posts self filename fs in
  (∀ e, open_read fs path = Raise e → loaded = VList []) ∧
  (∀ text e, open_read fs path = Ok text → json_load text = Raise e →
     loaded = VList []) ∧
  (∀ text v, open_read fs path = Ok text → json_load text = Ok v →
     loaded = match v with
              | VStr _ | VList _ | VDict _ => v
              | _ => VList []
              end) ∧
  match loaded with
  | VStr _ | VList _ | VDict _ => True
  | _ => False
  end.
Proof.
  intros path loaded. subst loaded. unfold DataStorage.load_posts. fold path.
  split; [by intros e ->|].
  split; [intros text e Hr Hj; rewrite Hr; simpl; by rewrite Hj|].
  split; [intros text v Hr Hj; rewrite Hr; simpl; rewrite Hj; by destruct v|].
  destruct (open_read fs path) as [text|e]; [|done]. simpl.
  destruct (json_load text) as [v|e]; [|done]. by destruct v.
Qed.

(** ** summarizer.py: errors, bounds and batches *)

Section SummarizerEdges.
Context {P : PythonLib} {W : Type} {S : Services W}.

(** X16: [summarize_post] returns for every post that has an [id].  For a
    post without one, a failure to build the prompt or a failure of the
    model is not turned into an error summary: the handler's report looks
    up the [id] and raises [KeyError]. *)
Theorem summarize_post_needs_id (post : dict) (include_comments : bool)
    (comments : option (list value)) (w : W) :
  (dict_has "id" post = true →
   ∃ copy w', PostSummarizer.summarize_post post include_comments comments w
              = (Ok copy, w')) ∧
  (dict_has "id" post = false →
   ∀ e, PostSummarizer.content_to_summarize post include_comments comments = Raise e →
        PostSummarizer.summarize_post post include_comments comments w
        = (Raise (KeyError "id"), w)) ∧
  (dict_has "id" post = false →
   ∀ content e w1,
     PostSummarizer.content_to_summarize post include_comments comments = Ok content →
     generate_content (PostSummarizer.full_prompt content) w = (Raise e, w1) →
     PostSummarizer.summarize_post post include_comments comments w
     = (Raise (KeyError "id"), w1)).
Proof.
  unfold dict_has, PostSummarizer.summarize_post, try_except, mbind, io_bind, lift.
  split; [|split].
  - intros Hid. destruct (dict_get "id" post) as [i|] eqn:Hget; [|done].
    destruct (PostSummarizer.content_to_summarize post include_comments comments)
      as [content|e]; simpl.
    + destruct (generate_content (PostSummarizer.full_prompt content) w)
        as [[text|e] w1]; simpl.
      * unfold PostSummarizer._get_current_timestamp.
        destruct (datetime_now w1) as [t w2]. eauto.
      * rewrite Hget; simpl. eauto.
    + rewrite Hget; simpl. eauto.
  - intros Hid e ->. simpl. by destruct (dict_get "id" post).
  - intros Hid content e w1 -> ->. simpl. by destruct (dict_get "id" post).
Qed.

Lemma firstn_again {A} n (l : list A) : firstn n (firstn n l) = firstn n l.
Proof. rewrite firstn_firstn. by rewrite Nat.min_id. Qed.

(** X17: only the first five comments can reach the prompt: the outcome of
    [summarize_post] is the same when the others are left out. *)
Theorem summarize_post_five_comments (post : dict) (include_comments : bool)
    (comments : list value) (w : W) :
  PostSummarizer.summarize_post post include_comments (Some comments) w
  = PostSummarizer.summarize_post post include_comments (Some (firstn 5 comments)) w.
Proof.
  unfold PostSummarizer.summarize_post.
  assert (Hcontent :
    PostSummarizer.content_to_summarize post include_comments (Some comments)
    = PostSummarizer.content_to_summarize post include_comments
        (Some (firstn 5 comments))).
  { unfold PostSummarizer.content_to_summarize.
    destruct comments as [|c cs]; [done|].
    cbn [firstn]. by rewrite firstn_again. }
  by rewrite Hcontent.
Qed.

(** X18: only the first ten posts can reach a digest. *)
Theorem create_digest_first_ten (posts : list dict) (w : W) :
  PostSummarizer.create_digest posts w
  = PostSummarizer.create_digest (firstn 10 posts) w.
Proof.
  unfold PostSummarizer.create_digest.
  destruct posts as [|p ps]; [done|].
  cbn [firstn]. by rewrite firstn_again.
Qed.

(** X19: [create_digest] never raises: when a listed post lacks a field, or
    the model fails, the text returned is the error report, and in the
    first case the model is not called. *)
Theorem create_digest_reports_errors (posts : list dict) (w : W) :
  (∃ text w', PostSummarizer.create_digest posts w = (Ok text, w')) ∧
  (posts ≠ [] →
   ∀ e, PostSummarizer.digest_entries 1 (firstn 10 posts) = Raise e →
        PostSummarizer.create_digest posts w
        = (Ok ("Error creating digest: " ++ exn_str e)%string, w)) ∧
  (posts ≠ [] →
   ∀ entries e w1,
     PostSummarizer.digest_entries 1 (firstn 10 posts) = Ok entries →
     generate_content
       (PostSummarizer.full_digest_prompt
          ("Reddit Posts Summary:" ++ nl ++ nl ++ entries)%string) w = (Raise e, w1) →
     PostSummarizer.create_digest posts w
     = (Ok ("Error creating digest: " ++ exn_str e)%string, w1)).
Proof.
  unfold PostSummarizer.create_digest, try_except.
  destruct posts as [|p ps].
  { split; [by eexists _, _|]. split; done. }
  unfold mbind, io_bind, lift, mret, io_ret.
  split; [|split].
  - destruct (PostSummarizer.digest_entries 1 (firstn 10 (p :: ps))) as [entries|e];
      [|by eexists _, _].
    destruct (generate_content _ w) as [[text|e] w1]; [|by eexists _, _].
    unfold PostSummarizer._get_current_timestamp.
    destruct (datetime_now w1) as [t w2]. by eexists _, _.
  - by intros _ e ->.
  - by intros _ entries e w1 -> ->.
Qed.

Lemma summarize_loop_app pre : ∀ others include_comments acc w,
  forallb post_record pre = true →
  PostSummarizer.summarize_loop (pre ++ others) include_comments acc w =
    match summarize_each pre w with
    | (Ok out, w') =>
        PostSummarizer.summarize_loop others include_comments (acc ++ out) w'
    | (Raise e, w') => (Raise e, w')
    end.
Proof.
  induction pre as [|post rest IH]; intros others include_comments acc w Hall.
  - simpl. by rewrite app_nil_r.
  - simpl in Hall. apply andb_prop in Hall as [Hpost Hall].
    destruct (title_preview post Hpost) as [shown Hshown].
    rewrite <- app_comm_cons, summarize_loop_cons, summarize_each_cons, Hshown.
    rewrite (summarize_post_without_comments post include_comments)
      by apply batch_comments_empty.
    destruct (PostSummarizer.summarize_post post false None w) as [[copy|e] w1]; [|done].
    rewrite IH by done.
    destruct (summarize_each rest w1) as [[out|e] w2]; [|done].
    by rewrite <- app_assoc.
Qed.

(** X20: a post without a [title] aborts the batch with [KeyError]: the
    posts before it have been summarized, each with its call of the
    model, and their summaries are not returned. *)
Theorem summarize_multiple_posts_aborts (before : list dict) (bad : dict)
    (after : list dict) (include_comments : bool) (w : W)
    (Hbefore : forallb post_record before = true)
    (Hbad : dict_get "title" bad = None) :
  ∃ out w',
    summarize_each before w = (Ok out, w') ∧
    length out = length before ∧
    PostSummarizer.summarize_multiple_posts (before ++ bad :: after) include_comments w
    = (Raise (KeyError "title"), w').
Proof.
  destruct (summarize_each_copies before w Hbefore) as (out & w' & Heach & Hlen & _).
  exists out, w'. split; [done|]. split; [done|].
  unfold PostSummarizer.summarize_multiple_posts.
  rewrite summarize_loop_app, Heach by done.
  rewrite summarize_loop_cons. simpl. by rewrite Hbad.
Qed.

End SummarizerEdges.

(** ** config.py: validation *)

Lemma truthy_getenv env name :
  truthy (Settings.getenv env name VNone) = false ↔ unset env name.
Proof.
  unfold Settings.getenv, unset. destruct (env !! name) as [text|]; simpl.
  - destruct (String.eqb_spec text "") as [->|Hne]; simpl.
    + split; [by right|done].
    + split; [done|]. intros [|[= ?]]; done.
  - split; [by left|done].
Qed.

Lemma not_positive_int_false x :
  Settings.not_positive_int x = false ↔ (∃ n, x = VInt n ∧ (0 < n)%Z) ∨ x = VBool true.
Proof.
  destruct x as [|[]|n| | | |]; simpl; try (split; [done|intros [(n' & [=] & _)|[=]]]).
  - split; [by right|done].
  - split.
    + intros Hn%Z.leb_gt. left. eauto.
    + intros [(n' & [= <-] & Hn)|[=]]. by apply Z.leb_gt.
Qed.

Lemma validate_config_report self env :
  Settings.validate_config self env
  = Ok (validation_report
          (truthy (Settings.getenv env "REDDIT_CLIENT_ID" VNone))
          (truthy (Settings.getenv env "REDDIT_CLIENT_SECRET" VNone))
          (truthy (Settings.getenv env "GEMINI_API_KEY" VNone))
          (Settings.not_positive_int
             match Config.get_loop (Config.config self)
                     (split "." "reddit.default_limit") with
             | Ok v => v
             | Raise _ => VNone
             end)).
Proof.
  unfold Settings.validate_config, Settings.get_reddit_config,
    Settings.get_gemini_config.
  rewrite !get_from_loop. reflexivity.
Qed.

(** X9: [validate_config] never raises.  It reports a missing credential for
    each of the three environment variables that is unset or empty, and a
    bad limit unless [reddit.default_limit] is a positive integer or
    [True]; it reports nothing else, and nothing at all exactly when the
    three variables are set and the limit passes. *)
Theorem validate_config_reports (self : Config.t) (env : Settings.environ) :
  ∃ errors limit,
    Settings.validate_config self env = Ok errors ∧
    Config.get self "reddit.default_limit" VNone = Ok limit ∧
    (dict_has "reddit_client_id" errors = true ↔ unset env "REDDIT_CLIENT_ID") ∧
    (dict_has "reddit_client_secret" errors = true ↔ unset env "REDDIT_CLIENT_SECRET") ∧
    (dict_has "gemini_api_key" errors = true ↔ unset env "GEMINI_API_KEY") ∧
    (dict_has "reddit_limit" errors = false ↔
       (∃ n, limit = VInt n ∧ (0 < n)%Z) ∨ limit = VBool true) ∧
    (∀ key, dict_has key errors = true →
       key ∈ ["reddit_client_id"; "reddit_client_secret"; "gemini_api_key";
              "reddit_limit"]) ∧
    (errors = [] ↔
       ¬ unset env "REDDIT_CLIENT_ID" ∧ ¬ unset env "REDDIT_CLIENT_SECRET" ∧
       ¬ unset env "GEMINI_API_KEY" ∧
       ((∃ n, limit = VInt n ∧ (0 < n)%Z) ∨ limit = VBool true)).
Proof.
  eexists _, _. split; [apply validate_config_report|].
  split; [apply get_from_loop|].
  rewrite <- !truthy_getenv, <- not_positive_int_false.
  destruct (truthy (Settings.getenv env "REDDIT_CLIENT_ID" VNone)),
    (truthy (Settings.getenv env "REDDIT_CLIENT_SECRET" VNone)),
    (truthy (Settings.getenv env "GEMINI_API_KEY" VNone)),
    (Settings.not_positive_int _).
  all: repeat split; try done; try (intros; tauto).
  all: intros key Hkey%dict_has_keys; cbn in Hkey.
  all: repeat (apply elem_of_cons in Hkey as [->|Hkey];
               [repeat (first [apply list_elem_of_here | apply list_elem_of_further])|]).
  all: by apply elem_of_nil in Hkey.
Qed.

(** ** storage.py: digests *)

Section Digests.
Context {P : PythonLib} {J : JsonLib} {W : Type} {S : Services W}.





(** The value-level digest agrees with [create_digest] on a list of
    dicts. *)
Lemma digest_entries_of_dicts posts : ∀ i,
  Commands.digest_entries_of i (map VDict posts) = PostSummarizer.digest_entries i posts.
Proof.
  induction posts as [|post rest IH]; intros i; [done|].
  simpl. by rewrite IH.
Qed.

Lemma create_digest_of_dicts posts w :
  Commands.create_digest_of (VList (map VDict posts)) w
  = PostSummarizer.create_digest posts w.
Proof.
  unfold Commands.create_digest_of, PostSummarizer.create_digest.
  destruct posts as [|post rest]; [done|].
  change (negb (truthy (VList (map VDict (post :: rest))))) with false.
  cbv iota. by rewrite firstn_map, digest_entries_of_dicts.
Qed.


End Digests.

(** ** storage.py: the files of the data directory *)

Lemma strongly_sorted_descending (names : list string) :
  Sorted.StronglySorted (flip String.le) names → descending names.
Proof.
  induction 1 as [|x l Hl IH Hx]; intros i j a b Hij Hi Hj.
  - by rewrite lookup_nil in Hi.
  - destruct j as [|j]; [lia|]. simpl in Hj. destruct i as [|i]; simpl in Hi.
    + injection Hi as <-. rewrite Forall_forall in Hx.
      apply Hx. by eapply list_elem_of_lookup_2.
    + apply (IH i j); [lia|done|done].
Qed.

Lemma sorted_reverse_descending names : descending (sorted_reverse names).
Proof.
  apply strongly_sorted_descending. unfold sorted_reverse.
  apply sorting.StronglySorted_merge_sort.
  - intros a b c Hab Hbc. unfold flip in *. by etrans.
  - intros a b. unfold flip. destruct (total String.le a b); auto.
Qed.

Lemma sorted_reverse_permutation names : sorted_reverse names ≡ₚ names.
Proof. apply sorting.merge_sort_Permutation. Qed.

Section SavedFiles.
Context {O : FileOps}.

(** X13: [list_saved_files] returns two empty lists when the data directory
    does not exist and passes on the error of a failed listing.
    Otherwise its two lists hold the names of the directory that end in
    [.json] and in [.md], each as often as the listing has it and in
    descending order, whatever the order of the listing. *)
Theorem list_saved_files_sorted (self : DataStorage.t) (fs : filesystem) :
  (path_exists fs (DataStorage.data_dir self) = false →
   DataFiles.list_saved_files self fs = Ok [ ("json", VList []); ("md", VList []) ]) ∧
  (path_exists fs (DataStorage.data_dir self) = true →
   ∀ e, os_listdir fs (DataStorage.data_dir self) = Raise e →
        DataFiles.list_saved_files self fs = Raise e) ∧
  (path_exists fs (DataStorage.data_dir self) = true →
   ∀ listing, os_listdir fs (DataStorage.data_dir self) = Ok listing →
     ∃ json_files md_files,
       DataFiles.list_saved_files self fs
       = Ok [ ("json", VList (map VStr json_files));
              ("md", VList (map VStr md_files)) ] ∧
       json_files ≡ₚ List.filter (fun f => endswith f ".json") listing ∧
       md_files ≡ₚ List.filter (fun f => endswith f ".md") listing ∧
       descending json_files ∧ descending md_files).
Proof.
  unfold DataFiles.list_saved_files. split; [by intros ->|]. split.
  - by intros -> e ->.
  - intros -> listing ->. simpl. eexists _, _. split; [done|].
    split; [apply sorted_reverse_permutation|].
    split; [apply sorted_reverse_permutation|].
    split; apply sorted_reverse_descending.
Qed.

(** X15: [delete_file] never raises.  It returns [False] and changes nothing
    when the path does not exist or the removal fails; when it returns
    [True] the path existed and is gone, the other files are as they
    were, and [load_posts] on the name gives the empty list. *)
Theorem delete_file_outcome {J : JsonLib} (self : DataStorage.t) (filename : string)
    (fs : filesystem) :
  let path := path_join (DataStorage.data_dir self) filename in
  (path_exists fs path = false → DataFiles.delete_file self filename fs = (false, fs)) ∧
  (∀ fs', DataFiles.delete_file self filename fs = (false, fs') → fs' = fs) ∧
  (∀ fs', DataFiles.delete_file self filename fs = (true, fs') →
     path_exists fs path = true ∧ path_exists fs' path = false ∧
     (∀ other, other ≠ path → files fs' !! other = files fs !! other) ∧
     DataStorage.load_posts self filename fs' = VList []).
Proof.
  intros path. unfold DataFiles.delete_file. fold path.
  split; [by intros ->|]. split.
  - intros fs'. destruct (path_exists fs path); [|by intros [= <-]].
    destruct (os_remove fs path); by intros [= <-].
  - intros fs'. destruct (path_exists fs path) eqn:Hex; [|done].
    destruct (os_remove fs path) as [fs1|e] eqn:Hrm; [|done].
    intros [= <-]. apply os_remove_ok in Hrm as (Hdir & _ & ->).
    split; [done|]. split; [|split].
    + unfold path_exists. simpl. apply bool_decide_eq_false.
      rewrite lookup_delete_eq. intros [[? [=]]|?]; done.
    + intros other Hne. simpl. by rewrite lookup_delete_ne.
    + unfold DataStorage.load_posts, open_read. fold path. simpl.
      rewrite decide_False by done. by rewrite lookup_delete_eq.
Qed.

End SavedFiles.

(** *** Time-stamped names *)

Lemma ascii_compare_digit a b :
  Ascii.compare (digit_char a) (digit_char b) = (a mod 10 ?= b mod 10)%Z.
Proof.
  unfold Ascii.compare, digit_char.
  pose proof (Z.mod_pos_bound a 10 ltac:(lia)) as Ha.
  pose proof (Z.mod_pos_bound b 10 ltac:(lia)) as Hb.
  rewrite !N_ascii_embedding by lia.
  rewrite Z2N.inj_compare by lia.
  apply Z.add_compare_mono_l.
Qed.

Lemma string_compare_refl s : String.compare s s = Eq.
Proof.
  induction s as [|c s IH]; [done|]. simpl.
  unfold Ascii.compare. by rewrite N.compare_refl.
Qed.

Lemma string_compare_prefix p s1 s2 :
  String.compare (p ++ s1)%string (p ++ s2)%string = String.compare s1 s2.
Proof.
  induction p as [|c p IH]; [done|].
  rewrite !string_app_cons. simpl. unfold Ascii.compare. by rewrite N.compare_refl.
Qed.

Lemma compare_pad2 a b s1 s2 :
  (0 ≤ a < 100)%Z → (0 ≤ b < 100)%Z →
  String.compare (pad2 a ++ s1)%string (pad2 b ++ s2)%string
  = match (a ?= b)%Z with
    | Eq => String.compare s1 s2
    | c => c
    end.
Proof.
  intros Ha Hb. unfold pad2, digit.
  rewrite !string_app_cons, !string_app_nil_l. simpl.
  rewrite !ascii_compare_digit.
  destruct (Z.compare_spec ((a / 10) mod 10) ((b / 10) mod 10)),
    (Z.compare_spec (a mod 10) (b mod 10)), (Z.compare_spec a b);
    try done; exfalso; Z.div_mod_to_equations; lia.
Qed.

Lemma digit_char_mod a b : (a mod 10 = b mod 10)%Z → digit_char a = digit_char b.
Proof. unfold digit_char. by intros ->. Qed.

Lemma pad4_pad2 n : (0 ≤ n < 10000)%Z → pad4 n = (pad2 (n / 100) ++ pad2 (n mod 100))%string.
Proof.
  intros Hn. unfold pad4, pad2, digit.
  rewrite !string_app_cons, !string_app_nil_l.
  rewrite (digit_char_mod (n / 1000) (n / 100 / 10)),
    (digit_char_mod (n / 10) (n mod 100 / 10)),
    (digit_char_mod n (n mod 100)); [done|..];
    Z.div_mod_to_equations; lia.
Qed.

Lemma compare_pad4 a b s1 s2 :
  (0 ≤ a < 10000)%Z → (0 ≤ b < 10000)%Z →
  String.compare (pad4 a ++ s1)%string (pad4 b ++ s2)%string
  = match (a ?= b)%Z with
    | Eq => String.compare s1 s2
    | c => c
    end.
Proof.
  intros Ha Hb. rewrite !pad4_pad2, !string_app_assoc by done.
  rewrite !compare_pad2 by (Z.div_mod_to_equations; lia).
  destruct (Z.compare_spec (a / 100) (b / 100)),
    (Z.compare_spec (a mod 100) (b mod 100)), (Z.compare_spec a b);
    try done; exfalso; Z.div_mod_to_equations; lia.
Qed.

Lemma compare_strftime_compact t1 t2 s1 s2 :
  valid_datetime t1 → valid_datetime t2 → earlier t1 t2 →
  String.compare (strftime_compact t1 ++ s1)%string (strftime_compact t2 ++ s2)%string
  = Lt.
Proof.
  unfold valid_datetime, earlier, datetime_key, strftime_compact.
  intros H1 H2 Hlt. rewrite !string_app_assoc.
  rewrite compare_pad4 by lia. rewrite !compare_pad2 by lia.
  rewrite !string_app_cons, !string_app_nil_l.
  cbn [String.compare]. change (Ascii.compare "_" "_") with Eq. cbv iota.
  rewrite !compare_pad2 by lia.
  destruct (Z.compare_spec (year t1) (year t2)); [|done|lia].
  destruct (Z.compare_spec (month t1) (month t2)); [|done|lia].
  destruct (Z.compare_spec (day t1) (day t2)); [|done|lia].
  destruct (Z.compare_spec (hour t1) (hour t2)); [|done|lia].
  destruct (Z.compare_spec (minute t1) (minute t2)); [|done|lia].
  destruct (Z.compare_spec (second t1) (second t2)); [|done|lia].
  lia.
Qed.

Lemma default_posts_name_json t :
  endswith (DataStorage.default_posts_name t) ".json" = true.
Proof. reflexivity. Qed.

Lemma default_posts_name_order t1 t2 :
  valid_datetime t1 → valid_datetime t2 → earlier t1 t2 →
  String.compare (DataStorage.default_posts_name t1) (DataStorage.default_posts_name t2)
  = Lt.
Proof.
  intros H1 H2 Hlt. unfold DataStorage.default_posts_name.
  rewrite string_compare_prefix. by apply compare_strftime_compact.
Qed.

(** X14: files saved under the default name are listed newest first: of two
    such files in the data directory, the one named after the later
    reading of the clock comes first in the list of [.json] files. *)
Theorem list_saved_files_newest_first {O : FileOps} (self : DataStorage.t)
    (fs : filesystem) (listing : list string) (t1 t2 : datetime)
    (Hexists : path_exists fs (DataStorage.data_dir self) = true)
    (Hlisting : os_listdir fs (DataStorage.data_dir self) = Ok listing)
    (Ht1 : valid_datetime t1) (Ht2 : valid_datetime t2) (Hearlier : earlier t1 t2)
    (Hin1 : DataStorage.default_posts_name t1 ∈ listing)
    (Hin2 : DataStorage.default_posts_name t2 ∈ listing) :
  ∃ json_files md_files i j,
    DataFiles.list_saved_files self fs
    = Ok [ ("json", VList (map VStr json_files)); ("md", VList (map VStr md_files)) ] ∧
    json_files !! i = Some (DataStorage.default_posts_name t2) ∧
    json_files !! j = Some (DataStorage.default_posts_name t1) ∧
    (i < j)%nat.
Proof.
  unfold DataFiles.list_saved_files. rewrite Hexists, Hlisting. simpl.
  set (json_files := sorted_reverse (List.filter (fun f => endswith f ".json") listing)).
  assert (Hmem : ∀ t, DataStorage.default_posts_name t ∈ listing →
                      ∃ i, json_files !! i = Some (DataStorage.default_posts_name t)).
  { intros t Hin. apply list_elem_of_lookup_1. unfold json_files.
    rewrite sorted_reverse_permutation. apply list_elem_of_In, filter_In.
    split; [by apply list_elem_of_In|apply default_posts_name_json]. }
  destruct (Hmem t1 Hin1) as [j Hj]. destruct (Hmem t2 Hin2) as [i Hi].
  eexists json_files, _, i, j. split; [done|]. split; [done|]. split; [done|].
  pose proof (default_posts_name_order t1 t2 Ht1 Ht2 Hearlier) as Hcmp.
  destruct (lt_eq_lt_dec i j) as [[Hlt|Heq]|Hgt]; [done| |].
  - subst j.
    assert (Heq : DataStorage.default_posts_name t2 = DataStorage.default_posts_name t1)
      by congruence.
    rewrite Heq, string_compare_refl in Hcmp. done.
  - pose proof (sorted_reverse_descending _ j i _ _ Hgt Hj Hi) as Hle.
    unfold String.le, String.leb in Hle.
    rewrite String.compare_antisym, Hcmp in Hle. done.
Qed.

(** ** reddit_client.py: post records *)


Lemma post_data_unique_keys post subreddit :
  unique_keys (RedditPosts.post_data post subreddit).
Proof. unfold unique_keys. simpl. apply (bool_decide_unpack _). by vm_compute. Qed.

Section Listings.
Context {L : RedditPosts.Listings}.




End Listings.

(** ** main.py: the [fetch] command *)

Section Fetch.
Context {P : PythonLib} {W : Type} {S : Services W} {L : RedditPosts.Listings}.









(** X23: when every listing of the client fails, [fetch] returns at once
    for every sort method: the model is not called, the clock is not read
    and nothing is written. *)
Theorem fetch_nothing_found (storage : DataStorage.t) (subreddit : string) (limit : Z)
    (sort : string) (summarize save comments : bool) (fs : filesystem) (w : W)
    (Hhot : is_ok (RedditPosts.hot subreddit limit) = false)
    (Hnew : is_ok (RedditPosts.new subreddit limit) = false)
    (Htop : is_ok (RedditPosts.top subreddit limit) = false)
    (Hrising : is_ok (RedditPosts.rising subreddit limit) = false) :
  RedditPosts.get_posts_from_subreddit subreddit limit sort = [] ∧
  Commands.fetch (J := Json.python_json P) storage subreddit limit sort
    summarize save comments fs w = (Ok ([], fs), w).
Proof.
  assert (Hnone : RedditPosts.get_posts_from_subreddit subreddit limit sort = []).
  { unfold RedditPosts.get_posts_from_subreddit.
    destruct (String.eqb sort "hot");
      [by destruct (RedditPosts.hot subreddit limit)|].
    destruct (String.eqb sort "new");
      [by destruct (RedditPosts.new subreddit limit)|].
    destruct (String.eqb sort "top");
      [by destruct (RedditPosts.top subreddit limit)|].
    destruct (String.eqb sort "rising");
      [by destruct (RedditPosts.rising subreddit limit)|].
    by destruct (RedditPosts.hot subreddit limit). }
  split; [done|]. unfold Commands.fetch. by rewrite Hnone.
Qed.


End Fetch.

(** ** main.py: [set-config] *)

Lemma set_then_get {J : JsonLib} self key_path v fs self' fs' fallback :
  Config.set self key_path v fs = Ok (self', fs') →
  Config.get self' key_path fallback = Ok v.
Proof.
  intros Hset. unfold Config.set, Config.set_value in Hset.
  destruct (settable (Config.config self) (removelast (split "." key_path))) eqn:Hs.
  - destruct (set_walk_settable _ _ (List.last (split "." key_path) "") v Hs)
      as (d' & Hwalk & Hres & _).
    rewrite Hwalk in Hset. simpl in Hset. rewrite save_config_self in Hset.
    simpl in Hset. injection Hset as <- _.
    rewrite <- split_init_last in Hres.
    unfold Config.get. simpl. by rewrite (get_loop_resolves _ _ _ Hres).
  - by rewrite set_walk_not_settable in Hset.
Qed.

Lemma lower_char_digit c : is_digit c = true → Main.lower_char c = c.
Proof.
  unfold is_digit, Main.lower_char. intros [H1 H2]%andb_prop.
  apply N.leb_le in H1, H2.
  destruct (N.leb_spec 65 (N_of_ascii c)); [lia|done].
Qed.

Lemma digits_not_boolean raw :
  all_digits raw = true → Main.lower raw ≠ "true" ∧ Main.lower raw ≠ "false".
Proof.
  destruct raw as [|c raw]; [done|]. simpl. intros [Hc _]%andb_prop.
  rewrite lower_char_digit by done.
  split; intros [= -> _]; done.
Qed.

(** X26: after [set-config --key k --value text] has returned, [get(k)] gives
    the converted value: the truth value for [true] or [false] in any
    case, the integer for digits, and the text itself when it is not made
    of digits and dots.  The text is ASCII and short enough for [int],
    which is where [isdigit] and [int] are as modelled. *)
Theorem set_config_then_get {P : PythonLib} {J : JsonLib} (config config' : Config.t)
    (key raw : string) (fs fs' : filesystem) (fallback : value)
    (Hascii : ascii_text raw = true) (Hshort : (String.length raw ≤ 4300)%nat)
    (Hkey : key ≠ "") (Hraw : raw ≠ "")
    (Hset : Main.set_config config (Some key) (Some raw) fs = Ok (config', fs')) :
  ∃ v, Main.coerce raw = Ok v ∧
       Config.get config' key fallback = Ok v ∧
       (Main.lower raw = "true" → v = VBool true) ∧
       (Main.lower raw = "false" → v = VBool false) ∧
       (all_digits raw = true → v = VInt (digits_value 0 raw)) ∧
       (Main.lower raw ≠ "true" → Main.lower raw ≠ "false" →
        all_digits (Main.remove_dots raw) = false → v = VStr raw).
Proof.
  unfold Main.set_config in Hset.
  destruct (String.eqb_spec key "") as [|_]; [done|].
  destruct (String.eqb_spec raw "") as [|_]; [done|]. simpl in Hset.
  destruct (Main.coerce raw) as [v|e] eqn:Hcoerce; [|done]. simpl in Hset.
  exists v. split; [done|]. split; [by eapply set_then_get|].
  unfold Main.coerce, Main.py_int, Main.py_float, Main.isdigit in Hcoerce.
  destruct (String.eqb_spec raw "") as [|_]; [done|]. simpl in Hcoerce.
  split; [|split; [|split]].
  - intros Ht. rewrite Ht in Hcoerce. simpl in Hcoerce. congruence.
  - intros Hf. rewrite Hf in Hcoerce. simpl in Hcoerce. congruence.
  - intros Hd. rewrite Hd in Hcoerce.
    destruct (digits_not_boolean raw Hd) as [Ht Hf].
    destruct (String.eqb_spec (Main.lower raw) "true"); [done|].
    destruct (String.eqb_spec (Main.lower raw) "false"); [done|].
    simpl in Hcoerce. congruence.
  - intros Ht Hf Hd.
    destruct (String.eqb_spec (Main.lower raw) "true"); [done|].
    destruct (String.eqb_spec (Main.lower raw) "false"); [done|].
    simpl in Hcoerce.
    destruct (all_digits raw) eqn:Hraw_digits.
    { exfalso. clear -Hraw_digits Hd. induction raw as [|c raw IH]; [done|].
      simpl in *. apply andb_prop in Hraw_digits as [Hc Hr].
      destruct (Ascii.eqb_spec c "."); [subst c; done|].
      simpl in Hd. rewrite Hc in Hd. auto. }
    rewrite Hd in Hcoerce. rewrite andb_false_r in Hcoerce. simpl in Hcoerce. congruence.
Qed.

(** X27: a limit given with a sign is not converted: [set-config --key
    reddit.default_limit --value -5] stores the text [-5], [get] returns
    that text, and [validate_config] then reports the limit, whatever the
    environment. *)
Theorem signed_limit_is_text {P : PythonLib} {J : JsonLib} (config config' : Config.t)
    (digits : string) (fs fs' : filesystem) (env : Settings.environ)
    (Hset : Main.set_config config (Some "reddit.default_limit")
              (Some (String "-" digits)) fs = Ok (config', fs')) :
  Main.coerce (String "-" digits) = Ok (VStr (String "-" digits)) ∧
  Config.get config' "reddit.default_limit" VNone = Ok (VStr (String "-" digits)) ∧
  ∃ errors,
    Settings.validate_config config' env = Ok errors ∧
    dict_get "reddit_limit" errors = Some (VStr Settings.limit_not_positive).
Proof.
  assert (Hcoerce : Main.coerce (String "-" digits) = Ok (VStr (String "-" digits)))
    by reflexivity.
  assert (Hget : Config.get config' "reddit.default_limit" VNone
                 = Ok (VStr (String "-" digits))).
  { unfold Main.set_config in Hset. cbn [String.eqb orb] in Hset.
    change (String.eqb "reddit.default_limit" "") with false in Hset.
    cbv iota in Hset. rewrite Hcoerce in Hset. by eapply set_then_get. }
  split; [done|]. split; [done|].
  eexists. split; [apply validate_config_report|].
  pose proof Hget as Hloop. rewrite get_from_loop in Hloop.
  assert (Hlimit : match Config.get_loop (Config.config config')
                           (split "." "reddit.default_limit") with
                   | Ok v => v
                   | Raise _ => VNone
                   end = VStr (String "-" digits)) by congruence.
  rewrite Hlimit. unfold validation_report. cbn [Settings.not_positive_int].
  apply dict_get_set_eq.
Qed.

(** ** config.py: [reset_to_defaults] and the shared dictionaries *)

Lemma obj_get_set_eq o key s :
  ConfigObject.obj_get key (ConfigObject.obj_set o key s) = Some s.
Proof.
  induction o as [|[k x] o IH]; simpl; [by rewrite String.eqb_refl|].
  destruct (String.eqb_spec k key) as [->|Hne]; simpl.
  - by rewrite String.eqb_refl.
  - by destruct (String.eqb_spec k key).
Qed.

Lemma obj_get_set_ne o key key' s :
  key ≠ key' →
  ConfigObject.obj_get key' (ConfigObject.obj_set o key s) = ConfigObject.obj_get key' o.
Proof.
  intros Hne. induction o as [|[k x] o IH]; simpl.
  - by destruct (String.eqb_spec key key').
  - destruct (String.eqb_spec k key) as [->|Hk]; simpl.
    + by destruct (String.eqb_spec key key').
    + by rewrite IH.
Qed.

Lemma store_scalar v h : is_dict v = false → ConfigObject.store v h = (ConfigObject.Val v, h).
Proof. by destruct v. Qed.

Section SharedDefaults.
Context {J : JsonLib}.

(** X7: a setting changed by [set] under one of the default sections
    survives [reset_to_defaults].  The configuration of a [Config] built
    without a settings file is a shallow copy of the defaults, [set]
    changes the section's dictionary in place, and that dictionary is the
    one of [default_config]: the defaults themselves hold the new value,
    and so does the copy that [reset_to_defaults] makes. *)
Theorem reset_keeps_changed_defaults (file key_path section leaf : string)
    (v fallback : value) (fs : filesystem)
    (Hfile : path_exists fs file = false)
    (Hsection : section ∈ default_sections)
    (Hpath : split "." key_path = [section; leaf])
    (Hvalue : is_dict v = false) :
  ∃ self h fs1 h2 fs2 self3 h3 fs3,
    ConfigObject.init file fs = Ok (self, h, fs1) ∧
    ConfigObject.set self key_path v h fs1 = Ok (h2, fs2) ∧
    ConfigObject.reset_to_defaults self h2 fs2 = Ok (self3, h3, fs3) ∧
    ConfigObject.default_config self3 = ConfigObject.default_config self ∧
    ConfigObject.config self3 ≠ ConfigObject.config self ∧
    ConfigObject.get self3 h3 key_path fallback = Ok (ConfigObject.Val v) ∧
    ConfigObject.get_loop h3 (ConfigObject.default_config self3) [section; leaf]
    = Ok (ConfigObject.Val v).
Proof.
  unfold default_sections in Hsection.
  repeat (apply elem_of_cons in Hsection as [->|Hsection]);
    [..|by apply elem_of_nil in Hsection].
  all: eexists _, _, _, _, _, _, _, _.
  all: split;
    [unfold ConfigObject.init;
     cbn -[ConfigObject.write_config path_exists]; rewrite Hfile; reflexivity|].
  all: split;
    [unfold ConfigObject.set; rewrite Hpath, (store_scalar v) by done;
     cbn -[ConfigObject.obj_set ConfigObject.write_config]; reflexivity|].
  all: split;
    [unfold ConfigObject.reset_to_defaults;
     cbn -[ConfigObject.obj_set ConfigObject.write_config]; reflexivity|].
  all: split; [reflexivity|]. all: split; [discriminate|].
  all: unfold ConfigObject.get; rewrite Hpath.
  all: cbn -[ConfigObject.obj_set]; rewrite obj_get_set_eq; done.
Qed.

(** X8: a key that [set] adds at the top of the configuration is gone
    after [reset_to_defaults]: the top dictionary is the copy, and the
    defaults do not have the key. *)
Theorem reset_removes_added_keys (file key : string) (v fallback : value)
    (fs : filesystem)
    (Hfile : path_exists fs file = false)
    (Hkey : key ∉ default_sections)
    (Hpath : split "." key = [key])
    (Hvalue : is_dict v = false) :
  ∃ self h fs1 h2 fs2 self3 h3 fs3,
    ConfigObject.init file fs = Ok (self, h, fs1) ∧
    ConfigObject.set self key v h fs1 = Ok (h2, fs2) ∧
    ConfigObject.get self h2 key fallback = Ok (ConfigObject.Val v) ∧
    ConfigObject.reset_to_defaults self h2 fs2 = Ok (self3, h3, fs3) ∧
    ConfigObject.get self3 h3 key fallback = Ok (ConfigObject.Val fallback).
Proof.
  unfold default_sections in Hkey.
  rewrite !not_elem_of_cons in Hkey. destruct Hkey as (H1 & H2 & H3 & H4 & _).
  eexists _, _, _, _, _, _, _, _.
  split.
  { unfold ConfigObject.init.
    cbn -[ConfigObject.write_config path_exists]. rewrite Hfile. reflexivity. }
  split.
  { unfold ConfigObject.set. rewrite Hpath, (store_scalar v) by done.
    cbn -[ConfigObject.obj_set ConfigObject.write_config]. reflexivity. }
  split.
  { unfold ConfigObject.get. rewrite Hpath.
    cbn -[ConfigObject.obj_set]. by rewrite obj_get_set_eq. }
  split.
  { unfold ConfigObject.reset_to_defaults.
    cbn -[ConfigObject.obj_set ConfigObject.write_config]. reflexivity. }
  unfold ConfigObject.get. rewrite Hpath. cbn -[String.eqb].
  destruct (String.eqb_spec "reddit" key); [by subst|].
  destruct (String.eqb_spec "summarizer" key); [by subst|].
  destruct (String.eqb_spec "storage" key); [by subst|].
  destruct (String.eqb_spec "filters" key); [by subst|]. done.
Qed.

End SharedDefaults.

(** ** main.py: the [search] command *)










Section Search.
Context {P : PythonLib} {W : Type} {S : Services W} {L : RedditPosts.Listings}.





End Search.

(** ** The statements at concrete inputs *)

(** C1 fails for the empty file name: [save_posts] then writes to the
    default, time-stamped name and succeeds, and [load_posts] on the empty
    name opens the data directory itself and returns the empty list. *)
Lemma save_load_empty_filename :
  (DataStorage.save_posts (J := Examples.json) (DataStorage.Make "data")
     [VDict Examples.post1] (Some "") Examples.new_year Examples.data_fs).1
    = "data/reddit_posts_20240101_000000.json" ∧
  json_load (JsonLib := Examples.json)
    (json_dump (JsonLib := Examples.json) false (VList [VDict Examples.post1]))
    = Ok (VList [VDict Examples.post1]) ∧
  DataStorage.load_posts (J := Examples.json) (DataStorage.Make "data") ""
    (DataStorage.save_posts (J := Examples.json) (DataStorage.Make "data")
       [VDict Examples.post1] (Some "") Examples.new_year Examples.data_fs).2
    = VList [].
Proof. split; [|split]; vm_compute; reflexivity. Qed.

(** The floats of the examples are read back. *)
Lemma example_floats_round_trip bits text :
  (bits, text) ∈ Examples.float_table →
  float_round_trips (P := Examples.python) (Float64 bits).
Proof.
  intros Hin. unfold Examples.float_table in Hin.
  repeat (apply elem_of_cons in Hin as [[= -> ->]|Hin]);
    [..|by apply elem_of_nil in Hin].
  all: split; [reflexivity|];
       intros fuel rest [->|(c & r & -> & [->| ->])]%ends_value_cases; reflexivity.
Qed.

Lemma example_posts_encodable :
  encodable (P := Examples.python) false
    (VList [VDict Examples.post1; VDict Examples.post2]).
Proof.
  cbn -[float_round_trips].
  repeat split;
    try done;
    try (apply (bool_decide_unpack _); vm_compute; exact I);
    eapply example_floats_round_trip;
    unfold Examples.float_table;
    repeat (first [apply list_elem_of_here | apply list_elem_of_further]).
Qed.


Lemma save_load_roundtrip_witness :
  (DataStorage.save_posts (J := Examples.json) (DataStorage.Make "data")
     [VDict Examples.post1; VDict Examples.post2] (Some "posts.json")
     Examples.new_year Examples.data_fs).1 ≠ "" ∧
  DataStorage.load_posts (J := Examples.json) (DataStorage.Make "data") "posts.json"
    (DataStorage.save_posts (J := Examples.json) (DataStorage.Make "data")
       [VDict Examples.post1; VDict Examples.post2] (Some "posts.json")
       Examples.new_year Examples.data_fs).2
    = VList [VDict Examples.post1; VDict Examples.post2].
Proof.
  assert (Hpath : (DataStorage.save_posts (J := Examples.json) (DataStorage.Make "data")
                     [VDict Examples.post1; VDict Examples.post2] (Some "posts.json")
                     Examples.new_year Examples.data_fs).1 ≠ "")
    by (vm_compute; discriminate).
  split; [exact Hpath|].
  exact (proj1 (save_load_roundtrip (P := Examples.python) (DataStorage.Make "data")
                  [VDict Examples.post1; VDict Examples.post2] (Some "posts.json")
                  Examples.new_year Examples.data_fs _ _ (surjective_pairing _) Hpath
                  example_posts_encodable)).
Defined.

Lemma merge_configs_per_key_witness :
  unique_keys [ ("reddit", VDict [("default_limit", VInt 25)]);
                ("storage", VStr "flat") ] ∧
  dict_get "filters"
    (Config._merge_configs Config.default_config
       [ ("reddit", VDict [("default_limit", VInt 25)]); ("storage", VStr "flat") ])
    = dict_get "filters" Config.default_config ∧
  dict_get "reddit"
    (Config._merge_configs Config.default_config
       [ ("reddit", VDict [("default_limit", VInt 25)]); ("storage", VStr "flat") ])
    = Some (VDict [ ("default_limit", VInt 25); ("default_sort", VStr "hot");
                    ("user_agent", VStr "RedditCrawler/1.0") ]) ∧
  dict_get "storage"
    (Config._merge_configs Config.default_config
       [ ("reddit", VDict [("default_limit", VInt 25)]); ("storage", VStr "flat") ])
    = Some (VStr "flat").
Proof.
  assert (Hu : unique_keys [ ("reddit", VDict [("default_limit", VInt 25)]);
                             ("storage", VStr "flat") ]).
  { unfold unique_keys. simpl. apply (bool_decide_unpack _). vm_compute. exact I. }
  destruct (merge_configs_per_key Config.default_config _ Hu) as (Hkeep & Hrec & Hwin).
  split; [exact Hu|]. split; [|split].
  - apply Hkeep. reflexivity.
  - rewrite (Hrec "reddit" _ _ eq_refl eq_refl). reflexivity.
  - eapply Hwin; reflexivity.
Defined.



Lemma summarize_multiple_posts_sequential_witness :
  forallb post_record [Examples.post1; Examples.post2] = true ∧
  PostSummarizer.summarize_multiple_posts (P := Examples.python) (S := Examples.services)
    [Examples.post1; Examples.post2] true
    (Examples.Scripted [Ok "  Street coffee, mostly. "; Raise (ApiError "quota")] 40000)
  = PostSummarizer.summarize_multiple_posts (P := Examples.python) (S := Examples.services)
      [Examples.post1; Examples.post2] false
      (Examples.Scripted [Ok "  Street coffee, mostly. "; Raise (ApiError "quota")] 40000).
Proof.
  assert (Hposts : forallb post_record [Examples.post1; Examples.post2] = true)
    by reflexivity.
  split; [exact Hposts|].
  exact (proj1 (proj2 (summarize_multiple_posts_sequential
                         (P := Examples.python) (S := Examples.services)
                         [Examples.post1; Examples.post2] true
                         (Examples.Scripted [Ok "  Street coffee, mostly. ";
                                             Raise (ApiError "quota")] 40000)
                         Hposts))).
Defined.



Lemma get_post_comments_bounded_witness :
  (0 ≤ 2)%Z ∧
  (Z.of_nat (length (RedditClient.get_post_comments (A := Examples.api) "1abc9z" 2)) ≤ 2)%Z ∧
  RedditClient.get_post_comments (A := Examples.api) "deleted" 2 = [].
Proof.
  assert (Hlimit : (0 ≤ 2)%Z) by lia.
  split; [exact Hlimit|].
  destruct (get_post_comments_bounded (A := Examples.api) "1abc9z" 2)
    as (Hlen & _ & _).
  destruct (get_post_comments_bounded (A := Examples.api) "deleted" 2)
    as (_ & _ & Hfail).
  split; [exact (Hlen Hlimit)|]. eapply Hfail. reflexivity.
Defined.

(** C8 fails for a negative limit, which is a slice bound counted from the
    end of the forest: with [limit = -1] the last of the four objects is
    dropped and the two comments among the first three are returned. *)
Lemma get_post_comments_negative_limit :
  length (RedditClient.get_post_comments (A := Examples.api) "1abc9z" (-1)) = 2%nat ∧
  ¬ (Z.of_nat (length (RedditClient.get_post_comments (A := Examples.api) "1abc9z" (-1)))
     ≤ -1)%Z.
Proof. split; [reflexivity|]. vm_compute. by intros H; apply H. Qed.

(** C10 fails when the settings file cannot be created: the defaults are
    kept in memory and no file is written. *)
Lemma defaults_not_written_when_unwritable :
  path_exists Examples.no_settings_dir_fs "missing/config.json" = false ∧
  Config.init (J := Examples.json) "missing/config.json" Examples.no_settings_dir_fs
    = Ok (Config.Make "missing/config.json" (VDict Config.default_config),
          Examples.no_settings_dir_fs) ∧
  files Examples.no_settings_dir_fs !! "missing/config.json" = None.
Proof. split; [|split]; vm_compute; reflexivity. Qed.

(** With a writable location the defaults are written and a second
    construction reads them back. *)
Lemma defaults_written_and_reloaded :
  ∃ fs',
    Config.init (J := Examples.json) "config.json" Examples.empty_fs
      = Ok (Examples.default_store, fs') ∧
    files fs' !! "config.json"
      = Some (json_dump (JsonLib := Examples.json) true (VDict Config.default_config)) ∧
    Config.init (J := Examples.json) "config.json" fs' = Ok (Examples.default_store, fs').
Proof.
  eexists. split; [vm_compute; reflexivity|]. split; vm_compute; reflexivity.
Qed.

(** ** The further properties at concrete inputs *)

Definition sample_user : dict :=
  [ ("reddit", VDict [("default_limit", VInt 25)]);
    ("storage", VStr "flat");
    ("alerts", VBool true) ].

Lemma default_config_well_formed : well_formed (VDict Config.default_config).
Proof. cbn. repeat split; apply (bool_decide_unpack _); vm_compute; exact I. Qed.

Lemma sample_user_well_formed : well_formed (VDict sample_user).
Proof. cbn. repeat split; apply (bool_decide_unpack _); vm_compute; exact I. Qed.

Lemma merge_configs_key_order_witness :
  unique_keys Config.default_config ∧ unique_keys sample_user ∧
  keys (Config._merge_configs Config.default_config sample_user)
  = ["reddit"; "summarizer"; "storage"; "filters"; "alerts"].
Proof.
  assert (Hd : unique_keys Config.default_config) by apply default_config_well_formed.
  assert (Hu : unique_keys sample_user) by apply sample_user_well_formed.
  split; [exact Hd|]. split; [exact Hu|].
  rewrite (proj1 (merge_configs_key_order _ _ Hd Hu)). reflexivity.
Defined.

Lemma merge_configs_idempotent_witness :
  well_formed (VDict Config.default_config) ∧ well_formed (VDict sample_user) ∧
  Config._merge_configs Config.default_config
    (Config._merge_configs Config.default_config sample_user)
  = Config._merge_configs Config.default_config sample_user.
Proof.
  split; [exact default_config_well_formed|].
  split; [exact sample_user_well_formed|].
  exact (proj1 (merge_configs_idempotent _ _ default_config_well_formed
                  sample_user_well_formed)).
Defined.

Lemma merge_user_value_wins_witness :
  well_formed (VDict sample_user) ∧
  resolves (VDict sample_user) (split "." "reddit.default_limit") (VInt 25) ∧
  is_dict (VInt 25) = false ∧
  Config.get (Config.Make "config.json"
                (VDict (Config._merge_configs Config.default_config sample_user)))
    "reddit.default_limit" VNone = Ok (VInt 25).
Proof.
  assert (Hpath : resolves (VDict sample_user) (split "." "reddit.default_limit")
                    (VInt 25)).
  { eapply resolves_step; [reflexivity|].
    eapply resolves_step; [reflexivity|]. apply resolves_here. }
  split; [exact sample_user_well_formed|]. split; [exact Hpath|].
  split; [reflexivity|].
  exact (merge_user_value_wins Config.default_config sample_user "config.json"
           "reddit.default_limit" (VInt 25) VNone sample_user_well_formed Hpath eq_refl).
Defined.

Lemma merge_defaults_fill_in_witness :
  well_formed (VDict sample_user) ∧
  resolves (VDict Config.default_config) (split "." "reddit.default_sort") (VStr "hot") ∧
  untouched (VDict sample_user) (split "." "reddit.default_sort") = true ∧
  Config.get (Config.Make "config.json"
                (VDict (Config._merge_configs Config.default_config sample_user)))
    "reddit.default_sort" VNone = Ok (VStr "hot").
Proof.
  assert (Hpath : resolves (VDict Config.default_config)
                    (split "." "reddit.default_sort") (VStr "hot")).
  { eapply resolves_step; [reflexivity|].
    eapply resolves_step; [reflexivity|]. apply resolves_here. }
  split; [exact sample_user_well_formed|]. split; [exact Hpath|].
  split; [reflexivity|].
  exact (merge_defaults_fill_in Config.default_config sample_user "config.json"
           "reddit.default_sort" (VStr "hot") VNone sample_user_well_formed Hpath eq_refl).
Defined.

Lemma set_keeps_other_paths_witness :
  ∃ self' fs',
    Config.set (J := Examples.json) Examples.default_store "reddit.default_limit"
      (VInt 25) Examples.empty_fs = Ok (self', fs') ∧
    diverge (split "." "reddit.default_limit") (split "." "reddit.default_sort") = true ∧
    Config.get self' "reddit.default_sort" VNone = Ok (VStr "hot") ∧
    Config.get self' "reddit.default_limit" VNone = Ok (VInt 25).
Proof.
  destruct (Config.set (J := Examples.json) Examples.default_store
              "reddit.default_limit" (VInt 25) Examples.empty_fs)
    as [[self' fs']|e] eqn:Hset; [|vm_compute in Hset; discriminate Hset].
  exists self', fs'. split; [reflexivity|]. split; [reflexivity|]. split.
  - rewrite (set_keeps_other_paths (J := Examples.json) Examples.default_store self'
               "reddit.default_limit" "reddit.default_sort" (VInt 25) VNone
               Examples.empty_fs fs' Hset eq_refl).
    reflexivity.
  - vm_compute in Hset. injection Hset as <- _. reflexivity.
Defined.

Lemma summarize_multiple_posts_aborts_witness :
  forallb post_record [Examples.post1] = true ∧
  dict_get "title" [("id", VStr "1abd01")] = None ∧
  ∃ out w',
    summarize_each (P := Examples.python) (S := Examples.services) [Examples.post1]
      (Examples.Scripted [Ok "Street coffee, mostly."] 0) = (Ok out, w') ∧
    length out = 1%nat ∧
    PostSummarizer.summarize_multiple_posts (P := Examples.python)
      (S := Examples.services)
      ([Examples.post1] ++ [("id", VStr "1abd01")] :: [Examples.post2]) false
      (Examples.Scripted [Ok "Street coffee, mostly."] 0)
    = (Raise (KeyError "title"), w').
Proof.
  split; [reflexivity|]. split; [reflexivity|].
  exact (summarize_multiple_posts_aborts (P := Examples.python) (S := Examples.services)
           [Examples.post1] [("id", VStr "1abd01")] [Examples.post2] false
           (Examples.Scripted [Ok "Street coffee, mostly."] 0) eq_refl eq_refl).
Defined.

Lemma new_year_valid : valid_datetime Examples.new_year.
Proof. unfold valid_datetime. simpl. lia. Qed.

Lemma next_morning_valid : valid_datetime Samples.next_morning.
Proof. unfold valid_datetime. simpl. lia. Qed.

Lemma list_saved_files_newest_first_witness :
  path_exists Examples.data_fs "data" = true ∧
  os_listdir (FileOps := Samples.file_ops) Examples.data_fs "data"
  = Ok Samples.data_listing ∧
  earlier Examples.new_year Samples.next_morning ∧
  DataFiles.list_saved_files (O := Samples.file_ops) (DataStorage.Make "data")
    Examples.data_fs
  = Ok [ ("json", VList [ VStr "travel_hot_20240101_120000.json";
                          VStr "reddit_posts_20240102_083000.json";
                          VStr "reddit_posts_20240101_000000.json" ]);
         ("md", VList [ VStr "reddit_digest_20240102_090000.md" ]) ].
Proof.
  assert (Hexists : path_exists Examples.data_fs "data" = true) by reflexivity.
  assert (Hlisting : os_listdir (FileOps := Samples.file_ops) Examples.data_fs "data"
                     = Ok Samples.data_listing) by reflexivity.
  assert (Hearlier : earlier Examples.new_year Samples.next_morning).
  { unfold earlier, datetime_key. simpl. lia. }
  split; [exact Hexists|]. split; [exact Hlisting|]. split; [exact Hearlier|].
  destruct (list_saved_files_newest_first (O := Samples.file_ops) (DataStorage.Make "data")
              Examples.data_fs Samples.data_listing Examples.new_year Samples.next_morning
              Hexists Hlisting new_year_valid next_morning_valid Hearlier)
    as (json_files & md_files & i & j & Hlist & _).
  - unfold Samples.data_listing. apply list_elem_of_here.
  - unfold Samples.data_listing. do 3 apply list_elem_of_further. apply list_elem_of_here.
  - reflexivity.
Defined.

Lemma fetch_nothing_found_witness :
  is_ok (RedditPosts.hot (Listings := Samples.listings) "nosuchplace" 10) = false ∧
  Commands.fetch (P := Examples.python) (J := Json.python_json Examples.python)
    (S := Examples.services) (L := Samples.listings) (DataStorage.Make "data")
    "nosuchplace" 10 "top" true true false Examples.data_fs
    (Examples.Scripted [Ok "unused"] 0)
  = (Ok ([], Examples.data_fs), Examples.Scripted [Ok "unused"] 0).
Proof.
  split; [reflexivity|].
  exact (proj2 (fetch_nothing_found (P := Examples.python) (S := Examples.services)
                  (L := Samples.listings) (DataStorage.Make "data") "nosuchplace" 10
                  "top" true true false Examples.data_fs
                  (Examples.Scripted [Ok "unused"] 0) eq_refl eq_refl eq_refl eq_refl)).
Defined.




Lemma set_config_then_get_witness :
  ascii_text "25" = true ∧ (String.length "25" ≤ 4300)%nat ∧
  ∃ config' fs',
    Main.set_config (P := Examples.python) (J := Examples.json) Examples.default_store
      (Some "reddit.default_limit") (Some "25") Examples.empty_fs = Ok (config', fs') ∧
    Config.get config' "reddit.default_limit" VNone = Ok (VInt 25).
Proof.
  split; [reflexivity|]. split; [simpl; lia|].
  destruct (Main.set_config (P := Examples.python) (J := Examples.json)
              Examples.default_store (Some "reddit.default_limit") (Some "25")
              Examples.empty_fs)
    as [[config' fs']|e] eqn:Hset; [|vm_compute in Hset; discriminate Hset].
  exists config', fs'. split; [reflexivity|].
  destruct (set_config_then_get (P := Examples.python) (J := Examples.json)
              Examples.default_store config' "reddit.default_limit" "25"
              Examples.empty_fs fs' VNone eq_refl ltac:(simpl; lia)
              ltac:(discriminate) ltac:(discriminate) Hset)
    as (v & Hcoerce & Hget & _ & _ & Hint & _).
  rewrite Hget. f_equal. apply Hint. reflexivity.
Defined.

(** The [digest] command on a posts file whose name has no [.json]:
    the digest replaces the posts. *)
Lemma digest_overwrites_plain_name :
  DataStorage.load_posts (J := Examples.json) (DataStorage.Make "data") "posts"
    Samples.plain_name_fs = VList [VDict Examples.post2] ∧
  ∃ fs' w' text,
    Commands.digest (P := Examples.python) (J := Examples.json) (S := Examples.services)
      (DataStorage.Make "data") "posts" true Samples.plain_name_fs
      (Examples.Scripted [Ok "One weekly thread."] 0) = (Ok fs', w') ∧
    files fs' !! "data/posts" = Some text ∧
    String.prefix "# Reddit Posts Digest" text = true ∧
    DataStorage.load_posts (J := Examples.json) (DataStorage.Make "data") "posts" fs'
    = VList [].
Proof.
  split; [vm_compute; reflexivity|].
  eexists _, _, _. split; [vm_compute; reflexivity|].
  split; [vm_compute; reflexivity|]. split; vm_compute; reflexivity.
Qed.

(** [validate_config] accepts [True] as a limit and rejects a float. *)
Lemma validate_config_boolean_limit :
  Settings.validate_config
    (Config.Make "config.json" (VDict [("reddit", VDict [("default_limit", VBool true)])]))
    {[ "REDDIT_CLIENT_ID" := "id"; "REDDIT_CLIENT_SECRET" := "secret";
       "GEMINI_API_KEY" := "key" ]} = Ok [] ∧
  Settings.validate_config
    (Config.Make "config.json"
       (VDict [("reddit", VDict [("default_limit", VFloat (Float64 0x3ff0000000000000))])]))
    {[ "REDDIT_CLIENT_ID" := "id"; "REDDIT_CLIENT_SECRET" := "" ]}
  = Ok [ ("reddit_client_secret", VStr Settings.client_secret_required);
         ("gemini_api_key", VStr Settings.api_key_required);
         ("reddit_limit", VStr Settings.limit_not_positive) ].
Proof. split; vm_compute; reflexivity. Qed.

Lemma reset_keeps_changed_defaults_witness :
  path_exists Examples.empty_fs "config.json" = false ∧
  split "." "reddit.default_limit" = ["reddit"; "default_limit"] ∧
  ∃ self h fs1 h2 fs2 self3 h3 fs3,
    ConfigObject.init (J := Examples.json) "config.json" Examples.empty_fs
    = Ok (self, h, fs1) ∧
    ConfigObject.set (J := Examples.json) self "reddit.default_limit" (VInt 25) h fs1
    = Ok (h2, fs2) ∧
    ConfigObject.reset_to_defaults (J := Examples.json) self h2 fs2
    = Ok (self3, h3, fs3) ∧
    ConfigObject.get self3 h3 "reddit.default_limit" VNone
    = Ok (ConfigObject.Val (VInt 25)).
Proof.
  split; [reflexivity|]. split; [reflexivity|].
  destruct (reset_keeps_changed_defaults (J := Examples.json) "config.json"
              "reddit.default_limit" "reddit" "default_limit" (VInt 25) VNone
              Examples.empty_fs eq_refl (list_elem_of_here _ _) eq_refl eq_refl)
    as (self & h & fs1 & h2 & fs2 & self3 & h3 & fs3 & Hinit & Hset & Hreset & _ & _ &
        Hget & _).
  exists self, h, fs1, h2, fs2, self3, h3, fs3. auto.
Defined.

Lemma reset_removes_added_keys_witness :
  path_exists Examples.empty_fs "config.json" = false ∧
  split "." "debug" = ["debug"] ∧
  ∃ self h fs1 h2 fs2 self3 h3 fs3,
    ConfigObject.init (J := Examples.json) "config.json" Examples.empty_fs
    = Ok (self, h, fs1) ∧
    ConfigObject.set (J := Examples.json) self "debug" (VBool true) h fs1
    = Ok (h2, fs2) ∧
    ConfigObject.get self h2 "debug" VNone = Ok (ConfigObject.Val (VBool true)) ∧
    ConfigObject.reset_to_defaults (J := Examples.json) self h2 fs2
    = Ok (self3, h3, fs3) ∧
    ConfigObject.get self3 h3 "debug" VNone = Ok (ConfigObject.Val VNone).
Proof.
  split; [reflexivity|]. split; [reflexivity|].
  apply (reset_removes_added_keys (J := Examples.json) "config.json" "debug"
           (VBool true) VNone Examples.empty_fs eq_refl); [|reflexivity|reflexivity].
  unfold default_sections. rewrite !not_elem_of_cons.
  repeat split; try discriminate. apply not_elem_of_nil.
Defined.

(** The settings file after [set] and after [reset_to_defaults], with
    the dictionaries as shared objects: both hold the limit that was set,
    and the text that [set] writes is the one the value-level [Config.set]
    writes. *)
Lemma reset_writes_changed_defaults :
  ∃ self h fs1 h2 fs2 self3 h3 fs3 saved,
    ConfigObject.init (J := Examples.json) "config.json" Examples.empty_fs
    = Ok (self, h, fs1) ∧
    ConfigObject.set (J := Examples.json) self "reddit.default_limit" (VInt 25) h fs1
    = Ok (h2, fs2) ∧
    ConfigObject.reset_to_defaults (J := Examples.json) self h2 fs2
    = Ok (self3, h3, fs3) ∧
    Config.set (J := Examples.json) Examples.default_store "reddit.default_limit"
      (VInt 25) fs1 = Ok (saved, fs2) ∧
    files fs2 !! "config.json"
    = Some (json_dump (JsonLib := Examples.json) true (Config.config saved)) ∧
    files fs3 !! "config.json" = files fs2 !! "config.json" ∧
    Config.get saved "reddit.default_limit" VNone = Ok (VInt 25).
Proof.
  eexists _, _, _, _, _, _, _, _, _.
  split; [vm_compute; reflexivity|]. split; [vm_compute; reflexivity|].
  split; [vm_compute; reflexivity|]. split; [vm_compute; reflexivity|].
  split; [vm_compute; reflexivity|]. split; vm_compute; reflexivity.
Qed.

Lemma signed_limit_is_text_witness :
  ∃ config' fs',
    Main.set_config (P := Examples.python) (J := Examples.json) Examples.default_store
      (Some "reddit.default_limit") (Some "-5") Examples.empty_fs = Ok (config', fs') ∧
    Config.get config' "reddit.default_limit" VNone = Ok (VStr "-5") ∧
    ∃ errors,
      Settings.validate_config config'
        {[ "REDDIT_CLIENT_ID" := "id"; "REDDIT_CLIENT_SECRET" := "secret";
           "GEMINI_API_KEY" := "key" ]} = Ok errors ∧
      dict_get "reddit_limit" errors = Some (VStr Settings.limit_not_positive).
Proof.
  destruct (Main.set_config (P := Examples.python) (J := Examples.json)
              Examples.default_store (Some "reddit.default_limit") (Some "-5")
              Examples.empty_fs)
    as [[config' fs']|e] eqn:Hset; [|vm_compute in Hset; discriminate Hset].
  exists config', fs'. split; [reflexivity|].
  exact (proj2 (signed_limit_is_text (P := Examples.python) (J := Examples.json)
                  Examples.default_store config' "5" Examples.empty_fs fs' _ Hset)).
Defined.


